(** * LowBandwidth.Online: the strategy-fallback client of [ai/ai.go]

    A shallow embedding of the MCP gateway client: the JSON values it
    inspects, the text extractor, the request-id counter, the session
    negotiation and the three probing strategies of [GatherInformation];
    and the database connection of [db.NewDB].

    Conventions.
    - Go's [int] is the 64-bit two's complement integer of the usual targets;
      it is a [Z] normalised by [wrap].
    - A Go [string] is a byte sequence: a [string] of [ascii] bytes.
    - A value of type [interface{}] that came out of [encoding/json] is a
      [JSON] tree.  A [float64] is kept as the text [encoding/json] prints
      for it, which is the only thing the client ever does with a number.
    - The gateway, [net/http] and the decoding half of [encoding/json] are
      outside the repository: they are the fields of a [Runtime] record over
      which every definition is parametrised.
    - [fmt.Printf] lines are console logging and are left out. *)

From Stdlib Require Import ZArith List String Ascii Bool Lia.
Import ListNotations.

Set Warnings "-register-all".
Open Scope string_scope.
Open Scope Z_scope.

(* ================================================================== *)
(** ** Decoded JSON values *)
(* ================================================================== *)

Inductive JSON : Type :=
| JNull                                  (* nil *)
| JBool (b : bool)                       (* bool *)
| JNum (text : string)                   (* float64, as encoding/json prints it *)
| JStr (s : string)                      (* string *)
| JArr (items : list JSON)               (* []interface{} *)
| JObj (fields : list (string * JSON)).  (* map[string]interface{} *)

(** A Go map indexed at a key: the zero value (here [None], the nil
    interface) when the key is absent. *)
Fixpoint lookup (m : list (string * JSON)) (key : string) : option JSON :=
  match m with
  | [] => None
  | (k, v) :: rest => if String.eqb k key then Some v else lookup rest key
  end.

(* ================================================================== *)
(** ** [json.MarshalIndent (v, "", "  ")] *)
(* ================================================================== *)

Module Encode.

Definition quote : ascii := "034"%char.
Definition backslash : ascii := "092"%char.

Definition hexDigit (n : nat) : ascii :=
  match n with
  | 0%nat => "0" | 1%nat => "1" | 2%nat => "2" | 3%nat => "3"
  | 4%nat => "4" | 5%nat => "5" | 6%nat => "6" | 7%nat => "7"
  | 8%nat => "8" | 9%nat => "9" | 10%nat => "a" | 11%nat => "b"
  | 12%nat => "c" | 13%nat => "d" | 14%nat => "e" | _ => "f"
  end%char.

(** [htmlSafeSet]: the ASCII bytes copied as they are. *)
Definition htmlSafe (b : nat) : bool :=
  (Nat.leb 32 b && Nat.ltb b 128
   && negb (Nat.eqb b 34) && negb (Nat.eqb b 38) && negb (Nat.eqb b 60)
   && negb (Nat.eqb b 62) && negb (Nat.eqb b 92))%bool.

(** The escape of an ASCII byte outside [htmlSafeSet]. *)
Definition escapeByte (b : nat) : list ascii :=
  if Nat.eqb b 92 then [backslash; backslash]
  else if Nat.eqb b 34 then [backslash; quote]
  else if Nat.eqb b 8 then [backslash; "b"%char]
  else if Nat.eqb b 12 then [backslash; "f"%char]
  else if Nat.eqb b 10 then [backslash; "n"%char]
  else if Nat.eqb b 13 then [backslash; "r"%char]
  else if Nat.eqb b 9 then [backslash; "t"%char]
  else [backslash; "u"%char; "0"%char; "0"%char;
        hexDigit (Nat.div b 16); hexDigit (Nat.modulo b 16)].

Definition between (lo hi : nat) (l : list ascii) : bool :=
  match l with
  | [] => false
  | c :: _ => (Nat.leb lo (nat_of_ascii c) && Nat.leb (nat_of_ascii c) hi)%bool
  end.

(** [utf8.DecodeRuneInString] on a lead byte [b0 >= 0x80] followed by
    [rest]: the size of the rune, or [0] for [RuneError] of width 1. *)
Definition runeSize (b0 : nat) (rest : list ascii) : nat :=
  let cont2 := between 128 191 (tl rest) in
  let cont3 := between 128 191 (tl (tl rest)) in
  if (Nat.leb 194 b0 && Nat.leb b0 223)%bool then
    if between 128 191 rest then 2 else 0
  else if Nat.eqb b0 224 then
    if (between 160 191 rest && cont2)%bool then 3 else 0
  else if Nat.eqb b0 237 then
    if (between 128 159 rest && cont2)%bool then 3 else 0
  else if (Nat.leb 225 b0 && Nat.leb b0 239)%bool then
    if (between 128 191 rest && cont2)%bool then 3 else 0
  else if Nat.eqb b0 240 then
    if (between 144 191 rest && cont2 && cont3)%bool then 4 else 0
  else if (Nat.leb 241 b0 && Nat.leb b0 243)%bool then
    if (between 128 191 rest && cont2 && cont3)%bool then 4 else 0
  else if Nat.eqb b0 244 then
    if (between 128 143 rest && cont2 && cont3)%bool then 4 else 0
  else 0.

(** U+2028 and U+2029 are [E2 80 A8] and [E2 80 A9]. *)
Definition lineSeparator (b0 : nat) (rest : list ascii) : option ascii :=
  match rest with
  | c1 :: c2 :: _ =>
      if (Nat.eqb b0 226 && Nat.eqb (nat_of_ascii c1) 128)%bool then
        if Nat.eqb (nat_of_ascii c2) 168 then Some "8"%char
        else if Nat.eqb (nat_of_ascii c2) 169 then Some "9"%char
        else None
      else None
  | _ => None
  end.

(** What is left to do with the continuation bytes of the rune whose
    lead byte has just been handled. *)
Inductive pending := Copy (n : nat) | Drop (n : nat).

(** The loop of [appendString] with [escapeHTML] set. *)
Fixpoint escape (p : pending) (src : list ascii) : list ascii :=
  match src with
  | [] => []
  | c :: rest =>
      match p with
      | Copy (S n) => c :: escape (Copy n) rest
      | Drop (S n) => escape (Drop n) rest
      | _ =>
          let b := nat_of_ascii c in
          if Nat.ltb b 128 then
            if htmlSafe b then c :: escape (Copy 0) rest
            else escapeByte b ++ escape (Copy 0) rest
          else
            match runeSize b rest with
            | O =>
                [backslash; "u"; "f"; "f"; "f"; "d"]%char
                  ++ escape (Copy 0) rest
            | S k =>
                match lineSeparator b rest with
                | Some d =>
                    [backslash; "u"; "2"; "0"; "2"; d]%char
                      ++ escape (Drop k) rest
                | None => c :: escape (Copy k) rest
                end
            end
      end
  end.

Definition appendString (s : string) : string :=
  string_of_list_ascii
    (quote :: escape (Copy 0) (list_ascii_of_string s) ++ [quote]).

(** Map keys are written in increasing byte order. *)
Fixpoint insertKey (kv : string * string) (l : list (string * string))
  : list (string * string) :=
  match l with
  | [] => [kv]
  | kv' :: rest =>
      if String.leb (fst kv) (fst kv') then kv :: l
      else kv' :: insertKey kv rest
  end.

Definition sortKeys (l : list (string * string)) : list (string * string) :=
  fold_right insertKey [] l.

Definition newline (depth : nat) : string :=
  String "010"%char (concat "" (repeat "  " depth)).

(** The members of an array or object, one per line at [depth]. *)
Definition members (depth : nat) (l : list string) : string :=
  concat ("," ++ newline depth) l.

Fixpoint value (depth : nat) (v : JSON) : string :=
  match v with
  | JNull => "null"
  | JBool true => "true"
  | JBool false => "false"
  | JNum text => text
  | JStr s => appendString s
  | JArr [] => "[]"
  | JArr items =>
      "[" ++ newline (S depth)
          ++ members (S depth) (map (value (S depth)) items)
          ++ newline depth ++ "]"
  | JObj [] => "{}"
  | JObj fields =>
      let encoded :=
        (fix each (l : list (string * JSON)) : list (string * string) :=
           match l with
           | [] => []
           | (k, x) :: rest => (k, value (S depth) x) :: each rest
           end) fields in
      "{" ++ newline (S depth)
          ++ members (S depth)
               (map (fun kv => appendString (fst kv) ++ ": " ++ snd kv)
                    (sortKeys encoded))
          ++ newline depth ++ "}"
  end.

End Encode.

Definition MarshalIndent (v : JSON) : string := Encode.value 0 v.

(* ================================================================== *)
(** ** The text extractor *)
(* ================================================================== *)

Definition textFields : list string :=
  ["text"; "response"; "answer"; "result"; "output"; "message"; "content"].

(** The [for _, field := range textFields] loop: [Some text] when the body
    returns, [None] when the loop runs to its end. *)
Fixpoint textFieldLoop (resultMap : list (string * JSON)) (fields : list string)
  : option string :=
  match fields with
  | [] => None
  | field :: rest =>
      match lookup resultMap field with
      | Some (JStr text) =>
          if String.eqb text "" then textFieldLoop resultMap rest else Some text
      | _ => textFieldLoop resultMap rest
      end
  end.

(** The nested [content[0].text] attempt. *)
Definition nestedContent (resultMap : list (string * JSON)) : option string :=
  match lookup resultMap "content" with
  | Some (JArr (JObj contentItem :: _)) =>
      match lookup contentItem "text" with
      | Some (JStr text) => Some text
      | _ => None
      end
  | _ => None
  end.

Definition extractTextFromResult (result : JSON) : string :=
  match result with
  | JObj resultMap =>
      match textFieldLoop resultMap textFields with
      | Some text => text
      | None =>
          match nestedContent resultMap with
          | Some text => text
          | None => MarshalIndent result
          end
      end
  | _ => MarshalIndent result
  end.

(* ================================================================== *)
(** ** Wire types *)
(* ================================================================== *)

Definition intSize : Z := 64.

(** A Go [int] after an arithmetic operation. *)
Definition wrap (z : Z) : Z :=
  (z + 2 ^ (intSize - 1)) mod 2 ^ intSize - 2 ^ (intSize - 1).

Record MCPRequest := {
  JSONRPC : string;
  ID : Z;
  Method : string;
  Params : JSON
}.

Record MCPError := {
  Code : Z;
  Message : string;
  Data : JSON
}.

Record MCPResponse := {
  RespJSONRPC : string;
  RespID : Z;
  Result : JSON;
  Error : option MCPError
}.

Record SessionResponse := {
  SessionID : string;
  Status : string
}.

Record MCPClient := {
  BaseURL : string;
  nextID : Z;
  sessionID : string
}.

(** What a request is built from: the value handed to [json.Marshal], a
    literal byte string, or no body at all. *)
Inductive Body :=
| NoBody
| RawBody (bytes : string)
| JSONBody (v : JSON)
| RPCBody (request : MCPRequest).

Record Request := {
  ReqMethod : string;
  URL : string;
  ReqHeader : list (string * string);
  ReqBody : Body
}.

Record Cookie := {
  Name : string;
  Value : string
}.

Record Response := {
  StatusCode : Z;
  RespBody : string;          (* what io.ReadAll returns *)
  ReadError : bool;           (* whether io.ReadAll also returns an error *)
  HeaderGet : string -> string;   (* resp.Header.Get *)
  Cookies : list Cookie       (* resp.Cookies() *)
}.

(** Go [error] values: the [fmt.Errorf] sites of the client by format string
    and arguments, and the errors produced by the standard library. *)
Inductive error :=
| Errorf (format : string)
| ErrorfS (format : string) (s : string)
| ErrorfDS (format : string) (d : Z) (s : string)
| ErrorfW (format : string) (cause : error)
| LibError (origin : string).

(** A Go [(T, error)] pair, of which the client reads one side only. *)
Inductive result (T : Type) :=
| Ok (v : T)
| Err (e : error).
Arguments Ok {T} v.
Arguments Err {T} e.

(** The world outside the repository.  The gateway answers a request knowing
    every request it has been sent before; [None] is a transport error. *)
Record Runtime := {
  url_ok : string -> bool;                               (* http.NewRequest *)
  client_do : list Request -> Request -> option Response;     (* c.Client.Do *)
  unmarshal_session : string -> option SessionResponse;
  unmarshal_map : string -> option (option (list (string * JSON)));
  unmarshal_response : string -> option MCPResponse
}.

(** A [map[string]interface{}] variable after a successful [json.Unmarshal]:
    the body [null] leaves the nil map, which no key indexes and which
    prints like nil. *)
Definition ofMap (m : option (list (string * JSON))) : JSON :=
  match m with
  | Some fields => JObj fields
  | None => JNull
  end.

(* ================================================================== *)
(** ** [url.Values.Encode] *)
(* ================================================================== *)

Module Query.

Definition upperHex (n : nat) : ascii :=
  match n with
  | 10%nat => "A" | 11%nat => "B" | 12%nat => "C"
  | 13%nat => "D" | 14%nat => "E" | 15%nat => "F"
  | _ => Encode.hexDigit n
  end%char.

Definition unreserved (b : nat) : bool :=
  ((Nat.leb 48 b && Nat.leb b 57) || (Nat.leb 65 b && Nat.leb b 90)
   || (Nat.leb 97 b && Nat.leb b 122)
   || Nat.eqb b 45 || Nat.eqb b 95 || Nat.eqb b 46 || Nat.eqb b 126)%bool.

Fixpoint QueryEscape (s : string) : string :=
  match s with
  | EmptyString => EmptyString
  | String c rest =>
      let b := nat_of_ascii c in
      if unreserved b then String c (QueryEscape rest)
      else if Nat.eqb b 32 then String "+"%char (QueryEscape rest)
      else String "%"%char
             (String (upperHex (Nat.div b 16))
                (String (upperHex (Nat.modulo b 16)) (QueryEscape rest)))
  end.

(** Keys in increasing order, each as [key=value], joined by [&]. *)
Definition Encode (params : list (string * string)) : string :=
  concat "&"
    (map (fun kv => QueryEscape (fst kv) ++ "=" ++ QueryEscape (snd kv))
         (Encode.sortKeys params)).

End Query.

(* ================================================================== *)
(** ** Runs of the client *)
(* ================================================================== *)

(** A method of [*MCPClient] reads and writes the client it is called on and
    performs HTTP requests; [log] is the chronological list of the requests
    handed to [c.Client.Do].  A run returns, or panics. *)
Inductive Run (A : Type) :=
| Done (a : A) (c : MCPClient) (log : list Request)
| Panicked (msg : string) (c : MCPClient) (log : list Request).
Arguments Done {A} a c log.
Arguments Panicked {A} msg c log.

Definition M (A : Type) : Type := MCPClient -> list Request -> Run A.

Definition ret {A} (a : A) : M A := fun c log => Done a c log.

Definition bind {A B} (m : M A) (k : A -> M B) : M B :=
  fun c log =>
    match m c log with
    | Done a c' log' => k a c' log'
    | Panicked msg c' log' => Panicked msg c' log'
    end.

Notation "x <- m ;; k" := (bind m (fun x => k))
  (at level 61, m at next level, right associativity).

Definition panic {A} (msg : string) : M A := fun c log => Panicked msg c log.

Definition getClient : M MCPClient := fun c log => Done c c log.

Definition setSessionID (s : string) : M unit :=
  fun c log =>
    Done tt {| BaseURL := BaseURL c; nextID := nextID c; sessionID := s |} log.

Definition logOf {A} (r : Run A) : list Request :=
  match r with
  | Done _ _ log => log
  | Panicked _ _ log => log
  end.

Definition clientOf {A} (r : Run A) : MCPClient :=
  match r with
  | Done _ c _ => c
  | Panicked _ c _ => c
  end.

(** [http.NewRequest]: fails on a URL that does not parse. *)
Definition NewRequest (rt : Runtime) (method url : string) (body : Body)
  : option Request :=
  if url_ok rt url
  then Some {| ReqMethod := method; URL := url; ReqHeader := [];
               ReqBody := body |}
  else None.

(** [req.Header.Set]: the value replaces any earlier one under [key]. *)
Definition HeaderSet (key value : string) (req : Request) : Request :=
  {| ReqMethod := ReqMethod req; URL := URL req;
     ReqHeader :=
       filter (fun kv => negb (String.eqb (fst kv) key)) (ReqHeader req)
         ++ [(key, value)];
     ReqBody := ReqBody req |}.

(** [c.Client.Do (req)]. *)
Definition Do (rt : Runtime) (req : Request) : M (option Response) :=
  fun c log => Done (client_do rt log req) c (log ++ [req]).

Definition NewMCPClient (baseURL : string) : MCPClient :=
  {| BaseURL := baseURL; nextID := 1; sessionID := "" |}.

Definition getNextID : M Z :=
  fun c log =>
    let id := nextID c in
    Done id {| BaseURL := BaseURL c; nextID := wrap (nextID c + 1);
               sessionID := sessionID c |} log.

Definition jsonHeaders (req : Request) : Request :=
  HeaderSet "Accept" "application/json"
    (HeaderSet "Content-Type" "application/json" req).

Definition sessionHeaders (c : MCPClient) (req : Request) : Request :=
  if String.eqb (sessionID c) "" then req
  else HeaderSet "Session-ID" (sessionID c)
         (HeaderSet "X-Session-ID" (sessionID c) req).

Definition isSessionCookie (cookie : Cookie) : bool :=
  (String.eqb (Name cookie) "session_id"
   || String.eqb (Name cookie) "sessionId")%bool.

Definition initParams : JSON :=
  JObj [("protocolVersion", JStr "2024-11-05");
        ("capabilities", JObj [("tools", JObj [])]);
        ("clientInfo", JObj [("name", JStr "golang-mcp-client");
                             ("version", JStr "1.0.0")])].

Section Client.

Variable rt : Runtime.

(** The token search of [initializeWithSession], which is also the tail of
    the one in [CreateSession]: the header, then the cookies. *)
Definition headerOrCookie (resp : Response) : option string :=
  if negb (String.eqb (HeaderGet resp "X-Session-ID") "")
  then Some (HeaderGet resp "X-Session-ID")
  else option_map Value (find isSessionCookie (Cookies resp)).

Definition initializeWithSession : M (option error) :=
  c <- getClient ;;
  let initURL := BaseURL c ++ "/initialize" in
  match NewRequest rt "POST" initURL (JSONBody initParams) with
  | None =>
      ret (Some (ErrorfW "failed to create initialization request: %w"
                   (LibError "http.NewRequest")))
  | Some req =>
      resp <- Do rt (jsonHeaders req) ;;
      match resp with
      | None =>
          ret (Some (ErrorfW "failed to send initialization request: %w"
                       (LibError "http.Client.Do")))
      | Some resp =>
          match headerOrCookie resp with
          | Some sessionID => _ <- setSessionID sessionID ;; ret None
          | None => ret (Some (Errorf "could not establish session"))
          end
      end
  end.

(** The token a 200/201 answer of a session endpoint yields, if any. *)
Definition sessionToken (resp : Response) : option string :=
  match unmarshal_session rt (RespBody resp) with
  | Some sessionResp =>
      if negb (String.eqb (SessionID sessionResp) "")
      then Some (SessionID sessionResp)
      else headerOrCookie resp
  | None => headerOrCookie resp
  end.

(** The loop of [CreateSession]: [true] when the body returned nil. *)
Fixpoint CreateSession_loop (sessionEndpoints : list string) : M bool :=
  match sessionEndpoints with
  | [] => ret false
  | endpoint :: rest =>
      c <- getClient ;;
      let sessionURL := BaseURL c ++ endpoint in
      match NewRequest rt "POST" sessionURL (RawBody "{}") with
      | None => CreateSession_loop rest
      | Some req =>
          resp <- Do rt (jsonHeaders req) ;;
          match resp with
          | None => CreateSession_loop rest
          | Some resp =>
              if (StatusCode resp =? 200) || (StatusCode resp =? 201) then
                match sessionToken resp with
                | Some sessionID => _ <- setSessionID sessionID ;; ret true
                | None => CreateSession_loop rest
                end
              else CreateSession_loop rest
          end
      end
  end.

Definition sessionEndpoints : list string :=
  ["/session"; "/api/session"; "/sessions"; "/create-session"].

Definition CreateSession : M (option error) :=
  returned <- CreateSession_loop sessionEndpoints ;;
  if returned : bool then ret None else initializeWithSession.

(** [sendRequest].  [json.Marshal] cannot fail on the requests the client
    builds (strings and maps of strings), so its error branch is dead. *)
Definition sendRequest (request : MCPRequest) : M (result MCPResponse) :=
  c <- getClient ;;
  match NewRequest rt "POST" (BaseURL c) (RPCBody request) with
  | None =>
      ret (Err (ErrorfW "failed to create request: %w"
                  (LibError "http.NewRequest")))
  | Some req =>
      resp <- Do rt (sessionHeaders c (jsonHeaders req)) ;;
      match resp with
      | None =>
          ret (Err (ErrorfW "failed to send request: %w"
                      (LibError "http.Client.Do")))
      | Some resp =>
          if ReadError resp then
            ret (Err (ErrorfW "failed to read response: %w"
                        (LibError "io.ReadAll")))
          else if negb (StatusCode resp =? 200) then
            ret (Err (ErrorfDS "HTTP error %d: %s"
                        (StatusCode resp) (RespBody resp)))
          else
            match unmarshal_response rt (RespBody resp) with
            | None =>
                ret (Err (ErrorfW "failed to unmarshal response: %w"
                            (LibError "json.Unmarshal")))
            | Some mcpResponse => ret (Ok mcpResponse)
            end
      end
  end.

Definition Initialize : M (option error) :=
  _ <- CreateSession ;;
  id <- getNextID ;;
  let request := {| JSONRPC := "2.0"; ID := id; Method := "initialize";
                    Params := initParams |} in
  response <- sendRequest request ;;
  match response with
  | Err err => ret (Some err)
  | Ok response =>
      match Error response with
      | Some e => ret (Some (ErrorfS "initialization failed: %s" (Message e)))
      | None => ret None
      end
  end.

Definition ListTools : M (result (list JSON)) :=
  id <- getNextID ;;
  let request := {| JSONRPC := "2.0"; ID := id; Method := "tools/list";
                    Params := JObj [] |} in
  response <- sendRequest request ;;
  match response with
  | Err err => ret (Err err)
  | Ok response =>
      match Error response with
      | Some e => ret (Err (ErrorfDS "MCP error %d: %s" (Code e) (Message e)))
      | None =>
          match Result response with
          | JObj result =>
              match lookup result "tools" with
              | Some (JArr tools) => ret (Ok tools)
              | _ => ret (Err (Errorf "unexpected response format"))
              end
          | _ => ret (Err (Errorf "unexpected response format"))
          end
      end
  end.

Definition CallTool (toolName : string) (arguments : JSON) : M (result JSON) :=
  let params := JObj [("name", JStr toolName); ("arguments", arguments)] in
  id <- getNextID ;;
  let request := {| JSONRPC := "2.0"; ID := id; Method := "tools/call";
                    Params := params |} in
  response <- sendRequest request ;;
  match response with
  | Err err => ret (Err err)
  | Ok response =>
      match Error response with
      | Some e => ret (Err (ErrorfDS "MCP error %d: %s" (Code e) (Message e)))
      | None => ret (Ok (Result response))
      end
  end.

Definition directEndpoints : list string :=
  ["/api/chat"; "/chat"; "/api/completion"; "/completion";
   "/api/generate"; "/generate"].

Definition requestBody (prompt model : string) : JSON :=
  JObj [("prompt", JStr prompt); ("model", JStr model);
        ("query", JStr prompt); ("input", JStr prompt)].

(** What [tryDirectAPI] returns on a 200 answer. *)
Definition directAnswer (body : string) : string :=
  match unmarshal_map rt body with
  | Some result =>
      let text := extractTextFromResult (ofMap result) in
      if negb (String.eqb text "") then text else body
  | None => body
  end.

(** The loop of [tryDirectAPI]: [Some text] when the body returned. *)
Fixpoint tryDirectAPI_loop (prompt model : string) (endpoints : list string)
  : M (option string) :=
  match endpoints with
  | [] => ret None
  | endpoint :: rest =>
      c <- getClient ;;
      let url := BaseURL c ++ endpoint in
      match NewRequest rt "POST" url (JSONBody (requestBody prompt model)) with
      | None => tryDirectAPI_loop prompt model rest
      | Some req =>
          resp <- Do rt (sessionHeaders c (jsonHeaders req)) ;;
          match resp with
          | None => tryDirectAPI_loop prompt model rest
          | Some resp =>
              if StatusCode resp =? 200
              then ret (Some (directAnswer (RespBody resp)))
              else tryDirectAPI_loop prompt model rest
          end
      end
  end.

Definition tryDirectAPI (prompt model : string) : M (result string) :=
  returned <- tryDirectAPI_loop prompt model directEndpoints ;;
  match returned with
  | Some text => ret (Ok text)
  | None => ret (Err (Errorf "direct API calls failed"))
  end.

Definition tryMCPFlow (prompt model : string) : M (result string) :=
  err <- Initialize ;;
  match err with
  | Some err =>
      ret (Err (ErrorfW "failed to initialize MCP connection: %w" err))
  | None =>
      tools <- ListTools ;;
      match tools with
      | Err err => ret (Err (ErrorfW "failed to list tools: %w" err))
      | Ok [] => ret (Err (Errorf "no tools available"))
      | Ok (tool :: _) =>
          match tool with
          | JObj toolMap =>
              match lookup toolMap "name" with
              | Some (JStr toolName) =>
                  let arguments :=
                    JObj [("prompt", JStr prompt); ("model", JStr model)] in
                  result <- CallTool toolName arguments ;;
                  match result with
                  | Err err => ret (Err err)
                  | Ok result => ret (Ok (extractTextFromResult result))
                  end
              | _ => panic "toolMap[name].(string)"
              end
          | _ => panic "tools[0].(map[string]interface{})"
          end
      end
  end.

Definition alternativeEndpoints (prompt model : string) : list string :=
  let params := [("prompt", prompt); ("model", model); ("q", prompt)] in
  ["/?" ++ Query.Encode params; "/api?" ++ Query.Encode params;
   "/query?" ++ Query.Encode params].

(** The loop of [tryAlternativeEndpoints]. *)
Fixpoint tryAlternativeEndpoints_loop (endpoints : list string)
  : M (option string) :=
  match endpoints with
  | [] => ret None
  | endpoint :: rest =>
      c <- getClient ;;
      let url := BaseURL c ++ endpoint in
      match NewRequest rt "GET" url NoBody with
      | None => tryAlternativeEndpoints_loop rest
      | Some req =>
          let req :=
            if String.eqb (sessionID c) "" then req
            else HeaderSet "X-Session-ID" (sessionID c) req in
          resp <- Do rt req ;;
          match resp with
          | None => tryAlternativeEndpoints_loop rest
          | Some resp =>
              if StatusCode resp =? 200
              then ret (Some (RespBody resp))
              else tryAlternativeEndpoints_loop rest
          end
      end
  end.

Definition tryAlternativeEndpoints (prompt model : string)
  : M (result string) :=
  returned <- tryAlternativeEndpoints_loop (alternativeEndpoints prompt model) ;;
  match returned with
  | Some body => ret (Ok body)
  | None => ret (Err (Errorf "all approaches failed"))
  end.

Definition GatherInformation (prompt model : string) : M (result string) :=
  direct <- tryDirectAPI prompt model ;;
  match direct with
  | Ok result => ret (Ok result)
  | Err _ =>
      flow <- tryMCPFlow prompt model ;;
      match flow with
      | Ok result => ret (Ok result)
      | Err _ => tryAlternativeEndpoints prompt model
      end
  end.

End Client.

(** What the caller of [AIFunction] sees: the returned pair or a crash, and
    the requests issued by then. *)
Inductive Outcome (A : Type) :=
| Returned (a : A) (log : list Request)
| Crashed (msg : string) (log : list Request).
Arguments Returned {A} a log.
Arguments Crashed {A} msg log.

Definition outcome {A} (r : Run A) : Outcome A :=
  match r with
  | Done a _ log => Returned a log
  | Panicked msg _ log => Crashed msg log
  end.

Definition AIFunction (rt : Runtime) (prompt model : string)
  (log : list Request) : Outcome (result string) :=
  if String.eqb prompt "" then
    Returned (Err (Errorf "prompt cannot be empty")) log
  else if String.eqb model "" then
    Returned (Err (Errorf "model cannot be empty")) log
  else
    let client := NewMCPClient "http://localhost:8080" in
    outcome (GatherInformation rt prompt model client log).

(* ================================================================== *)
(** ** Gateways used as concrete inputs *)
(* ================================================================== *)

Module Scenario.

(** A JSON string literal over safe ASCII. *)
Definition q (s : string) : string :=
  String Encode.quote (s ++ String Encode.quote EmptyString).

Definition response (status : Z) (body : string) : Response :=
  {| StatusCode := status; RespBody := body; ReadError := false;
     HeaderGet := fun _ => ""; Cookies := [] |}.

Definition notFound : Response := response 404 "404 page not found".

Definition assoc {A} (table : list (string * A)) (key : string) : option A :=
  option_map snd (find (fun kv => String.eqb (fst kv) key) table).

Definition rpc (v : JSON) : MCPResponse :=
  {| RespJSONRPC := "2.0"; RespID := 1; Result := v; Error := None |}.

(** The bodies the gateways below send, each with the value
    [json.Unmarshal] decodes it to; no other body of theirs is JSON. *)
Definition twoFields : string :=
  "{" ++ q "text" ++ ":" ++ q "a" ++ "," ++ q "answer" ++ ":" ++ q "b" ++ "}".
Definition sessionBody : string :=
  "{" ++ q "sessionId" ++ ":" ++ q "tok" ++ "}".
Definition emptyResult : string :=
  "{" ++ q "jsonrpc" ++ ":" ++ q "2.0" ++ "," ++ q "id" ++ ":1,"
      ++ q "result" ++ ":{}}".
Definition toolsOf (tools : string) : string :=
  "{" ++ q "jsonrpc" ++ ":" ++ q "2.0" ++ "," ++ q "id" ++ ":1,"
      ++ q "result" ++ ":{" ++ q "tools" ++ ":[" ++ tools ++ "]}}".
Definition numberTool : string := toolsOf "42".
Definition namelessTool : string := toolsOf ("{" ++ q "id" ++ ":1}").
Definition weatherTool : string :=
  toolsOf ("{" ++ q "name" ++ ":" ++ q "weather" ++ "}").
Definition contentOf (text : string) : string :=
  "{" ++ q "jsonrpc" ++ ":" ++ q "2.0" ++ "," ++ q "id" ++ ":1,"
      ++ q "result" ++ ":{" ++ q "content" ++ ":[{" ++ q "text" ++ ":"
      ++ q text ++ "}]}}".

Definition answerOnly : string := "{" ++ q "answer" ++ ":" ++ q "b" ++ "}".

Definition decodeMap : string -> option (option (list (string * JSON))) :=
  assoc [(twoFields, Some [("text", JStr "a"); ("answer", JStr "b")]);
         (answerOnly, Some [("answer", JStr "b")])].

Definition decodeSession : string -> option SessionResponse :=
  assoc [(sessionBody, {| SessionID := "tok"; Status := "" |})].

Definition decodeResponse : string -> option MCPResponse :=
  assoc
    [(emptyResult, rpc (JObj []));
     (toolsOf "", rpc (JObj [("tools", JArr [])]));
     (numberTool, rpc (JObj [("tools", JArr [JNum "42"])]));
     (namelessTool, rpc (JObj [("tools", JArr [JObj [("id", JNum "1")]])]));
     (weatherTool,
      rpc (JObj [("tools", JArr [JObj [("name", JStr "weather")]])]));
     (contentOf "",
      rpc (JObj [("content", JArr [JObj [("text", JStr "")]])]));
     (contentOf "Rainy",
      rpc (JObj [("content", JArr [JObj [("text", JStr "Rainy")]])]))].

Definition gateway (serve : Request -> Response) : Runtime :=
  {| url_ok := fun _ => true;
     client_do := fun _ req => Some (serve req);
     unmarshal_session := decodeSession;
     unmarshal_map := decodeMap;
     unmarshal_response := decodeResponse |}.

Definition base : string := "http://gw".

(** 200 with two recognised fields at [/api/chat], 404 elsewhere. *)
Definition chatty : Runtime :=
  gateway (fun req =>
    if String.eqb (URL req) (base ++ "/api/chat")
    then response 200 twoFields else notFound).

(** 200 with plain text at [/api/chat], 200 with an answer at [/chat]. *)
Definition twoChats : Runtime :=
  gateway (fun req =>
    if String.eqb (URL req) (base ++ "/api/chat")
    then response 200 "hello"
    else if String.eqb (URL req) (base ++ "/chat")
    then response 200 answerOnly else notFound).

(** A session at [/session], 404 elsewhere. *)
Definition sessionOnly : Runtime :=
  gateway (fun req =>
    if String.eqb (URL req) (base ++ "/session")
    then response 200 sessionBody else notFound).

(** A JSON-RPC server at the base URL answering [tools/list] with
    [tools] and [tools/call] with [answer]; 404 elsewhere. *)
Definition toolServer (tools answer : string) : Runtime :=
  gateway (fun req =>
    match ReqBody req with
    | RPCBody request =>
        if negb (String.eqb (URL req) base) then notFound
        else if String.eqb (Method request) "initialize"
        then response 200 emptyResult
        else if String.eqb (Method request) "tools/list"
        then response 200 tools
        else response 200 answer
    | _ => notFound
    end).

(** 500 at [/initialize] with a session header; 404 elsewhere. *)
Definition failingInitialize : Runtime :=
  gateway (fun req =>
    if String.eqb (URL req) (base ++ "/initialize")
    then {| StatusCode := 500; RespBody := "internal error";
            ReadError := false;
            HeaderGet := fun key =>
              if String.eqb key "X-Session-ID" then "s500" else "";
            Cookies := [] |}
    else notFound).

(** 201 at [/api/session] with a session cookie; 404 elsewhere. *)
Definition cookieSession : Runtime :=
  gateway (fun req =>
    if String.eqb (URL req) (base ++ "/api/session")
    then {| StatusCode := 201; RespBody := "created"; ReadError := false;
            HeaderGet := fun _ => "";
            Cookies := [ {| Name := "lang"; Value := "en" |};
                         {| Name := "sessionId"; Value := "c7" |} ] |}
    else notFound).

(** 404 everywhere. *)
Definition deaf : Runtime := gateway (fun _ => notFound).

(** A JSON-RPC server whose [tools/call] answer is not JSON. *)
Definition brokenCall : Runtime := toolServer weatherTool "gateway timeout".

(** 200 with a JSON body for GET at [/api?...], 404 elsewhere. *)
Definition getOnly : Runtime :=
  gateway (fun req =>
    if (String.eqb (ReqMethod req) "GET"
        && String.eqb (URL req) (base ++ "/api?model=m&prompt=p&q=p"))%bool
    then response 200 twoFields else notFound).

(** A session at [/session] and the JSON-RPC server of [toolServer]. *)
Definition sessionAndTools : Runtime :=
  gateway (fun req =>
    if String.eqb (URL req) (base ++ "/session")
    then response 200 sessionBody
    else match ReqBody req with
         | RPCBody request =>
             if negb (String.eqb (URL req) base) then notFound
             else if String.eqb (Method request) "initialize"
             then response 200 emptyResult
             else if String.eqb (Method request) "tools/list"
             then response 200 weatherTool
             else response 200 (contentOf "Rainy")
         | _ => notFound
         end).

(** 200 with an empty body at [/chat], 404 elsewhere. *)
Definition mute : Runtime :=
  gateway (fun req =>
    if String.eqb (URL req) (base ++ "/chat")
    then response 200 "" else notFound).

End Scenario.

(** The ids handed out by [n] successive calls of [getNextID]. *)
Fixpoint assignedIDs (n : nat) : M (list Z) :=
  match n with
  | O => ret []
  | S n' => id <- getNextID ;; ids <- assignedIDs n' ;; ret (id :: ids)
  end.

Definition returned {A} (r : Run A) : option A :=
  match r with
  | Done a _ _ => Some a
  | Panicked _ _ _ => None
  end.

(** The bytes still to be skipped in state [p] of [Encode.escape]. *)
Definition dropped (p : Encode.pending) : nat :=
  match p with
  | Encode.Drop n => n
  | Encode.Copy _ => 0%nat
  end.

(** The largest Go [int]. *)
Definition maxInt : Z := 2 ^ (intSize - 1) - 1.

(** The client after [n] calls of [getNextID]. *)
Definition afterCalls (n : nat) (c : MCPClient) : MCPClient :=
  {| BaseURL := BaseURL c; nextID := wrap (nextID c + Z.of_nat n);
     sessionID := sessionID c |}.

(** The request [initializeWithSession] sends. *)
Definition initializeRequest (c : MCPClient) : Request :=
  {| ReqMethod := "POST"; URL := BaseURL c ++ "/initialize";
     ReqHeader := [("Content-Type", "application/json");
                   ("Accept", "application/json")];
     ReqBody := JSONBody initParams |}.

(** The request [CreateSession] sends to a session endpoint. *)
Definition sessionRequest (c : MCPClient) (endpoint : string) : Request :=
  {| ReqMethod := "POST"; URL := BaseURL c ++ endpoint;
     ReqHeader := [("Content-Type", "application/json");
                   ("Accept", "application/json")];
     ReqBody := RawBody "{}" |}.

Definition withSession (c : MCPClient) (token : string) : MCPClient :=
  {| BaseURL := BaseURL c; nextID := nextID c; sessionID := token |}.

Definition sessionCookieName (cookie : Cookie) : Prop :=
  Name cookie = "session_id" \/ Name cookie = "sessionId".

(** A response carries a session in a header or a cookie. *)
Definition carriesSession (resp : Response) : Prop :=
  HeaderGet resp "X-Session-ID" <> ""
  \/ exists cookie, In cookie (Cookies resp) /\ sessionCookieName cookie.

(** The body does not parse as a Session Response with an identifier. *)
Definition noBodyToken (rt : Runtime) (resp : Response) : Prop :=
  forall sessionResp,
    unmarshal_session rt (RespBody resp) = Some sessionResp ->
    SessionID sessionResp = "".

(** The token of a session answer as the specification words it: the body
    identifier, else the header, else the first cookie under an accepted
    name. *)
Inductive acceptedToken (rt : Runtime) (resp : Response) : string -> Prop :=
| token_from_body sessionResp :
    unmarshal_session rt (RespBody resp) = Some sessionResp ->
    SessionID sessionResp <> "" ->
    acceptedToken rt resp (SessionID sessionResp)
| token_from_header :
    noBodyToken rt resp ->
    HeaderGet resp "X-Session-ID" <> "" ->
    acceptedToken rt resp (HeaderGet resp "X-Session-ID")
| token_from_cookie before cookie after :
    noBodyToken rt resp ->
    HeaderGet resp "X-Session-ID" = "" ->
    Cookies resp = (before ++ cookie :: after)%list ->
    (forall other, In other before -> ~ sessionCookieName other) ->
    sessionCookieName cookie ->
    acceptedToken rt resp (Value cookie).

(** The ids of the JSON-RPC requests of a log, in the order sent. *)
Definition rpcIDs (log : list Request) : list Z :=
  flat_map (fun req => match ReqBody req with
                       | RPCBody request => [ID request]
                       | _ => []
                       end) log.

(** The message of the panic that ended a run, if one did. *)
Definition panicOf {A} (r : Run A) : option string :=
  match r with
  | Done _ _ _ => None
  | Panicked msg _ _ => Some msg
  end.

(** The header names of a request. *)
Definition headerNames (req : Request) : list string :=
  map fst (ReqHeader req).

(** The request of the GET probe at a path. *)
Definition getRequest (c : MCPClient) (endpoint : string) : Request :=
  {| ReqMethod := "GET"; URL := BaseURL c ++ endpoint;
     ReqHeader := if String.eqb (sessionID c) "" then []
                  else [("X-Session-ID", sessionID c)];
     ReqBody := NoBody |}.

(** The request of the direct-API probe at a path. *)
Definition directRequest (c : MCPClient) (prompt model endpoint : string)
  : Request :=
  sessionHeaders c
    {| ReqMethod := "POST"; URL := BaseURL c ++ endpoint;
       ReqHeader := [("Content-Type", "application/json");
                     ("Accept", "application/json")];
       ReqBody := JSONBody (requestBody prompt model) |}.

(** [field] is the first of the recognised fields, in their priority
    order, under which [m] holds a non-empty string, and [text] is that
    string. *)
Definition firstTextField (m : list (string * JSON)) (field text : string)
  : Prop :=
  exists before after,
    textFields = (before ++ field :: after)%list
    /\ (forall f s, In f before -> lookup m f = Some (JStr s) -> s = "")
    /\ lookup m field = Some (JStr text)
    /\ text <> "".

(** The requests of each stage, for a client at [base]. *)
Definition directStage (base : string) (req : Request) : Prop :=
  ReqMethod req = "POST"
  /\ exists endpoint, In endpoint directEndpoints /\ URL req = base ++ endpoint.

Definition flowStage (base : string) (req : Request) : Prop :=
  ReqMethod req = "POST"
  /\ (URL req = base \/ URL req = base ++ "/initialize"
      \/ exists endpoint, In endpoint sessionEndpoints /\ URL req = base ++ endpoint).


(** [m] only appends requests satisfying [P] to the log, and leaves the
    base URL of the client alone. *)
Definition emits {A} (P : string -> Request -> Prop) (m : M A) : Prop :=
  forall c log,
    exists sent,
      logOf (m c log) = (log ++ sent)%list
      /\ Forall (P (BaseURL c)) sent
      /\ BaseURL (clientOf (m c log)) = BaseURL c.

(** Unfolds the plumbing of a run. *)
Ltac run :=
  unfold bind, ret, getClient, Do, setSessionID, panic, NewRequest in *.

(** [m] returns on every client and log. *)
Definition neverPanics {A} (m : M A) : Prop :=
  forall c log, panicOf (m c log) = None.

(** [m] appends at most [n] requests to the log. *)
Definition sendsAtMost {A} (n : nat) (m : M A) : Prop :=
  forall c log,
    exists sent,
      logOf (m c log) = (log ++ sent)%list /\ (List.length sent <= n)%nat.

(** [m] hands back the client it was given. *)
Definition keepsClient {A} (m : M A) : Prop :=
  forall c log, clientOf (m c log) = c.

(** A tool descriptor [tryMCPFlow] cannot take a name from. *)
Definition malformedTool (tool : JSON) : Prop :=
  forall toolMap toolName,
    tool = JObj toolMap -> lookup toolMap "name" <> Some (JStr toolName).

(** The gateway never answers 200. *)
Definition never200 (rt : Runtime) : Prop :=
  forall log req resp,
    client_do rt log req = Some resp -> StatusCode resp <> 200.

Create HintDb methods.

(** Splits a goal about a method along its binds, matches and tests;
    [ret_lemma] and [bind_lemma] are the facts for [ret] and [bind]. *)
Ltac straight ret_lemma bind_lemma :=
  repeat first
    [ apply ret_lemma
    | solve [auto with methods]
    | apply bind_lemma; [|intros]
    | match goal with
      | |- _ (match ?x with _ => _ end) => destruct x
      | |- _ (if ?x then _ else _) => destruct x
      end ].

(** The request [sendRequest] sends for [request]. *)
Definition rpcRequest (c : MCPClient) (request : MCPRequest) : Request :=
  sessionHeaders c
    {| ReqMethod := "POST"; URL := BaseURL c;
       ReqHeader := [("Content-Type", "application/json");
                     ("Accept", "application/json")];
       ReqBody := RPCBody request |}.

(** The first [k] of [endpoints] whose URL, for the client [c], parses:
    the ones a probing loop that went [k] turns has sent a request to. *)
Definition tried (rt : Runtime) (c : MCPClient) (k : nat)
  (endpoints : list string) : list string :=
  filter (fun endpoint => url_ok rt (BaseURL c ++ endpoint))
         (firstn k endpoints).

(** The JSON-RPC calls of a log, in the order sent: id and method. *)
Definition rpcCalls (log : list Request) : list (Z * string) :=
  flat_map (fun req => match ReqBody req with
                       | RPCBody request => [(ID request, Method request)]
                       | _ => []
                       end) log.

(** The headers of a JSON POST issued while the client's token is
    [token]. *)
Definition postHeaders (token : string) : list (string * string) :=
  [("Content-Type", "application/json"); ("Accept", "application/json")]
    ++ (if String.eqb token "" then []
        else [("X-Session-ID", token); ("Session-ID", token)]).

(** The [initialize] call of a client whose counter is at [id]. *)
Definition initializeCall (id : Z) : MCPRequest :=
  {| JSONRPC := "2.0"; ID := id; Method := "initialize";
     Params := initParams |}.

(** The [tools/list] call of a client whose counter is at [id]. *)
Definition listCall (id : Z) : MCPRequest :=
  {| JSONRPC := "2.0"; ID := id; Method := "tools/list"; Params := JObj [] |}.

(** The requests issued by the time [AIFunction] is over. *)
Definition outcomeLog {A} (o : Outcome A) : list Request :=
  match o with
  | Returned _ log => log
  | Crashed _ log => log
  end.

(** The URL of [req] is [base], or [base] followed by an absolute path. *)
Definition local (base : string) (req : Request) : Prop :=
  exists path,
    URL req = base ++ path
    /\ (path = "" \/ exists rest, path = String "/"%char rest).

(* ================================================================== *)
(** ** The database connection of [db.NewDB] *)
(* ================================================================== *)

Module DB.

(** What [NewDB] does to the outside: the calls of [sql.Open] and
    [db.Ping], in order. *)
Inductive Call :=
| Open (driverName dataSourceName : string)
| Ping.

(** The process environment and [database/sql] with the [pq] driver. *)
Record Platform := {
  Handle : Type;                                   (* *sql.DB *)
  Getenv : string -> string;                       (* os.Getenv *)
  sql_Open : string -> string -> result Handle;    (* sql.Open *)
  db_Ping : Handle -> option error                 (* db.Ping *)
}.

(** [fmt.Sprintf] of the connection string. *)
Definition psqlConfig (dbHost dbPort dbUser dbPass dbName : string) : string :=
  "host=" ++ dbHost ++ " port=" ++ dbPort ++ " user=" ++ dbUser
    ++ " password=" ++ dbPass ++ " dbname=" ++ dbName ++ " sslmode=disable".

Definition missingVariables : error :=
  Errorf ("missing one or more required environment variables "
            ++ "(PG_HOST, PG_PORT, PG_USER, PG_PASS, PG_NAME)").

(** [NewDB]: the returned pair (a nil handle is [None]) and the calls
    made. *)
Definition NewDB (p : Platform)
  : option (Handle p) * option error * list Call :=
  let dbHost := Getenv p "PG_HOST" in
  let dbPort := Getenv p "PG_PORT" in
  let dbUser := Getenv p "PG_USER" in
  let dbPass := Getenv p "PG_PASS" in
  let dbName := Getenv p "PG_NAME" in
  if (String.eqb dbHost "" || String.eqb dbPort "" || String.eqb dbUser ""
      || String.eqb dbPass "" || String.eqb dbName "")%bool
  then (None, Some missingVariables, [])
  else
    let config := psqlConfig dbHost dbPort dbUser dbPass dbName in
    match sql_Open p "postgres" config with
    | Err err =>
        (None, Some (ErrorfW "error connecting to database: %w" err),
         [Open "postgres" config])
    | Ok db =>
        match db_Ping p db with
        | Some err =>
            (Some db, Some (ErrorfW "error pinging database: %w" err),
             [Open "postgres" config; Ping])
        | None => (Some db, None, [Open "postgres" config; Ping])
        end
    end.

(** An environment over the five variables, a driver that opens every
    data source and a server that answers the ping or not. *)
Definition demo (host port user pass name : string) (reachable : bool)
  : Platform :=
  {| Handle := string;
     Getenv := fun key =>
       if String.eqb key "PG_HOST" then host
       else if String.eqb key "PG_PORT" then port
       else if String.eqb key "PG_USER" then user
       else if String.eqb key "PG_PASS" then pass
       else if String.eqb key "PG_NAME" then name
       else "";
     sql_Open := fun _ dataSourceName => Ok dataSourceName;
     db_Ping := fun _ =>
       if reachable then None else Some (LibError "dial tcp") |}.

End DB.

(** The five variables [NewDB] requires. *)
Definition requiredVariables : list string :=
  ["PG_HOST"; "PG_PORT"; "PG_USER"; "PG_PASS"; "PG_NAME"].

(** The [tools/call] call of a client whose counter is at [id]. *)
Definition toolCall (id : Z) (toolName prompt model : string) : MCPRequest :=
  {| JSONRPC := "2.0"; ID := id; Method := "tools/call";
     Params := JObj [("name", JStr toolName);
                     ("arguments", JObj [("prompt", JStr prompt);
                                         ("model", JStr model)])] |}.

(** The answers of the gateway to the requests [sent] after [log], each
    request being answered with the log and the requests before it behind
    it: [P] holds of every answer, of every answer but the last, of the
    last. *)
Definition eachAnswer (rt : Runtime) (log sent : list Request)
  (P : option Response -> Prop) : Prop :=
  forall before req after,
    sent = (before ++ req :: after)%list ->
    P (client_do rt (log ++ before) req).

Definition earlierAnswers (rt : Runtime) (log sent : list Request)
  (P : option Response -> Prop) : Prop :=
  forall before req after,
    sent = (before ++ req :: after)%list -> after <> [] ->
    P (client_do rt (log ++ before) req).

Definition lastAnswer (rt : Runtime) (log sent : list Request)
  (P : option Response -> Prop) : Prop :=
  exists before req,
    sent = (before ++ [req])%list /\ P (client_do rt (log ++ before) req).

(** A transport error, or a status other than 200. *)
Definition not200 (answer : option Response) : Prop :=
  forall resp, answer = Some resp -> StatusCode resp <> 200.

(** An answer from which the session loop takes no token. *)
Definition noToken (rt : Runtime) (answer : option Response) : Prop :=
  forall resp,
    answer = Some resp ->
    StatusCode resp = 200 \/ StatusCode resp = 201 ->
    sessionToken rt resp = None.

(** A 200/201 answer from which the session loop takes [token]. *)
Definition givesToken (rt : Runtime) (token : string)
  (answer : option Response) : Prop :=
  exists resp,
    answer = Some resp
    /\ (StatusCode resp = 200 \/ StatusCode resp = 201)
    /\ sessionToken rt resp = Some token.


(** A value in which the extractor recognises no text. *)
Definition unrecognised (v : JSON) : Prop :=
  match v with
  | JObj m =>
      (forall field text,
          In field textFields -> lookup m field = Some (JStr text) -> text = "")
      /\ (forall item items text,
             lookup m "content" = Some (JArr (JObj item :: items)) ->
             lookup item "text" <> Some (JStr text))
  | _ => True
  end.

(* ================================================================== *)
(** ** The text extractor *)
(* ================================================================== *)

Lemma runeSize_le b rest : (Encode.runeSize b rest <= 4)%nat.
Proof.
  unfold Encode.runeSize.
  repeat match goal with |- context [if ?x then _ else _] => destruct x end;
    lia.
Qed.

Lemma escapeByte_length b : (1 <= List.length (Encode.escapeByte b))%nat.
Proof.
  unfold Encode.escapeByte.
  repeat match goal with |- context [if ?x then _ else _] => destruct x end;
    simpl; lia.
Qed.

(** Escaping never shortens: every byte is copied, replaced by a longer
    escape, or dropped after the six bytes written for its lead byte. *)
Lemma escape_length src :
  forall p, (List.length src <= List.length (Encode.escape p src) + dropped p)%nat.
Proof.
  induction src as [|c rest IH]; intros p; [simpl; lia|].
  assert (fresh :
    (S (List.length rest)
     <= List.length
          (let b := nat_of_ascii c in
           if Nat.ltb b 128 then
             if Encode.htmlSafe b then c :: Encode.escape (Encode.Copy 0) rest
             else Encode.escapeByte b ++ Encode.escape (Encode.Copy 0) rest
           else
             match Encode.runeSize b rest with
             | O => [Encode.backslash; "u"; "f"; "f"; "f"; "d"]%char
                      ++ Encode.escape (Encode.Copy 0) rest
             | S k =>
                 match Encode.lineSeparator b rest with
                 | Some d => [Encode.backslash; "u"; "2"; "0"; "2"; d]%char
                               ++ Encode.escape (Encode.Drop k) rest
                 | None => c :: Encode.escape (Encode.Copy k) rest
                 end
             end))%nat).
  { cbv zeta.
    destruct (Nat.ltb (nat_of_ascii c) 128).
    - destruct (Encode.htmlSafe (nat_of_ascii c)).
      + specialize (IH (Encode.Copy 0)). simpl in *. lia.
      + rewrite length_app.
        pose proof (escapeByte_length (nat_of_ascii c)).
        specialize (IH (Encode.Copy 0)). simpl in IH. lia.
    - pose proof (runeSize_le (nat_of_ascii c) rest) as Hle.
      destruct (Encode.runeSize (nat_of_ascii c) rest) as [|k].
      + specialize (IH (Encode.Copy 0)). simpl in *. lia.
      + destruct (Encode.lineSeparator (nat_of_ascii c) rest).
        * specialize (IH (Encode.Drop k)). simpl in *. lia.
        * specialize (IH (Encode.Copy k)). simpl in *. lia. }
  destruct p as [[|n]|[|n]]; simpl dropped; cbn [Encode.escape].
  - rewrite Nat.add_0_r. exact fresh.
  - specialize (IH (Encode.Copy n)). simpl in *. lia.
  - rewrite Nat.add_0_r. exact fresh.
  - specialize (IH (Encode.Drop n)). simpl in *. lia.
Qed.

(** A quoted string is never the string itself. *)
Lemma appendString_neq s : Encode.appendString s <> s.
Proof.
  unfold Encode.appendString. intros Heq.
  apply (f_equal list_ascii_of_string) in Heq.
  rewrite list_ascii_of_string_of_list_ascii in Heq.
  apply (f_equal (@List.length ascii)) in Heq.
  pose proof (escape_length (list_ascii_of_string s) (Encode.Copy 0)) as Hlen.
  simpl in Heq, Hlen. rewrite length_app in Heq. simpl in Heq. lia.
Qed.

Lemma textFieldLoop_none m fields :
  (forall field text,
      In field fields -> lookup m field = Some (JStr text) -> text = "") ->
  textFieldLoop m fields = None.
Proof.
  induction fields as [|field rest IH]; intros Hnone; [reflexivity|].
  simpl. destruct (lookup m field) as [[| | |text| |]|] eqn:Hfield;
    try (apply IH; intros; eapply Hnone; [right|]; eassumption).
  rewrite (Hnone field text (or_introl eq_refl) Hfield). simpl.
  apply IH; intros; eapply Hnone; [right|]; eassumption.
Qed.

Lemma nestedContent_none m :
  (forall item items text,
      lookup m "content" = Some (JArr (JObj item :: items)) ->
      lookup item "text" <> Some (JStr text)) ->
  nestedContent m = None.
Proof.
  intros Hnone. unfold nestedContent.
  destruct (lookup m "content") as [[| | | |[|[| | | | |item] items]|]|];
    try reflexivity.
  specialize (Hnone item items).
  destruct (lookup item "text") as [[| | |text| |]|]; try reflexivity.
  exfalso. exact (Hnone text eq_refl eq_refl).
Qed.

(** C4 (amended): the extractor returns a string for every decoded value;
    on a value in which it recognises no text (null, a number, an array,
    an object without a matching field) that string is the pretty-printed
    JSON of the whole value; it is not idempotent, since its own output,
    handed back as a string value, comes out quoted and so different. *)
Theorem extractTextFromResult_total_fallback (v : JSON) :
  (unrecognised v -> extractTextFromResult v = MarshalIndent v)
  /\ extractTextFromResult (JStr (extractTextFromResult v))
     = Encode.appendString (extractTextFromResult v)
  /\ extractTextFromResult (JStr (extractTextFromResult v))
     <> extractTextFromResult v.
Proof.
  split; [|split].
  - destruct v as [| | | | |m]; try reflexivity.
    intros [Hfields Hnested]. unfold extractTextFromResult.
    rewrite (textFieldLoop_none m textFields Hfields).
    rewrite (nestedContent_none m Hnested). reflexivity.
  - reflexivity.
  - apply appendString_neq.
Qed.

Lemma extractTextFromResult_total_fallback_witness :
  unrecognised (JArr [JNum "1"; JNull])
  /\ extractTextFromResult (JArr [JNum "1"; JNull])
     = MarshalIndent (JArr [JNum "1"; JNull]).
Proof.
  split; [exact I|].
  apply (extractTextFromResult_total_fallback (JArr [JNum "1"; JNull])).
  exact I.
Defined.

(** C4 (counterexample): on the object with "text" set to "hi" the
    extractor answers "hi"; on that answer it gives the quoted string. *)
Lemma extractTextFromResult_not_idempotent :
  extractTextFromResult (JStr (extractTextFromResult (JObj [("text", JStr "hi")])))
  <> extractTextFromResult (JObj [("text", JStr "hi")]).
Proof. vm_compute. discriminate. Qed.

(* ================================================================== *)
(** ** Request ids *)
(* ================================================================== *)

Lemma wrap_small z : - 2 ^ 63 <= z < 2 ^ 63 -> wrap z = z.
Proof.
  intros Hz. unfold wrap, intSize. simpl (64 - 1).
  rewrite Z.mod_small; lia.
Qed.

Lemma wrap_wrap_add a b : wrap (wrap a + b) = wrap (a + b).
Proof.
  unfold wrap, intSize. simpl (64 - 1). f_equal.
  replace (2 ^ 64) with (2 * 2 ^ 63) by reflexivity.
  replace ((a + 2 ^ 63) mod (2 * 2 ^ 63) - 2 ^ 63 + b + 2 ^ 63)
    with ((a + 2 ^ 63) mod (2 * 2 ^ 63) + b) by lia.
  rewrite Zplus_mod_idemp_l. f_equal. lia.
Qed.

(** [n] calls hand out [nextID], [nextID + 1], ... with Go's wrap-around,
    change nothing else of the client and send nothing. *)
Lemma assignedIDs_closed_form n :
  forall c log,
    - 2 ^ 63 <= nextID c < 2 ^ 63 ->
    assignedIDs n c log
    = Done (map (fun k => wrap (nextID c + Z.of_nat k)) (seq 0 n))
           (afterCalls n c) log.
Proof.
  induction n as [|n IH]; intros c log Hc.
  - simpl. unfold ret, afterCalls. rewrite Z.add_0_r, wrap_small by exact Hc.
    destruct c; reflexivity.
  - cbn [assignedIDs]. unfold bind at 1. unfold getNextID at 1.
    unfold bind at 1. rewrite IH.
    2:{ cbn [nextID]. unfold wrap, intSize. simpl (64 - 1).
        pose proof (Z.mod_pos_bound (nextID c + 1 + 2 ^ 63) (2 ^ 64)). lia. }
    unfold ret, afterCalls. cbn [nextID BaseURL sessionID seq map].
    rewrite Z.add_0_r, (wrap_small (nextID c)) by exact Hc.
    rewrite <- seq_shift, map_map. f_equal.
    + f_equal. apply map_ext. intros k. rewrite wrap_wrap_add. f_equal. lia.
    + rewrite wrap_wrap_add. do 2 f_equal. lia.
Qed.

Lemma nth_map_seq (f : nat -> Z) n i d :
  (i < n)%nat -> nth i (map f (seq 0 n)) d = f i.
Proof.
  intros Hi.
  rewrite (nth_indep _ d (f 0%nat)) by (rewrite length_map, length_seq; lia).
  rewrite (map_nth f), seq_nth by lia. reflexivity.
Qed.

(** C5 (amended): the first id of a freshly constructed client is 1, and
    the ids of any run of sends that stays below the largest [int] are
    1, 2, 3, ...: strictly increasing and never reused. *)
Theorem request_ids_increasing (baseURL : string) (n : nat) (log : list Request) :
  Z.of_nat n <= maxInt ->
  exists ids,
    returned (assignedIDs n (NewMCPClient baseURL) log) = Some ids
    /\ ids = map (fun k => 1 + Z.of_nat k) (seq 0 n)
    /\ (forall i j, (i < j < n)%nat -> nth i ids 0 < nth j ids 0).
Proof.
  unfold maxInt, intSize. simpl (64 - 1). intros Hn.
  rewrite assignedIDs_closed_form by (cbn [nextID NewMCPClient]; lia).
  cbn [returned nextID NewMCPClient].
  assert (Hids :
    map (fun k => wrap (1 + Z.of_nat k)) (seq 0 n)
    = map (fun k => 1 + Z.of_nat k) (seq 0 n)).
  { apply map_ext_in. intros k Hk. apply in_seq in Hk.
    apply wrap_small. lia. }
  eexists. split; [reflexivity|]. split; [exact Hids|].
  intros i j Hij. rewrite Hids, !nth_map_seq by lia. lia.
Qed.

Lemma request_ids_increasing_witness :
  Z.of_nat 3 <= maxInt
  /\ exists ids,
       returned (assignedIDs 3 (NewMCPClient "http://localhost:8080") []) = Some ids
       /\ ids = map (fun k => 1 + Z.of_nat k) (seq 0 3)
       /\ (forall i j, (i < j < 3)%nat -> nth i ids 0 < nth j ids 0).
Proof.
  assert (H : Z.of_nat 3 <= maxInt) by (vm_compute; discriminate).
  split; [exact H|].
  exact (request_ids_increasing "http://localhost:8080" 3 [] H).
Defined.

(** C5 (counterexample): the client whose counter has reached the largest
    [int] hands out that id and then the smallest [int]. *)
Lemma request_ids_wrap_around :
  returned
    (assignedIDs 2
       {| BaseURL := "http://localhost:8080"; nextID := maxInt; sessionID := "" |}
       [])
  = Some [maxInt; - maxInt - 1]
  /\ ~ maxInt < - maxInt - 1.
Proof. split; [reflexivity | vm_compute; discriminate]. Qed.

(** The three sends of a complete protocol flow carry the ids 1, 2, 3. *)
Example flow_request_ids :
  rpcIDs (logOf (tryMCPFlow
                   (Scenario.toolServer Scenario.weatherTool
                      (Scenario.contentOf "Rainy"))
                   "p" "m" (NewMCPClient Scenario.base) []))
  = [1; 2; 3].
Proof. reflexivity. Qed.

(** That client is the fresh one after [maxInt - 1] sends. *)
Lemma counter_reaches_maxInt baseURL log n :
  Z.of_nat n = maxInt - 1 ->
  clientOf (assignedIDs n (NewMCPClient baseURL) log)
  = {| BaseURL := baseURL; nextID := maxInt; sessionID := "" |}.
Proof.
  intros Hn.
  rewrite assignedIDs_closed_form by (cbn [nextID NewMCPClient]; lia).
  unfold clientOf, afterCalls. cbn [nextID NewMCPClient BaseURL sessionID].
  rewrite Hn. replace (1 + (maxInt - 1)) with maxInt by lia.
  rewrite wrap_small; [reflexivity|].
  unfold maxInt, intSize. simpl (64 - 1). lia.
Qed.

(* ================================================================== *)
(** ** The entry point *)
(* ================================================================== *)

(** C6: with an empty prompt, whatever the model, and with an empty model,
    whatever the prompt, [AIFunction] returns a configuration error and
    the request log is the one it started from. *)
Theorem AIFunction_rejects_empty (rt : Runtime) (prompt model : string)
  (log : list Request) :
  AIFunction rt "" model log
  = Returned (Err (Errorf "prompt cannot be empty")) log
  /\ AIFunction rt prompt "" log
     = Returned
         (Err (Errorf (if String.eqb prompt "" then "prompt cannot be empty"
                       else "model cannot be empty")))
         log.
Proof.
  split; [reflexivity|].
  unfold AIFunction. destruct (String.eqb prompt ""); reflexivity.
Qed.

(* ================================================================== *)
(** ** What each method sends *)
(* ================================================================== *)

Lemma bind_getClient {A} (k : MCPClient -> M A) c log :
  bind getClient k c log = k c c log.
Proof. reflexivity. Qed.

Lemma emits_ret {A} P (a : A) : emits P (ret a).
Proof.
  intros c log. exists []. simpl. rewrite app_nil_r. auto.
Qed.

Lemma emits_panic {A} P msg : emits P (@panic A msg).
Proof.
  intros c log. exists []. simpl. rewrite app_nil_r. auto.
Qed.

Lemma emits_bind {A B} P (m : M A) (k : A -> M B) :
  emits P m -> (forall a, emits P (k a)) -> emits P (bind m k).
Proof.
  intros Hm Hk c log. destruct (Hm c log) as [sent1 [Hlog1 [Hall1 Hbase1]]].
  unfold bind. destruct (m c log) as [a c1 log1|msg c1 log1];
    simpl in Hlog1, Hbase1.
  - destruct (Hk a c1 log1) as [sent2 [Hlog2 [Hall2 Hbase2]]].
    exists (sent1 ++ sent2)%list. rewrite Hlog2, Hlog1, app_assoc.
    split; [reflexivity|]. split; [|congruence].
    apply Forall_app. split; [exact Hall1|]. rewrite <- Hbase1. exact Hall2.
  - exists sent1. simpl. auto.
Qed.

Lemma emits_getNextID P : emits P getNextID.
Proof.
  intros c log. exists []. simpl. rewrite app_nil_r. auto.
Qed.

(** One request and what follows it. *)
Lemma emits_step {A} (P : string -> Request -> Prop) rt req
  (k : option Response -> M A) c log :
  P (BaseURL c) req ->
  (forall resp, emits P (k resp)) ->
  exists sent,
    logOf (bind (Do rt req) k c log) = (log ++ sent)%list
    /\ Forall (P (BaseURL c)) sent
    /\ BaseURL (clientOf (bind (Do rt req) k c log)) = BaseURL c.
Proof.
  intros Hreq Hk. unfold bind, Do.
  destruct (Hk (client_do rt log req) c (log ++ [req])%list)
    as [sent [Hlog [Hall Hbase]]].
  exists (req :: sent). rewrite Hlog, <- app_assoc.
  split; [reflexivity|]. split; [constructor; assumption|exact Hbase].
Qed.

Lemma sessionHeaders_method c req :
  ReqMethod (sessionHeaders c req) = ReqMethod req
  /\ URL (sessionHeaders c req) = URL req.
Proof.
  unfold sessionHeaders. destruct (String.eqb (sessionID c) ""); auto.
Qed.

Lemma emits_setSessionID P token : emits P (setSessionID token).
Proof.
  intros c log. exists []. simpl. rewrite app_nil_r. auto.
Qed.

Lemma emits_tryDirectAPI_loop rt prompt model endpoints :
  (forall endpoint, In endpoint endpoints -> In endpoint directEndpoints) ->
  emits directStage (tryDirectAPI_loop rt prompt model endpoints).
Proof.
  induction endpoints as [|endpoint rest IH]; intros Hin;
    [apply emits_ret|].
  assert (IH' := IH (fun e He => Hin e (or_intror He))).
  intros c log. cbn [tryDirectAPI_loop].
  rewrite bind_getClient. unfold NewRequest.
  destruct (url_ok rt (BaseURL c ++ endpoint)); [|apply IH'].
  apply emits_step.
  - split; [apply sessionHeaders_method|].
    exists endpoint. split; [apply Hin; left; reflexivity|].
    apply sessionHeaders_method.
  - intros [resp|]; [|exact IH'].
    destruct (StatusCode resp =? 200); [apply emits_ret|exact IH'].
Qed.

Lemma emits_tryDirectAPI rt prompt model :
  emits directStage (tryDirectAPI rt prompt model).
Proof.
  apply emits_bind; [apply emits_tryDirectAPI_loop; auto|].
  intros [text|]; apply emits_ret.
Qed.



Lemma emits_initializeWithSession rt :
  emits flowStage (initializeWithSession rt).
Proof.
  intros c log. unfold initializeWithSession.
  rewrite bind_getClient. unfold NewRequest.
  destruct (url_ok rt (BaseURL c ++ "/initialize")); [|apply emits_ret].
  apply emits_step.
  - split; [reflexivity|]. right. left. reflexivity.
  - intros [resp|]; [|apply emits_ret].
    destruct (headerOrCookie resp); [|apply emits_ret].
    apply emits_bind; [apply emits_setSessionID|intros; apply emits_ret].
Qed.

Lemma emits_CreateSession_loop rt endpoints :
  (forall endpoint, In endpoint endpoints -> In endpoint sessionEndpoints) ->
  emits flowStage (CreateSession_loop rt endpoints).
Proof.
  induction endpoints as [|endpoint rest IH]; intros Hin;
    [apply emits_ret|].
  assert (IH' := IH (fun e He => Hin e (or_intror He))).
  intros c log. cbn [CreateSession_loop].
  rewrite bind_getClient. unfold NewRequest.
  destruct (url_ok rt (BaseURL c ++ endpoint)); [|apply IH'].
  apply emits_step.
  - split; [reflexivity|]. right. right. exists endpoint.
    split; [apply Hin; left; reflexivity|reflexivity].
  - intros [resp|]; [|exact IH'].
    destruct ((StatusCode resp =? 200) || (StatusCode resp =? 201))%bool;
      [|exact IH'].
    destruct (sessionToken rt resp); [|exact IH'].
    apply emits_bind; [apply emits_setSessionID|intros; apply emits_ret].
Qed.

Lemma emits_CreateSession rt : emits flowStage (CreateSession rt).
Proof.
  apply emits_bind; [apply emits_CreateSession_loop; auto|].
  intros [|]; [apply emits_ret|apply emits_initializeWithSession].
Qed.

Lemma emits_sendRequest rt request : emits flowStage (sendRequest rt request).
Proof.
  intros c log. unfold sendRequest.
  rewrite bind_getClient. unfold NewRequest.
  destruct (url_ok rt (BaseURL c)); [|apply emits_ret].
  apply emits_step.
  - split; [apply sessionHeaders_method|]. left. apply sessionHeaders_method.
  - intros [resp|]; [|apply emits_ret].
    destruct (ReadError resp); [apply emits_ret|].
    destruct (negb (StatusCode resp =? 200)); [apply emits_ret|].
    destruct (unmarshal_response rt (RespBody resp)); apply emits_ret.
Qed.

Lemma emits_Initialize rt : emits flowStage (Initialize rt).
Proof.
  unfold Initialize.
  apply emits_bind; [apply emits_CreateSession|intros _].
  apply emits_bind; [apply emits_getNextID|intros id].
  apply emits_bind; [apply emits_sendRequest|intros [response|err]].
  - destruct (Error response); apply emits_ret.
  - apply emits_ret.
Qed.

Lemma emits_ListTools rt : emits flowStage (ListTools rt).
Proof.
  unfold ListTools.
  apply emits_bind; [apply emits_getNextID|intros id].
  apply emits_bind; [apply emits_sendRequest|intros [response|err]];
    [|apply emits_ret].
  destruct (Error response); [apply emits_ret|].
  destruct (Result response) as [| | | | |result]; try apply emits_ret.
  destruct (lookup result "tools") as [[| | | | |]|]; apply emits_ret.
Qed.

Lemma emits_CallTool rt toolName arguments :
  emits flowStage (CallTool rt toolName arguments).
Proof.
  unfold CallTool.
  apply emits_bind; [apply emits_getNextID|intros id].
  apply emits_bind; [apply emits_sendRequest|intros [response|err]];
    [|apply emits_ret].
  destruct (Error response); apply emits_ret.
Qed.

Lemma emits_tryMCPFlow rt prompt model :
  emits flowStage (tryMCPFlow rt prompt model).
Proof.
  unfold tryMCPFlow.
  apply emits_bind; [apply emits_Initialize|intros [err|]];
    [apply emits_ret|].
  apply emits_bind; [apply emits_ListTools|intros [[|tool tools]|err]];
    try apply emits_ret.
  destruct tool as [| | | | |toolMap]; try apply emits_panic.
  destruct (lookup toolMap "name") as [[| | |toolName| |]|];
    try apply emits_panic.
  apply emits_bind; [apply emits_CallTool|intros [result|err]];
    apply emits_ret.
Qed.

(* ================================================================== *)
(** ** Session negotiation *)
(* ================================================================== *)

Lemma isSessionCookie_spec cookie :
  isSessionCookie cookie = true <-> sessionCookieName cookie.
Proof.
  unfold isSessionCookie, sessionCookieName.
  rewrite orb_true_iff, !String.eqb_eq. reflexivity.
Qed.

Lemma find_sessionCookie_none cookies :
  find isSessionCookie cookies = None
  <-> (forall cookie, In cookie cookies -> ~ sessionCookieName cookie).
Proof.
  split.
  - intros Hnone cookie Hin Hname.
    pose proof (find_none _ _ Hnone cookie Hin) as Hfalse.
    apply isSessionCookie_spec in Hname. congruence.
  - intros Hall. induction cookies as [|cookie rest IH]; [reflexivity|].
    simpl. destruct (isSessionCookie cookie) eqn:Hc.
    + exfalso. apply (Hall cookie (or_introl eq_refl)).
      apply isSessionCookie_spec. exact Hc.
    + apply IH. intros other Hin. apply Hall. right. exact Hin.
Qed.

Lemma find_sessionCookie_first before cookie after :
  (forall other, In other before -> ~ sessionCookieName other) ->
  sessionCookieName cookie ->
  find isSessionCookie (before ++ cookie :: after)%list = Some cookie.
Proof.
  intros Hbefore Hcookie. induction before as [|other rest IH]; simpl.
  - apply isSessionCookie_spec in Hcookie. rewrite Hcookie. reflexivity.
  - destruct (isSessionCookie other) eqn:Hother.
    + exfalso. apply (Hbefore other (or_introl eq_refl)).
      apply isSessionCookie_spec. exact Hother.
    + apply IH. intros o Hin. apply Hbefore. right. exact Hin.
Qed.

Lemma headerOrCookie_spec resp :
  match headerOrCookie resp with
  | Some _ => carriesSession resp
  | None => ~ carriesSession resp
  end.
Proof.
  unfold headerOrCookie, carriesSession.
  destruct (String.eqb_spec (HeaderGet resp "X-Session-ID") "") as [He|Hne];
    simpl; [|left; exact Hne].
  destruct (find isSessionCookie (Cookies resp)) as [cookie|] eqn:Hfind; simpl.
  - right. apply find_some in Hfind. exists cookie. split; [tauto|].
    apply isSessionCookie_spec. tauto.
  - intros [Hh|[cookie [Hin Hname]]]; [tauto|].
    apply (proj1 (find_sessionCookie_none _) Hfind cookie Hin Hname).
Qed.

(** C9: once the initialization request has been answered, whatever the
    status code of the answer, [initializeWithSession] returns nil exactly
    when the answer carries a non-empty X-Session-ID header or a cookie
    named session_id or sessionId, and the token is then the header value,
    or without one the value of the first such cookie. *)
Theorem initializeWithSession_accepts_any_status
  (rt : Runtime) (c : MCPClient) (log : list Request) (resp : Response) :
  url_ok rt (BaseURL c ++ "/initialize") = true ->
  client_do rt log (initializeRequest c) = Some resp ->
  (returned (initializeWithSession rt c log) = Some None <-> carriesSession resp)
  /\ (carriesSession resp ->
      exists token,
        initializeWithSession rt c log
        = Done None (withSession c token) (log ++ [initializeRequest c])
        /\ (HeaderGet resp "X-Session-ID" <> "" ->
            token = HeaderGet resp "X-Session-ID")
        /\ (HeaderGet resp "X-Session-ID" = "" ->
            option_map Value (find isSessionCookie (Cookies resp)) = Some token)).
Proof.
  intros Hurl Hdo.
  assert (Hrun :
    initializeWithSession rt c log
    = match headerOrCookie resp with
      | Some token =>
          Done None (withSession c token) (log ++ [initializeRequest c])
      | None =>
          Done (Some (Errorf "could not establish session")) c
               (log ++ [initializeRequest c])
      end).
  { unfold initializeWithSession. run. rewrite Hurl.
    change (jsonHeaders _) with (initializeRequest c). rewrite Hdo.
    destruct (headerOrCookie resp); reflexivity. }
  rewrite Hrun. pose proof (headerOrCookie_spec resp) as Hspec.
  destruct (headerOrCookie resp) as [token|] eqn:Htoken.
  - split; [split; [intros _; exact Hspec | reflexivity]|].
    intros _. exists token. split; [reflexivity|].
    unfold headerOrCookie in Htoken.
    destruct (String.eqb_spec (HeaderGet resp "X-Session-ID") "") as [He|Hne];
      simpl in Htoken.
    + split; [intros Hh; contradiction | intros _; exact Htoken].
    + split; [intros _; congruence | intros Hh; contradiction].
  - split; [split; [discriminate | intros Hyes; contradiction]|].
    intros Hyes. contradiction.
Qed.

Lemma initializeWithSession_accepts_any_status_witness :
  url_ok Scenario.failingInitialize (Scenario.base ++ "/initialize") = true
  /\ (exists resp,
        client_do Scenario.failingInitialize []
          (initializeRequest (NewMCPClient Scenario.base)) = Some resp
        /\ StatusCode resp = 500
        /\ (returned (initializeWithSession Scenario.failingInitialize
                        (NewMCPClient Scenario.base) []) = Some None
            <-> carriesSession resp)).
Proof.
  split; [reflexivity|].
  eexists. split; [reflexivity|]. split; [reflexivity|].
  apply (initializeWithSession_accepts_any_status Scenario.failingInitialize
           (NewMCPClient Scenario.base) []); reflexivity.
Defined.

Lemma acceptedToken_sessionToken rt resp token :
  acceptedToken rt resp token -> sessionToken rt resp = Some token.
Proof.
  assert (Hbody : noBodyToken rt resp ->
                  sessionToken rt resp = headerOrCookie resp).
  { unfold noBodyToken, sessionToken. intros Hnone.
    destruct (unmarshal_session rt (RespBody resp)) as [sessionResp|];
      [|reflexivity].
    rewrite (Hnone sessionResp eq_refl). reflexivity. }
  intros [sessionResp Hparse Hid | Hnone Hheader
          | before cookie after Hnone Hheader Hcookies Hbefore Hname].
  - unfold sessionToken. rewrite Hparse.
    apply String.eqb_neq in Hid. rewrite Hid. reflexivity.
  - rewrite (Hbody Hnone). unfold headerOrCookie.
    apply String.eqb_neq in Hheader. rewrite Hheader. reflexivity.
  - rewrite (Hbody Hnone). unfold headerOrCookie.
    rewrite Hheader, Hcookies. simpl.
    rewrite (find_sessionCookie_first before cookie after Hbefore Hname).
    reflexivity.
Qed.

(** The session loop over a list split in two: the second half runs only
    if the first returned nothing. *)
Lemma CreateSession_loop_app rt pre post :
  forall c log,
    CreateSession_loop rt (pre ++ post) c log
    = match CreateSession_loop rt pre c log with
      | Done false c' log' => CreateSession_loop rt post c' log'
      | r => r
      end.
Proof.
  induction pre as [|endpoint rest IH]; intros c log; [reflexivity|].
  cbn [app CreateSession_loop]. run.
  destruct (url_ok rt (BaseURL c ++ endpoint)); [|apply IH].
  destruct (client_do rt log _) as [resp|]; [|apply IH].
  destruct ((StatusCode resp =? 200) || (StatusCode resp =? 201))%bool;
    [|apply IH].
  destruct (sessionToken rt resp); [reflexivity|apply IH].
Qed.

(** C8: when no earlier session endpoint has yielded a token and the next
    one answers 200 or 201, the token is the body identifier if the body
    parses with a non-empty one, else the X-Session-ID header, else the
    first cookie named session_id or sessionId; [CreateSession] stores it
    and returns nil at once, the answered request being the last one sent. *)
Theorem CreateSession_first_match
  (rt : Runtime) (c c' : MCPClient) (log log' : list Request)
  (pre post : list string) (endpoint : string) (resp : Response)
  (token : string) :
  sessionEndpoints = (pre ++ endpoint :: post)%list ->
  CreateSession_loop rt pre c log = Done false c' log' ->
  url_ok rt (BaseURL c' ++ endpoint) = true ->
  client_do rt log' (sessionRequest c' endpoint) = Some resp ->
  StatusCode resp = 200 \/ StatusCode resp = 201 ->
  acceptedToken rt resp token ->
  CreateSession rt c log
  = Done None (withSession c' token) (log' ++ [sessionRequest c' endpoint]).
Proof.
  intros Hsplit Hpre Hurl Hdo Hstatus Htoken.
  unfold CreateSession. rewrite Hsplit.
  unfold bind at 1. rewrite CreateSession_loop_app, Hpre.
  cbn [CreateSession_loop]. run. rewrite Hurl.
  change (jsonHeaders _) with (sessionRequest c' endpoint). rewrite Hdo.
  replace ((StatusCode resp =? 200) || (StatusCode resp =? 201))%bool with true
    by (destruct Hstatus as [H|H]; rewrite H; reflexivity).
  rewrite (acceptedToken_sessionToken rt resp token Htoken). reflexivity.
Qed.

Lemma CreateSession_first_match_witness :
  CreateSession Scenario.cookieSession (NewMCPClient Scenario.base) []
  = Done None (withSession (NewMCPClient Scenario.base) "c7")
         [sessionRequest (NewMCPClient Scenario.base) "/session";
          sessionRequest (NewMCPClient Scenario.base) "/api/session"].
Proof.
  apply (CreateSession_first_match Scenario.cookieSession
           (NewMCPClient Scenario.base) (NewMCPClient Scenario.base)
           [] [sessionRequest (NewMCPClient Scenario.base) "/session"]
           ["/session"] ["/sessions"; "/create-session"] "/api/session"
           {| StatusCode := 201; RespBody := "created"; ReadError := false;
              HeaderGet := fun _ => "";
              Cookies := [ {| Name := "lang"; Value := "en" |};
                           {| Name := "sessionId"; Value := "c7" |} ] |}
           "c7").
  - reflexivity.
  - reflexivity.
  - reflexivity.
  - reflexivity.
  - right. reflexivity.
  - apply (token_from_cookie Scenario.cookieSession _
             [ {| Name := "lang"; Value := "en" |} ]
             {| Name := "sessionId"; Value := "c7" |} []).
    + intros sessionResp Hparse. discriminate Hparse.
    + reflexivity.
    + reflexivity.
    + intros other [Hother|[]]. subst other.
      intros [Hname|Hname]; discriminate Hname.
    + right. reflexivity.
Defined.

(* ================================================================== *)
(** ** Session headers on later requests *)
(* ================================================================== *)

(** C2 (failing run): the gateway hands out the token "tok" at /session and
    answers 404 everywhere else.  The JSON-RPC request that follows carries
    the token under both header names; the three GET probes after it carry
    X-Session-ID only. *)
Theorem GET_probe_omits_Session_ID :
  let run := GatherInformation Scenario.sessionOnly "p" "m"
               (NewMCPClient Scenario.base) [] in
  let c := withSession (NewMCPClient Scenario.base) "tok" in
  nth_error (logOf run) 6 = Some (sessionRequest (NewMCPClient Scenario.base) "/session")
  /\ option_map ReqHeader (nth_error (logOf run) 7)
     = Some [("Content-Type", "application/json"); ("Accept", "application/json");
             ("X-Session-ID", "tok"); ("Session-ID", "tok")]
  /\ skipn 8 (logOf run)
     = [getRequest c "/?model=m&prompt=p&q=p";
        getRequest c "/api?model=m&prompt=p&q=p";
        getRequest c "/query?model=m&prompt=p&q=p"]
  /\ Forall (fun req => ~ In "Session-ID" (headerNames req)) (skipn 8 (logOf run)).
Proof.
  cbv zeta. split; [reflexivity|]. split; [reflexivity|]. split; [reflexivity|].
  vm_compute. repeat constructor; intros [H|[]]; discriminate H.
Qed.

(** Whatever the gateway, no request of the GET probe has a Session-ID
    header. *)
Lemma GET_probe_never_sends_Session_ID rt prompt model :
  emits (fun _ req => ~ In "Session-ID" (headerNames req))
        (tryAlternativeEndpoints rt prompt model).
Proof.
  apply emits_bind; [|intros [body|]; apply emits_ret].
  generalize (alternativeEndpoints prompt model) as endpoints.
  induction endpoints as [|endpoint rest IH]; [apply emits_ret|].
  intros c log. cbn [tryAlternativeEndpoints_loop].
  rewrite bind_getClient. unfold NewRequest.
  destruct (url_ok rt (BaseURL c ++ endpoint)); [|apply IH].
  apply (emits_step (fun _ req => ~ In "Session-ID" (headerNames req))).
  - destruct (String.eqb (sessionID c) ""); simpl; [tauto|].
    intros [H|[]]. discriminate H.
  - intros [resp|]; [|exact IH].
    destruct (StatusCode resp =? 200); [apply emits_ret|exact IH].
Qed.

(* ================================================================== *)
(** ** The protocol flow *)
(* ================================================================== *)

(** Whatever the gateway, a first tool that is not an object with a
    string under "name" ends the flow in a panic. *)
Lemma tryMCPFlow_panics rt prompt model c c1 c2 log log1 log2 tool tools :
  Initialize rt c log = Done None c1 log1 ->
  ListTools rt c1 log1 = Done (Ok (tool :: tools)) c2 log2 ->
  (forall toolMap toolName,
      tool = JObj toolMap -> lookup toolMap "name" <> Some (JStr toolName)) ->
  exists msg, tryMCPFlow rt prompt model c log = Panicked msg c2 log2.
Proof.
  intros Hinit Hlist Hname. unfold tryMCPFlow.
  unfold bind at 1. rewrite Hinit. unfold bind at 1. rewrite Hlist.
  destruct tool as [| | | | |toolMap]; try (eexists; reflexivity).
  specialize (Hname toolMap).
  destruct (lookup toolMap "name") as [[| | |toolName| |]|];
    try (eexists; reflexivity).
  exfalso. exact (Hname toolName eq_refl eq_refl).
Qed.

(** C3 (failing runs): an empty tool list is an error, but a first tool
    that is a number, or an object without a name, ends the run in a
    panic. *)
Theorem tryMCPFlow_panics_on_malformed_tool :
  returned (tryMCPFlow (Scenario.toolServer (Scenario.toolsOf "") "")
              "p" "m" (NewMCPClient Scenario.base) [])
  = Some (Err (Errorf "no tools available"))
  /\ panicOf (tryMCPFlow (Scenario.toolServer Scenario.numberTool "")
                "p" "m" (NewMCPClient Scenario.base) [])
     = Some "tools[0].(map[string]interface{})"
  /\ panicOf (tryMCPFlow (Scenario.toolServer Scenario.namelessTool "")
                "p" "m" (NewMCPClient Scenario.base) [])
     = Some "toolMap[name].(string)"
  /\ panicOf (GatherInformation (Scenario.toolServer Scenario.numberTool "")
                "p" "m" (NewMCPClient Scenario.base) [])
     = Some "tools[0].(map[string]interface{})".
Proof. repeat split; vm_compute; reflexivity. Qed.

(* ================================================================== *)
(** ** The direct-API probe *)
(* ================================================================== *)

Lemma textFieldLoop_first m before field after text :
  (forall f s, In f before -> lookup m f = Some (JStr s) -> s = "") ->
  lookup m field = Some (JStr text) ->
  text <> "" ->
  textFieldLoop m (before ++ field :: after) = Some text.
Proof.
  intros Hbefore Hfield Htext. induction before as [|f rest IH].
  - simpl. rewrite Hfield. apply String.eqb_neq in Htext. rewrite Htext.
    reflexivity.
  - assert (IH' : textFieldLoop m (rest ++ field :: after) = Some text).
    { apply IH. intros f' s Hin. apply Hbefore. right. exact Hin. }
    simpl. destruct (lookup m f) as [[| | |s| |]|] eqn:Hf; try exact IH'.
    rewrite (Hbefore f s (or_introl eq_refl) Hf). exact IH'.
Qed.

Lemma extractTextFromResult_first m field text :
  firstTextField m field text -> extractTextFromResult (JObj m) = text.
Proof.
  intros [before [after [Hsplit [Hbefore [Hfield Htext]]]]].
  unfold extractTextFromResult. rewrite Hsplit.
  rewrite (textFieldLoop_first m before field after text Hbefore Hfield Htext).
  reflexivity.
Qed.

(** The direct-API loop over a list split in two. *)
Lemma tryDirectAPI_loop_app rt prompt model pre post :
  forall c log,
    tryDirectAPI_loop rt prompt model (pre ++ post) c log
    = match tryDirectAPI_loop rt prompt model pre c log with
      | Done None c' log' => tryDirectAPI_loop rt prompt model post c' log'
      | r => r
      end.
Proof.
  induction pre as [|endpoint rest IH]; intros c log; [reflexivity|].
  cbn [app tryDirectAPI_loop]. run.
  destruct (url_ok rt (BaseURL c ++ endpoint)); [|apply IH].
  destruct (client_do rt log _) as [resp|]; [|apply IH].
  destruct (StatusCode resp =? 200); [reflexivity|apply IH].
Qed.

(** C1 (amended): when every direct-API endpoint before [endpoint] has
    failed (bad URL, transport error or a status other than 200) and
    [endpoint] answers 200 with a JSON object, [GatherInformation] returns
    the value of the first recognised field, in priority order, that holds
    a non-empty string, and sends nothing more. *)
Theorem GatherInformation_direct_first_field
  (rt : Runtime) (prompt model : string) (c c' : MCPClient)
  (log log' : list Request) (pre post : list string) (endpoint : string)
  (resp : Response) (m : list (string * JSON)) (field text : string) :
  directEndpoints = (pre ++ endpoint :: post)%list ->
  tryDirectAPI_loop rt prompt model pre c log = Done None c' log' ->
  url_ok rt (BaseURL c' ++ endpoint) = true ->
  client_do rt log' (directRequest c' prompt model endpoint) = Some resp ->
  StatusCode resp = 200 ->
  unmarshal_map rt (RespBody resp) = Some (Some m) ->
  firstTextField m field text ->
  GatherInformation rt prompt model c log
  = Done (Ok text) c' (log' ++ [directRequest c' prompt model endpoint]).
Proof.
  intros Hsplit Hpre Hurl Hdo Hstatus Hbody Hfield.
  unfold GatherInformation, tryDirectAPI. rewrite Hsplit.
  unfold bind at 1. unfold bind at 1.
  rewrite tryDirectAPI_loop_app, Hpre.
  cbn [tryDirectAPI_loop]. run. rewrite Hurl.
  change (sessionHeaders c' (jsonHeaders _))
    with (directRequest c' prompt model endpoint).
  rewrite Hdo, Hstatus. cbn [Z.eqb Pos.eqb].
  unfold directAnswer. rewrite Hbody. cbn [ofMap].
  rewrite (extractTextFromResult_first m field text Hfield).
  destruct Hfield as [_ [_ [_ [_ [_ Htext]]]]].
  apply String.eqb_neq in Htext. rewrite Htext. reflexivity.
Qed.

Lemma GatherInformation_direct_first_field_witness :
  GatherInformation Scenario.chatty "p" "m" (NewMCPClient Scenario.base) []
  = Done (Ok "a") (NewMCPClient Scenario.base)
         [directRequest (NewMCPClient Scenario.base) "p" "m" "/api/chat"].
Proof.
  apply (GatherInformation_direct_first_field Scenario.chatty "p" "m"
           (NewMCPClient Scenario.base) (NewMCPClient Scenario.base) [] []
           [] ["/chat"; "/api/completion"; "/completion"; "/api/generate";
               "/generate"]
           "/api/chat" (Scenario.response 200 Scenario.twoFields)
           [("text", JStr "a"); ("answer", JStr "b")] "text" "a").
  - reflexivity.
  - reflexivity.
  - reflexivity.
  - reflexivity.
  - reflexivity.
  - reflexivity.
  - exists [], ["response"; "answer"; "result"; "output"; "message"; "content"].
    split; [reflexivity|]. split; [intros f s []|].
    split; [reflexivity | discriminate].
Defined.

(** C1 (counterexample): [/api/chat] answers 200 with an object whose
    "answer" field is the non-empty string "b", and [GatherInformation]
    returns "a", the value of its "text" field; and when [/chat] answers
    200 with that "answer" but [/api/chat] has answered 200 with plain
    text, [GatherInformation] returns the plain text. *)
Lemma GatherInformation_not_any_field :
  let c := NewMCPClient Scenario.base in
  (In "/api/chat" directEndpoints
   /\ client_do Scenario.chatty [] (directRequest c "p" "m" "/api/chat")
      = Some (Scenario.response 200 Scenario.twoFields)
   /\ unmarshal_map Scenario.chatty Scenario.twoFields
      = Some (Some [("text", JStr "a"); ("answer", JStr "b")])
   /\ In "answer" textFields
   /\ lookup [("text", JStr "a"); ("answer", JStr "b")] "answer" = Some (JStr "b")
   /\ returned (GatherInformation Scenario.chatty "p" "m" c []) = Some (Ok "a")
   /\ returned (GatherInformation Scenario.chatty "p" "m" c []) <> Some (Ok "b"))
  /\ (In "/chat" directEndpoints
      /\ (forall log,
             client_do Scenario.twoChats log (directRequest c "p" "m" "/chat")
             = Some (Scenario.response 200 Scenario.answerOnly))
      /\ unmarshal_map Scenario.twoChats Scenario.answerOnly
         = Some (Some [("answer", JStr "b")])
      /\ lookup [("answer", JStr "b")] "answer" = Some (JStr "b")
      /\ returned (GatherInformation Scenario.twoChats "p" "m" c [])
         = Some (Ok "hello")
      /\ returned (GatherInformation Scenario.twoChats "p" "m" c [])
         <> Some (Ok "b")).
Proof.
  cbv zeta. split.
  - split; [left; reflexivity|]. split; [reflexivity|].
    split; [reflexivity|]. split; [right; right; left; reflexivity|].
    split; [reflexivity|]. split; [reflexivity|]. vm_compute. discriminate.
  - split; [right; left; reflexivity|]. split; [reflexivity|].
    split; [reflexivity|]. split; [reflexivity|]. split; [reflexivity|].
    vm_compute. discriminate.
Qed.

(* ================================================================== *)
(** ** Nested content *)
(* ================================================================== *)

Lemma extractTextFromResult_nested m item items text :
  (forall field s,
      In field textFields -> lookup m field = Some (JStr s) -> s = "") ->
  lookup m "content" = Some (JArr (JObj item :: items)) ->
  lookup item "text" = Some (JStr text) ->
  extractTextFromResult (JObj m) = text.
Proof.
  intros Hfields Hcontent Htext. unfold extractTextFromResult.
  rewrite (textFieldLoop_none m textFields Hfields).
  unfold nestedContent. rewrite Hcontent, Htext. reflexivity.
Qed.

Lemma extractTextFromResult_empty_field field :
  In field textFields ->
  extractTextFromResult (JObj [(field, JStr "")])
  = MarshalIndent (JObj [(field, JStr "")]).
Proof.
  intros Hin. simpl in Hin.
  repeat (destruct Hin as [<-|Hin]; [reflexivity|]). contradiction.
Qed.

Lemma textFieldLoop_nonempty m fields text :
  textFieldLoop m fields = Some text -> text <> "".
Proof.
  induction fields as [|field rest IH]; simpl; [discriminate|].
  destruct (lookup m field) as [[| | |s| |]|]; try exact IH.
  destruct (String.eqb_spec s ""); [exact IH|].
  intros H. injection H as <-. assumption.
Qed.

(** C10: a recognised top-level field is taken only when it holds a
    non-empty string (an object with just such a field set to the empty
    string is printed instead), but the nested [content[0].text] is
    returned whatever it holds, the empty string included: when no
    top-level field of the tool result holds a non-empty string and its
    "content" is an array whose first element is an object with a string
    under "text", the extractor returns that string, [tryMCPFlow] returns
    it with a nil error, and so does [GatherInformation] once the
    direct-API stage has failed.  For the result whose "content" is a
    one-element array holding an object with "text" set to the empty
    string the answer is the empty string. *)
Theorem tryMCPFlow_empty_nested_text
  (rt : Runtime) (prompt model : string) (c c1 c2 c3 : MCPClient)
  (log log1 log2 log3 : list Request) (toolMap : list (string * JSON))
  (tools : list JSON) (toolName : string)
  (m item : list (string * JSON)) (items : list JSON) (text : string) :
  Initialize rt c log = Done None c1 log1 ->
  ListTools rt c1 log1 = Done (Ok (JObj toolMap :: tools)) c2 log2 ->
  lookup toolMap "name" = Some (JStr toolName) ->
  (forall field s,
      In field textFields -> lookup m field = Some (JStr s) -> s = "") ->
  lookup m "content" = Some (JArr (JObj item :: items)) ->
  lookup item "text" = Some (JStr text) ->
  CallTool rt toolName (JObj [("prompt", JStr prompt); ("model", JStr model)])
    c2 log2
  = Done (Ok (JObj m)) c3 log3 ->
  (forall field, In field textFields ->
     extractTextFromResult (JObj [(field, JStr "")]) <> "")
  /\ (forall m' s, textFieldLoop m' textFields = Some s -> s <> "")
  /\ extractTextFromResult (JObj m) = text
  /\ tryMCPFlow rt prompt model c log = Done (Ok text) c3 log3
  /\ (forall c0 log0 e,
         tryDirectAPI rt prompt model c0 log0 = Done (Err e) c log ->
         GatherInformation rt prompt model c0 log0 = Done (Ok text) c3 log3).
Proof.
  intros Hinit Hlist Hname Hfields Hcontent Htext Hcall.
  pose proof (extractTextFromResult_nested m item items text
                Hfields Hcontent Htext) as Hextract.
  assert (Hflow : tryMCPFlow rt prompt model c log = Done (Ok text) c3 log3).
  { unfold tryMCPFlow. unfold bind at 1. rewrite Hinit.
    unfold bind at 1. rewrite Hlist. rewrite Hname.
    unfold bind at 1. rewrite Hcall. cbn [ret]. rewrite Hextract.
    reflexivity. }
  split; [|split; [|split; [exact Hextract|split; [exact Hflow|]]]].
  - intros field Hin. rewrite (extractTextFromResult_empty_field field Hin).
    simpl in Hin.
    repeat (destruct Hin as [<-|Hin]; [vm_compute; discriminate|]).
    contradiction.
  - intros m' s. apply textFieldLoop_nonempty.
  - intros c0 log0 e Hdirect. unfold GatherInformation.
    unfold bind at 1. rewrite Hdirect.
    unfold bind at 1. rewrite Hflow. reflexivity.
Qed.

Lemma tryMCPFlow_empty_nested_text_witness :
  let rt := Scenario.toolServer Scenario.weatherTool (Scenario.contentOf "") in
  extractTextFromResult (JObj [("content", JArr [JObj [("text", JStr "")]])]) = ""
  /\ exists c3 log3,
       GatherInformation rt "p" "m" (NewMCPClient Scenario.base) []
       = Done (Ok "") c3 log3.
Proof.
  cbv zeta.
  pose (rt := Scenario.toolServer Scenario.weatherTool (Scenario.contentOf "")).
  pose (direct := tryDirectAPI rt "p" "m" (NewMCPClient Scenario.base) []).
  pose (init := Initialize rt (clientOf direct) (logOf direct)).
  pose (list := ListTools rt (clientOf init) (logOf init)).
  pose (call := CallTool rt "weather"
                  (JObj [("prompt", JStr "p"); ("model", JStr "m")])
                  (clientOf list) (logOf list)).
  assert (Hfields : forall field s,
             In field textFields ->
             lookup [("content", JArr [JObj [("text", JStr "")]])] field
             = Some (JStr s) -> s = "").
  { intros field s Hin. simpl in Hin.
    repeat (destruct Hin as [<-|Hin]; [discriminate|]). contradiction. }
  destruct (tryMCPFlow_empty_nested_text rt "p" "m"
              (clientOf direct) (clientOf init) (clientOf list) (clientOf call)
              (logOf direct) (logOf init) (logOf list) (logOf call)
              [("name", JStr "weather")] [] "weather"
              [("content", JArr [JObj [("text", JStr "")]])]
              [("text", JStr "")] [] ""
              ltac:(vm_compute; reflexivity) ltac:(vm_compute; reflexivity)
              eq_refl Hfields eq_refl eq_refl ltac:(vm_compute; reflexivity))
    as [_ [_ [Hextract [_ Hgather]]]].
  split; [exact Hextract|].
  exists (clientOf call), (logOf call).
  apply (Hgather (NewMCPClient Scenario.base) [] (Errorf "direct API calls failed")).
  vm_compute. reflexivity.
Defined.

(* ================================================================== *)
(** ** The order of the strategies *)
(* ================================================================== *)



(* ================================================================== *)
(** ** Panics *)
(* ================================================================== *)

Lemma neverPanics_ret {A} (a : A) : neverPanics (ret a).
Proof. intros c log. reflexivity. Qed.

Lemma neverPanics_bind {A B} (m : M A) (k : A -> M B) :
  neverPanics m -> (forall a, neverPanics (k a)) -> neverPanics (bind m k).
Proof.
  intros Hm Hk c log. unfold bind. specialize (Hm c log).
  destruct (m c log) as [a c' log'|msg c' log']; [apply Hk|discriminate Hm].
Qed.

Lemma neverPanics_Do rt req : neverPanics (Do rt req).
Proof. intros c log. reflexivity. Qed.

Lemma neverPanics_getClient : neverPanics getClient.
Proof. intros c log. reflexivity. Qed.

Lemma neverPanics_setSessionID token : neverPanics (setSessionID token).
Proof. intros c log. reflexivity. Qed.

Lemma neverPanics_getNextID : neverPanics getNextID.
Proof. intros c log. reflexivity. Qed.

#[local] Hint Resolve neverPanics_Do neverPanics_getClient
  neverPanics_setSessionID neverPanics_getNextID : methods.

Lemma neverPanics_initializeWithSession rt :
  neverPanics (initializeWithSession rt).
Proof. unfold initializeWithSession, NewRequest. straight @neverPanics_ret @neverPanics_bind. Qed.

Lemma neverPanics_CreateSession_loop rt endpoints :
  neverPanics (CreateSession_loop rt endpoints).
Proof.
  induction endpoints as [|endpoint rest IH]; cbn [CreateSession_loop];
    unfold NewRequest; straight @neverPanics_ret @neverPanics_bind.
Qed.

Lemma neverPanics_CreateSession rt : neverPanics (CreateSession rt).
Proof.
  unfold CreateSession.
  apply neverPanics_bind; [apply neverPanics_CreateSession_loop|].
  intros [|]; [apply neverPanics_ret|apply neverPanics_initializeWithSession].
Qed.

Lemma neverPanics_sendRequest rt request : neverPanics (sendRequest rt request).
Proof. unfold sendRequest, NewRequest. straight @neverPanics_ret @neverPanics_bind. Qed.

#[local] Hint Resolve neverPanics_CreateSession neverPanics_sendRequest : methods.

Lemma neverPanics_Initialize rt : neverPanics (Initialize rt).
Proof. unfold Initialize. straight @neverPanics_ret @neverPanics_bind. Qed.

Lemma neverPanics_ListTools rt : neverPanics (ListTools rt).
Proof. unfold ListTools. straight @neverPanics_ret @neverPanics_bind. Qed.

Lemma neverPanics_CallTool rt toolName arguments :
  neverPanics (CallTool rt toolName arguments).
Proof. unfold CallTool. straight @neverPanics_ret @neverPanics_bind. Qed.

Lemma neverPanics_tryDirectAPI_loop rt prompt model endpoints :
  neverPanics (tryDirectAPI_loop rt prompt model endpoints).
Proof.
  induction endpoints as [|endpoint rest IH]; cbn [tryDirectAPI_loop];
    unfold NewRequest; straight @neverPanics_ret @neverPanics_bind.
Qed.

Lemma neverPanics_tryAlternativeEndpoints_loop rt endpoints :
  neverPanics (tryAlternativeEndpoints_loop rt endpoints).
Proof.
  induction endpoints as [|endpoint rest IH];
    cbn [tryAlternativeEndpoints_loop]; unfold NewRequest; straight @neverPanics_ret @neverPanics_bind.
Qed.

#[local] Hint Resolve neverPanics_tryDirectAPI_loop
  neverPanics_tryAlternativeEndpoints_loop neverPanics_Initialize
  neverPanics_ListTools neverPanics_CallTool : methods.

Lemma neverPanics_tryDirectAPI rt prompt model :
  neverPanics (tryDirectAPI rt prompt model).
Proof. unfold tryDirectAPI. straight @neverPanics_ret @neverPanics_bind. Qed.

Lemma neverPanics_tryAlternativeEndpoints rt prompt model :
  neverPanics (tryAlternativeEndpoints rt prompt model).
Proof.
  unfold tryAlternativeEndpoints. straight @neverPanics_ret @neverPanics_bind.
Qed.

(** X1: the direct-API probe, the session negotiation, the three JSON-RPC
    calls and the GET probe return on every gateway and every answer: no
    malformed body, status or header makes them panic. *)
Theorem only_tool_selection_can_panic (rt : Runtime) (prompt model : string)
  (request : MCPRequest) (toolName : string) (arguments : JSON) :
  neverPanics (tryDirectAPI rt prompt model)
  /\ neverPanics (CreateSession rt)
  /\ neverPanics (initializeWithSession rt)
  /\ neverPanics (sendRequest rt request)
  /\ neverPanics (Initialize rt)
  /\ neverPanics (ListTools rt)
  /\ neverPanics (CallTool rt toolName arguments)
  /\ neverPanics (tryAlternativeEndpoints rt prompt model).
Proof.
  repeat split; auto with methods.
  - apply neverPanics_tryDirectAPI.
  - apply neverPanics_initializeWithSession.
  - apply neverPanics_tryAlternativeEndpoints.
Qed.

(** X2: when [GatherInformation] panics, the direct-API stage had failed,
    the handshake had succeeded and [ListTools] had returned a non-empty
    list whose first tool is not an object with a string under "name". *)
Theorem GatherInformation_panic_cause
  (rt : Runtime) (prompt model : string) (c : MCPClient) (log : list Request)
  (msg : string) :
  panicOf (GatherInformation rt prompt model c log) = Some msg ->
  exists e c0 log0 c1 log1 c2 log2 tool tools,
    tryDirectAPI rt prompt model c log = Done (Err e) c0 log0
    /\ Initialize rt c0 log0 = Done None c1 log1
    /\ ListTools rt c1 log1 = Done (Ok (tool :: tools)) c2 log2
    /\ malformedTool tool
    /\ GatherInformation rt prompt model c log = Panicked msg c2 log2.
Proof.
  intros Hpanic. unfold GatherInformation in *. unfold bind at 1 in Hpanic.
  unfold bind at 1.
  pose proof (neverPanics_tryDirectAPI rt prompt model c log) as Hdirect.
  destruct (tryDirectAPI rt prompt model c log) as [[text|e] c0 log0|]
    eqn:Hd; try discriminate.
  unfold bind at 1 in Hpanic. unfold bind at 1.
  destruct (tryMCPFlow rt prompt model c0 log0)
    as [[text|e'] cf logf|msg' cf logf] eqn:Hflow; try discriminate.
  { exfalso.
    rewrite (neverPanics_tryAlternativeEndpoints rt prompt model) in Hpanic.
    discriminate. }
  simpl in Hpanic. injection Hpanic as ->.
  unfold tryMCPFlow in Hflow. unfold bind at 1 in Hflow.
  pose proof (neverPanics_Initialize rt c0 log0) as Hinit.
  destruct (Initialize rt c0 log0) as [[err|] c1 log1|] eqn:Hi;
    try discriminate.
  unfold bind at 1 in Hflow.
  pose proof (neverPanics_ListTools rt c1 log1) as Hlist.
  destruct (ListTools rt c1 log1) as [[[|tool tools]|err] c2 log2|] eqn:Hl;
    try discriminate.
  exists e, c0, log0, c1, log1, c2, log2, tool, tools.
  split; [reflexivity|]. split; [exact Hi|]. split; [exact Hl|].
  destruct tool as [| | | | |toolMap];
    try (unfold panic in Hflow; injection Hflow as Hm Hc Hlog; subst;
         split; [intros tm tn Heq; discriminate Heq|reflexivity]).
  destruct (lookup toolMap "name") as [[| | |toolName| |]|] eqn:Hname;
    try (unfold panic in Hflow; injection Hflow as Hm Hc Hlog; subst;
         split; [intros tm tn Heq; injection Heq as <-; congruence|reflexivity]).
  exfalso. unfold bind at 1 in Hflow.
  pose proof (neverPanics_CallTool rt toolName
                (JObj [("prompt", JStr prompt); ("model", JStr model)]) c2 log2)
    as Hcall.
  destruct (CallTool rt toolName _ c2 log2) as [[result|err] c3 log3|];
    discriminate.
Qed.

Lemma GatherInformation_panic_cause_witness :
  exists e c0 log0 c1 log1 c2 log2 tool tools,
    tryDirectAPI (Scenario.toolServer Scenario.numberTool "") "p" "m"
      (NewMCPClient Scenario.base) [] = Done (Err e) c0 log0
    /\ Initialize (Scenario.toolServer Scenario.numberTool "") c0 log0
       = Done None c1 log1
    /\ ListTools (Scenario.toolServer Scenario.numberTool "") c1 log1
       = Done (Ok (tool :: tools)) c2 log2
    /\ malformedTool tool
    /\ GatherInformation (Scenario.toolServer Scenario.numberTool "") "p" "m"
         (NewMCPClient Scenario.base) []
       = Panicked "tools[0].(map[string]interface{})" c2 log2.
Proof.
  apply (GatherInformation_panic_cause
           (Scenario.toolServer Scenario.numberTool "") "p" "m"
           (NewMCPClient Scenario.base) []
           "tools[0].(map[string]interface{})").
  vm_compute. reflexivity.
Defined.

(* ================================================================== *)
(** ** Exhaustion *)
(* ================================================================== *)

(** X3: the only error [GatherInformation] ever returns is "all approaches
    failed", the one of the GET probe: the errors of the direct-API stage
    and of the protocol flow never reach the caller. *)
Theorem GatherInformation_only_error
  (rt : Runtime) (prompt model : string) (c : MCPClient) (log : list Request)
  (e : error) :
  returned (GatherInformation rt prompt model c log) = Some (Err e) ->
  e = Errorf "all approaches failed".
Proof.
  unfold GatherInformation. unfold bind at 1.
  destruct (tryDirectAPI rt prompt model c log) as [[text|e0] c0 log0|];
    try discriminate.
  unfold bind at 1.
  destruct (tryMCPFlow rt prompt model c0 log0) as [[text|e1] c1 log1|];
    try discriminate.
  unfold tryAlternativeEndpoints, bind.
  destruct (tryAlternativeEndpoints_loop rt _ c1 log1) as [[body|] c2 log2|];
    simpl; congruence.
Qed.

Lemma GatherInformation_only_error_witness :
  returned (GatherInformation Scenario.deaf "p" "m" (NewMCPClient Scenario.base) [])
  = Some (Err (Errorf "all approaches failed"))
  /\ Errorf "all approaches failed" = Errorf "all approaches failed".
Proof.
  split; [reflexivity|].
  apply (GatherInformation_only_error Scenario.deaf "p" "m"
           (NewMCPClient Scenario.base) []).
  reflexivity.
Defined.

Lemma tryDirectAPI_loop_never200 rt prompt model endpoints :
  never200 rt ->
  forall c log,
    exists log', tryDirectAPI_loop rt prompt model endpoints c log
                 = Done None c log'.
Proof.
  intros Hnever. induction endpoints as [|endpoint rest IH]; intros c log.
  - exists log. reflexivity.
  - cbn [tryDirectAPI_loop]. rewrite bind_getClient. unfold NewRequest.
    destruct (url_ok rt (BaseURL c ++ endpoint)); [|apply IH].
    unfold bind, Do.
    destruct (client_do rt log _) as [resp|] eqn:Hdo; [|apply IH].
    apply Hnever in Hdo. apply Z.eqb_neq in Hdo. rewrite Hdo. apply IH.
Qed.

Lemma tryAlternativeEndpoints_loop_never200 rt endpoints :
  never200 rt ->
  forall c log,
    exists log', tryAlternativeEndpoints_loop rt endpoints c log
                 = Done None c log'.
Proof.
  intros Hnever. induction endpoints as [|endpoint rest IH]; intros c log.
  - exists log. reflexivity.
  - cbn [tryAlternativeEndpoints_loop]. rewrite bind_getClient.
    unfold NewRequest.
    destruct (url_ok rt (BaseURL c ++ endpoint)); [|apply IH].
    unfold bind, Do.
    destruct (client_do rt log _) as [resp|] eqn:Hdo; [|apply IH].
    apply Hnever in Hdo. apply Z.eqb_neq in Hdo. rewrite Hdo. apply IH.
Qed.

Lemma sendRequest_never200 rt request c log :
  never200 rt ->
  exists e log', sendRequest rt request c log = Done (Err e) c log'.
Proof.
  intros Hnever. unfold sendRequest. rewrite bind_getClient. unfold NewRequest.
  destruct (url_ok rt (BaseURL c)); [|eexists; eexists; reflexivity].
  unfold bind, Do.
  destruct (client_do rt log _) as [resp|] eqn:Hdo;
    [|eexists; eexists; reflexivity].
  destruct (ReadError resp); [eexists; eexists; reflexivity|].
  apply Hnever in Hdo. apply Z.eqb_neq in Hdo. rewrite Hdo.
  eexists; eexists; reflexivity.
Qed.

(** X4: against a gateway that never answers 200 (down, or answering 404,
    500 or even 201 everywhere) [GatherInformation] neither panics nor
    succeeds: it returns "all approaches failed". *)
Theorem GatherInformation_exhausts
  (rt : Runtime) (prompt model : string) (c : MCPClient) (log : list Request) :
  never200 rt ->
  returned (GatherInformation rt prompt model c log)
  = Some (Err (Errorf "all approaches failed")).
Proof.
  intros Hnever. unfold GatherInformation, tryDirectAPI. unfold bind at 1 2.
  destruct (tryDirectAPI_loop_never200 rt prompt model directEndpoints Hnever
              c log) as [log0 ->].
  cbn [ret]. unfold bind at 1. unfold tryMCPFlow, Initialize.
  unfold bind at 1 2.
  pose proof (neverPanics_CreateSession rt c log0) as Hsession.
  destruct (CreateSession rt c log0) as [r c1 log1|]; [|discriminate].
  unfold bind at 1. unfold getNextID at 1. unfold bind at 1.
  destruct (sendRequest_never200 rt
              {| JSONRPC := "2.0"; ID := nextID c1; Method := "initialize";
                 Params := initParams |}
              {| BaseURL := BaseURL c1; nextID := wrap (nextID c1 + 1);
                 sessionID := sessionID c1 |} log1 Hnever)
    as [e [log2 ->]].
  cbn [ret]. unfold tryAlternativeEndpoints. unfold bind at 1.
  destruct (tryAlternativeEndpoints_loop_never200 rt
              (alternativeEndpoints prompt model) Hnever
              {| BaseURL := BaseURL c1; nextID := wrap (nextID c1 + 1);
                 sessionID := sessionID c1 |} log2) as [log3 ->].
  reflexivity.
Qed.

Lemma GatherInformation_exhausts_witness :
  never200 Scenario.deaf
  /\ returned (GatherInformation Scenario.deaf "p" "m"
                 (NewMCPClient Scenario.base) [])
     = Some (Err (Errorf "all approaches failed")).
Proof.
  assert (H : never200 Scenario.deaf).
  { intros log req resp Hdo. injection Hdo as <-. discriminate. }
  split; [exact H|].
  exact (GatherInformation_exhausts Scenario.deaf "p" "m"
           (NewMCPClient Scenario.base) [] H).
Defined.

(* ================================================================== *)
(** ** How many requests *)
(* ================================================================== *)

Lemma sendsAtMost_ret {A} n (a : A) : sendsAtMost n (ret a).
Proof.
  intros c log. exists []. simpl. rewrite app_nil_r. split; [reflexivity|lia].
Qed.

Lemma sendsAtMost_le {A} n n' (m : M A) :
  (n <= n')%nat -> sendsAtMost n m -> sendsAtMost n' m.
Proof.
  intros Hle Hm c log. destruct (Hm c log) as [sent [Hlog Hlen]].
  exists sent. split; [exact Hlog|lia].
Qed.

Lemma sendsAtMost_bind {A B} n1 n2 (m : M A) (k : A -> M B) :
  sendsAtMost n1 m -> (forall a, sendsAtMost n2 (k a)) ->
  sendsAtMost (n1 + n2) (bind m k).
Proof.
  intros Hm Hk c log. destruct (Hm c log) as [sent1 [Hlog1 Hlen1]].
  unfold bind. destruct (m c log) as [a c1 log1|msg c1 log1]; simpl in Hlog1.
  - destruct (Hk a c1 log1) as [sent2 [Hlog2 Hlen2]].
    exists (sent1 ++ sent2)%list. rewrite Hlog2, Hlog1, app_assoc, length_app.
    split; [reflexivity|lia].
  - exists sent1. simpl. split; [exact Hlog1|lia].
Qed.

Lemma sendsAtMost_quiet {A B} n (m : M A) (k : A -> M B) :
  sendsAtMost 0 m -> (forall a, sendsAtMost n (k a)) ->
  sendsAtMost n (bind m k).
Proof. intros Hm Hk. apply (sendsAtMost_bind 0 n); assumption. Qed.

Lemma sendsAtMost_Do {A} rt req n (k : option Response -> M A) :
  (forall resp, sendsAtMost n (k resp)) ->
  sendsAtMost (S n) (bind (Do rt req) k).
Proof.
  intros Hk. apply (sendsAtMost_bind 1 n); [|exact Hk].
  intros c log. exists [req]. split; [reflexivity|simpl; lia].
Qed.

Lemma sendsAtMost_getClient n : sendsAtMost n getClient.
Proof.
  intros c log. exists []. simpl. rewrite app_nil_r. split; [reflexivity|lia].
Qed.

Lemma sendsAtMost_getNextID n : sendsAtMost n getNextID.
Proof.
  intros c log. exists []. simpl. rewrite app_nil_r. split; [reflexivity|lia].
Qed.

Lemma sendsAtMost_setSessionID n token : sendsAtMost n (setSessionID token).
Proof.
  intros c log. exists []. simpl. rewrite app_nil_r. split; [reflexivity|lia].
Qed.

Lemma sendsAtMost_panic {A} n msg : sendsAtMost n (@panic A msg).
Proof.
  intros c log. exists []. simpl. rewrite app_nil_r. split; [reflexivity|lia].
Qed.

#[local] Hint Resolve sendsAtMost_getClient sendsAtMost_getNextID
  sendsAtMost_setSessionID sendsAtMost_panic : methods.

(** One turn of a probing loop: at most one request, then the rest. *)
Ltac turn IH :=
  apply sendsAtMost_quiet; [apply sendsAtMost_getClient|intros];
  unfold NewRequest;
  match goal with |- context [url_ok ?rt ?u] => destruct (url_ok rt u) end;
  [apply sendsAtMost_Do; intros;
   straight @sendsAtMost_ret @sendsAtMost_quiet;
   try (apply (sendsAtMost_le _ _ _ (Nat.le_refl _)); exact IH)
  |apply (sendsAtMost_le _ _ _ (Nat.le_succ_diag_r _)); exact IH].

Lemma sendsAtMost_tryDirectAPI_loop rt prompt model endpoints :
  sendsAtMost (List.length endpoints)
    (tryDirectAPI_loop rt prompt model endpoints).
Proof.
  induction endpoints as [|endpoint rest IH]; [apply sendsAtMost_ret|].
  cbn [tryDirectAPI_loop List.length]. turn IH.
Qed.

Lemma sendsAtMost_tryAlternativeEndpoints_loop rt endpoints :
  sendsAtMost (List.length endpoints) (tryAlternativeEndpoints_loop rt endpoints).
Proof.
  induction endpoints as [|endpoint rest IH]; [apply sendsAtMost_ret|].
  cbn [tryAlternativeEndpoints_loop List.length]. turn IH.
Qed.

Lemma sendsAtMost_CreateSession_loop rt endpoints :
  sendsAtMost (List.length endpoints) (CreateSession_loop rt endpoints).
Proof.
  induction endpoints as [|endpoint rest IH]; [apply sendsAtMost_ret|].
  cbn [CreateSession_loop List.length]. turn IH.
Qed.

Lemma sendsAtMost_initializeWithSession rt :
  sendsAtMost 1 (initializeWithSession rt).
Proof.
  unfold initializeWithSession.
  apply sendsAtMost_quiet; [apply sendsAtMost_getClient|intros c].
  unfold NewRequest.
  destruct (url_ok rt (BaseURL c ++ "/initialize")); [|apply sendsAtMost_ret].
  apply sendsAtMost_Do. intros resp.
  straight @sendsAtMost_ret @sendsAtMost_quiet.
Qed.

Lemma sendsAtMost_CreateSession rt : sendsAtMost 5 (CreateSession rt).
Proof.
  unfold CreateSession.
  apply (sendsAtMost_bind 4 1); [apply sendsAtMost_CreateSession_loop|].
  intros [|]; [apply sendsAtMost_ret|apply sendsAtMost_initializeWithSession].
Qed.

Lemma sendsAtMost_sendRequest rt request : sendsAtMost 1 (sendRequest rt request).
Proof.
  unfold sendRequest.
  apply sendsAtMost_quiet; [apply sendsAtMost_getClient|intros c].
  unfold NewRequest.
  destruct (url_ok rt (BaseURL c)); [|apply sendsAtMost_ret].
  apply sendsAtMost_Do. intros resp.
  straight @sendsAtMost_ret @sendsAtMost_quiet.
Qed.

Lemma sendsAtMost_Initialize rt : sendsAtMost 6 (Initialize rt).
Proof.
  unfold Initialize.
  apply (sendsAtMost_bind 5 1); [apply sendsAtMost_CreateSession|intros _].
  apply sendsAtMost_quiet; [apply sendsAtMost_getNextID|intros id].
  apply (sendsAtMost_bind 1 0); [apply sendsAtMost_sendRequest|intros r].
  straight @sendsAtMost_ret @sendsAtMost_quiet.
Qed.

Lemma sendsAtMost_ListTools rt : sendsAtMost 1 (ListTools rt).
Proof.
  unfold ListTools.
  apply sendsAtMost_quiet; [apply sendsAtMost_getNextID|intros id].
  apply (sendsAtMost_bind 1 0); [apply sendsAtMost_sendRequest|intros r].
  straight @sendsAtMost_ret @sendsAtMost_quiet.
Qed.

Lemma sendsAtMost_CallTool rt toolName arguments :
  sendsAtMost 1 (CallTool rt toolName arguments).
Proof.
  unfold CallTool.
  apply sendsAtMost_quiet; [apply sendsAtMost_getNextID|intros id].
  apply (sendsAtMost_bind 1 0); [apply sendsAtMost_sendRequest|intros r].
  straight @sendsAtMost_ret @sendsAtMost_quiet.
Qed.

Lemma sendsAtMost_tryMCPFlow rt prompt model :
  sendsAtMost 8 (tryMCPFlow rt prompt model).
Proof.
  unfold tryMCPFlow.
  apply (sendsAtMost_bind 6 2); [apply sendsAtMost_Initialize|].
  intros [err|]; [apply sendsAtMost_ret|].
  apply (sendsAtMost_bind 1 1); [apply sendsAtMost_ListTools|].
  intros [[|tool tools]|err]; try apply sendsAtMost_ret.
  destruct tool as [| | | | |toolMap]; try apply sendsAtMost_panic.
  destruct (lookup toolMap "name") as [[| | |toolName| |]|];
    try apply sendsAtMost_panic.
  apply (sendsAtMost_bind 1 0); [apply sendsAtMost_CallTool|].
  intros [result|err]; apply sendsAtMost_ret.
Qed.

Lemma sendsAtMost_tryDirectAPI rt prompt model :
  sendsAtMost 6 (tryDirectAPI rt prompt model).
Proof.
  unfold tryDirectAPI.
  apply (sendsAtMost_bind 6 0); [apply sendsAtMost_tryDirectAPI_loop|].
  intros [text|]; apply sendsAtMost_ret.
Qed.

Lemma sendsAtMost_tryAlternativeEndpoints rt prompt model :
  sendsAtMost 3 (tryAlternativeEndpoints rt prompt model).
Proof.
  unfold tryAlternativeEndpoints.
  apply (sendsAtMost_bind 3 0);
    [apply (sendsAtMost_tryAlternativeEndpoints_loop rt
              (alternativeEndpoints prompt model))|].
  intros [body|]; apply sendsAtMost_ret.
Qed.

Lemma sendsAtMost_GatherInformation rt prompt model :
  sendsAtMost 17 (GatherInformation rt prompt model).
Proof.
  unfold GatherInformation.
  apply (sendsAtMost_bind 6 11); [apply sendsAtMost_tryDirectAPI|].
  intros [text|e]; [apply sendsAtMost_ret|].
  apply (sendsAtMost_bind 8 3); [apply sendsAtMost_tryMCPFlow|].
  intros [text|e']; [apply sendsAtMost_ret|].
  apply sendsAtMost_tryAlternativeEndpoints.
Qed.

(** X5: one call of [GatherInformation] calls [c.Client.Do] at most 17
    times (6 direct-API probes, 5 for the session, 3 JSON-RPC calls, 3 GET
    probes), whatever each call returns, and there is a gateway that makes
    it call [c.Client.Do] all 17 times.  The count is of the requests the
    code hands to [c.Client.Do], which is what the log records: the
    client has no [CheckRedirect], so net/http may follow up to ten
    redirects inside one such call, and those are not counted here. *)
Theorem GatherInformation_request_bound :
  (forall rt prompt model, sendsAtMost 17 (GatherInformation rt prompt model))
  /\ (forall rt prompt model,
         sendsAtMost 6 (tryDirectAPI rt prompt model)
         /\ sendsAtMost 8 (tryMCPFlow rt prompt model)
         /\ sendsAtMost 3 (tryAlternativeEndpoints rt prompt model))
  /\ List.length
       (logOf (GatherInformation Scenario.brokenCall "p" "m"
                 (NewMCPClient Scenario.base) []))
     = 17%nat.
Proof.
  split; [exact sendsAtMost_GatherInformation|]. split; [|reflexivity].
  intros. auto using sendsAtMost_tryDirectAPI, sendsAtMost_tryMCPFlow,
    sendsAtMost_tryAlternativeEndpoints.
Qed.

(* ================================================================== *)
(** ** The requests of the two probes *)
(* ================================================================== *)

Lemma tried_skip rt c k endpoint rest :
  url_ok rt (BaseURL c ++ endpoint) = false ->
  tried rt c (S k) (endpoint :: rest) = tried rt c k rest.
Proof. intros Hurl. unfold tried. simpl. rewrite Hurl. reflexivity. Qed.

Lemma tried_keep rt c k endpoint rest :
  url_ok rt (BaseURL c ++ endpoint) = true ->
  tried rt c (S k) (endpoint :: rest) = endpoint :: tried rt c k rest.
Proof. intros Hurl. unfold tried. simpl. rewrite Hurl. reflexivity. Qed.


Lemma tryAlternativeEndpoints_loop_log rt endpoints :
  forall c log,
    exists k r,
      (k <= List.length endpoints)%nat
      /\ tryAlternativeEndpoints_loop rt endpoints c log
         = Done r c (log ++ map (getRequest c) (tried rt c k endpoints))
      /\ (r = None -> k = List.length endpoints).
Proof.
  induction endpoints as [|endpoint rest IH]; intros c log.
  - exists 0%nat, None. simpl. rewrite app_nil_r. auto.
  - cbn [tryAlternativeEndpoints_loop]. rewrite bind_getClient.
    unfold NewRequest.
    destruct (url_ok rt (BaseURL c ++ endpoint)) eqn:Hurl.
    + unfold bind at 1. unfold Do at 1.
      replace (if String.eqb (sessionID c) "" then _ else _)
        with (getRequest c endpoint)
        by (unfold getRequest; destruct (String.eqb (sessionID c) "");
            reflexivity).
      destruct (client_do rt log _) as [resp|].
      * destruct (StatusCode resp =? 200).
        -- exists 1%nat, (Some (RespBody resp)).
           rewrite tried_keep by exact Hurl. simpl.
           split; [lia|]. split; [reflexivity|discriminate].
        -- destruct (IH c (log ++ [getRequest c endpoint])%list)
             as [k [r [Hk [Hrun Hall]]]].
           exists (S k), r. rewrite tried_keep by exact Hurl.
           rewrite Hrun, <- app_assoc. simpl.
           split; [lia|]. split; [reflexivity|]. intros Hr. rewrite Hall; auto.
      * destruct (IH c (log ++ [getRequest c endpoint])%list)
          as [k [r [Hk [Hrun Hall]]]].
        exists (S k), r. rewrite tried_keep by exact Hurl.
        rewrite Hrun, <- app_assoc. simpl.
        split; [lia|]. split; [reflexivity|]. intros Hr. rewrite Hall; auto.
    + destruct (IH c log) as [k [r [Hk [Hrun Hall]]]].
      exists (S k), r. rewrite tried_skip by exact Hurl. simpl.
      split; [lia|]. split; [exact Hrun|]. intros Hr. rewrite Hall; auto.
Qed.

(** The GET loop over a list split in two. *)
Lemma tryAlternativeEndpoints_loop_app rt pre post :
  forall c log,
    tryAlternativeEndpoints_loop rt (pre ++ post) c log
    = match tryAlternativeEndpoints_loop rt pre c log with
      | Done None c' log' => tryAlternativeEndpoints_loop rt post c' log'
      | r => r
      end.
Proof.
  induction pre as [|endpoint rest IH]; intros c log; [reflexivity|].
  cbn [app tryAlternativeEndpoints_loop]. run.
  destruct (url_ok rt (BaseURL c ++ endpoint)); [|apply IH].
  destruct (client_do rt log _) as [resp|]; [|apply IH].
  destruct (StatusCode resp =? 200); [reflexivity|apply IH].
Qed.

(** X8: when the GET paths before [endpoint] have failed and [endpoint]
    answers 200, the GET probe returns the body of that answer byte for
    byte: unlike the direct-API probe it does not look for a text field,
    even in a JSON body, and an empty body is returned as the answer. *)
Theorem tryAlternativeEndpoints_raw_body
  (rt : Runtime) (prompt model : string) (c c' : MCPClient)
  (log log' : list Request) (pre post : list string) (endpoint : string)
  (resp : Response) :
  alternativeEndpoints prompt model = (pre ++ endpoint :: post)%list ->
  tryAlternativeEndpoints_loop rt pre c log = Done None c' log' ->
  url_ok rt (BaseURL c' ++ endpoint) = true ->
  client_do rt log' (getRequest c' endpoint) = Some resp ->
  StatusCode resp = 200 ->
  tryAlternativeEndpoints rt prompt model c log
  = Done (Ok (RespBody resp)) c' (log' ++ [getRequest c' endpoint]).
Proof.
  intros Hsplit Hpre Hurl Hdo Hstatus.
  unfold tryAlternativeEndpoints. rewrite Hsplit. unfold bind at 1.
  rewrite tryAlternativeEndpoints_loop_app, Hpre.
  cbn [tryAlternativeEndpoints_loop]. rewrite bind_getClient.
  unfold NewRequest. rewrite Hurl. unfold bind at 1. unfold Do at 1.
  replace (if String.eqb (sessionID c') "" then _ else _)
    with (getRequest c' endpoint)
    by (unfold getRequest; destruct (String.eqb (sessionID c') "");
        reflexivity).
  rewrite Hdo, Hstatus. reflexivity.
Qed.

Lemma tryAlternativeEndpoints_raw_body_witness :
  tryAlternativeEndpoints Scenario.getOnly "p" "m" (NewMCPClient Scenario.base) []
  = Done (Ok Scenario.twoFields) (NewMCPClient Scenario.base)
         [getRequest (NewMCPClient Scenario.base) "/?model=m&prompt=p&q=p";
          getRequest (NewMCPClient Scenario.base) "/api?model=m&prompt=p&q=p"].
Proof.
  apply (tryAlternativeEndpoints_raw_body Scenario.getOnly "p" "m"
           (NewMCPClient Scenario.base) (NewMCPClient Scenario.base) []
           [getRequest (NewMCPClient Scenario.base) "/?model=m&prompt=p&q=p"]
           ["/?model=m&prompt=p&q=p"] ["/query?model=m&prompt=p&q=p"]
           "/api?model=m&prompt=p&q=p"
           (Scenario.response 200 Scenario.twoFields)); reflexivity.
Defined.

(* ================================================================== *)
(** ** The requests of the session negotiation *)
(* ================================================================== *)

Lemma CreateSession_loop_log rt endpoints :
  forall c log,
    exists k r c',
      (k <= List.length endpoints)%nat
      /\ CreateSession_loop rt endpoints c log
         = Done r c' (log ++ map (sessionRequest c) (tried rt c k endpoints))
      /\ (r = false -> k = List.length endpoints /\ c' = c)
      /\ (r = true -> exists token, c' = withSession c token).
Proof.
  induction endpoints as [|endpoint rest IH]; intros c log.
  - exists 0%nat, false, c. simpl. rewrite app_nil_r.
    repeat split; auto. discriminate.
  - cbn [CreateSession_loop]. rewrite bind_getClient. unfold NewRequest.
    destruct (url_ok rt (BaseURL c ++ endpoint)) eqn:Hurl.
    + unfold bind at 1. unfold Do at 1.
      change (jsonHeaders _) with (sessionRequest c endpoint).
      assert (Hnext :
        exists k r c',
          (k <= List.length (endpoint :: rest))%nat
          /\ CreateSession_loop rt rest c
               (log ++ [sessionRequest c endpoint])%list
             = Done r c' (log ++ map (sessionRequest c)
                                   (tried rt c k (endpoint :: rest)))%list
          /\ (r = false -> k = List.length (endpoint :: rest) /\ c' = c)
          /\ (r = true -> exists token, c' = withSession c token)).
      { destruct (IH c (log ++ [sessionRequest c endpoint])%list)
          as [k [r [c' [Hk [Hrun [Hfalse Htrue]]]]]].
        exists (S k), r, c'. rewrite tried_keep by exact Hurl.
        rewrite Hrun, <- app_assoc. simpl.
        split; [lia|]. split; [reflexivity|]. split; [|exact Htrue].
        intros Hr. destruct (Hfalse Hr) as [-> ->]. auto. }
      destruct (client_do rt log _) as [resp|]; [|exact Hnext].
      destruct ((StatusCode resp =? 200) || (StatusCode resp =? 201))%bool;
        [|exact Hnext].
      destruct (sessionToken rt resp) as [token|]; [|exact Hnext].
      exists 1%nat, true, (withSession c token).
      rewrite tried_keep by exact Hurl. simpl.
      split; [lia|]. split; [reflexivity|]. split; [discriminate|].
      intros _. exists token. reflexivity.
    + destruct (IH c log) as [k [r [c' [Hk [Hrun [Hfalse Htrue]]]]]].
      exists (S k), r, c'. rewrite tried_skip by exact Hurl. simpl.
      split; [lia|]. split; [exact Hrun|]. split; [|exact Htrue].
      intros Hr. destruct (Hfalse Hr) as [-> ->]. auto.
Qed.

Lemma initializeWithSession_log rt c log :
  exists r c' sent,
    initializeWithSession rt c log = Done r c' (log ++ sent)
    /\ (sent = [] \/ sent = [initializeRequest c])
    /\ ((r = None /\ exists token, c' = withSession c token)
        \/ (exists e, r = Some e) /\ c' = c).
Proof.
  unfold initializeWithSession. rewrite bind_getClient. unfold NewRequest.
  destruct (url_ok rt (BaseURL c ++ "/initialize")).
  - unfold bind at 1. unfold Do at 1.
    change (jsonHeaders _) with (initializeRequest c).
    destruct (client_do rt log _) as [resp|].
    + destruct (headerOrCookie resp) as [token|].
      * exists None, (withSession c token), [initializeRequest c].
        split; [reflexivity|]. split; [auto|]. left. eauto.
      * eexists _, c, [initializeRequest c].
        split; [reflexivity|]. split; [auto|]. right. eauto.
    + eexists _, c, [initializeRequest c].
      split; [reflexivity|]. split; [auto|]. right. eauto.
  - eexists _, c, []. rewrite app_nil_r.
    split; [reflexivity|]. split; [auto|]. right. eauto.
Qed.

Lemma CreateSession_log (rt : Runtime) (c : MCPClient) (log : list Request) :
  exists k last r c',
    (k <= 4)%nat
    /\ CreateSession rt c log
       = Done r c' (log ++ map (sessionRequest c) (tried rt c k sessionEndpoints)
                        ++ last)
    /\ (last = [] \/ (k = 4%nat /\ last = [initializeRequest c]))
    /\ ((r = None /\ exists token, c' = withSession c token)
        \/ (exists e, r = Some e) /\ c' = c /\ k = 4%nat).
Proof.
  destruct (CreateSession_loop_log rt sessionEndpoints c log)
    as [k [r [c' [Hk [Hrun [Hfalse Htrue]]]]]].
  unfold CreateSession, bind. rewrite Hrun. destruct r.
  - exists k, [], None, c'. rewrite app_nil_r.
    split; [exact Hk|]. split; [reflexivity|]. split; [auto|].
    left. auto.
  - destruct (Hfalse eq_refl) as [-> ->].
    destruct (initializeWithSession_log rt c
                (log ++ map (sessionRequest c)
                            (tried rt c (List.length sessionEndpoints)
                               sessionEndpoints))%list)
      as [r [c' [sent [Hinit [Hsent Hres]]]]].
    exists 4%nat, sent, r, c'.
    split; [lia|]. rewrite Hinit, <- app_assoc.
    split; [reflexivity|]. split; [destruct Hsent; auto|].
    destruct Hres as [Hres|[He Hc]]; [left; exact Hres|right; auto].
Qed.

(* ================================================================== *)
(** ** The JSON-RPC calls *)
(* ================================================================== *)

Lemma rpcCalls_app l1 l2 : rpcCalls (l1 ++ l2) = (rpcCalls l1 ++ rpcCalls l2)%list.
Proof. apply flat_map_app. Qed.

Lemma rpcCalls_sessionRequests c endpoints :
  rpcCalls (map (sessionRequest c) endpoints) = [].
Proof. induction endpoints as [|e rest IH]; [reflexivity|exact IH]. Qed.

Lemma rpcCalls_rpcRequest c request :
  rpcCalls [rpcRequest c request] = [(ID request, Method request)].
Proof.
  unfold rpcRequest, sessionHeaders.
  destruct (String.eqb (sessionID c) ""); reflexivity.
Qed.

Lemma sendRequest_run rt request c log :
  exists r sent,
    sendRequest rt request c log = Done r c (log ++ sent)
    /\ ((sent = [] /\ exists e, r = Err e) \/ sent = [rpcRequest c request]).
Proof.
  unfold sendRequest. rewrite bind_getClient. unfold NewRequest.
  destruct (url_ok rt (BaseURL c)).
  - unfold bind at 1. unfold Do at 1.
    change (sessionHeaders c (jsonHeaders _)) with (rpcRequest c request).
    destruct (client_do rt log _) as [resp|];
      [|eexists _, _; split; [reflexivity|right; reflexivity]].
    destruct (ReadError resp);
      [eexists _, _; split; [reflexivity|right; reflexivity]|].
    destruct (negb (StatusCode resp =? 200));
      [eexists _, _; split; [reflexivity|right; reflexivity]|].
    destruct (unmarshal_response rt (RespBody resp));
      eexists _, _; (split; [reflexivity|right; reflexivity]).
  - eexists _, []. rewrite app_nil_r. split; [reflexivity|]. left. eauto.
Qed.

(** X10: [sendRequest] returns a response exactly when the URL parses, the
    gateway answers, the body is read without error, the status is 200
    (201, 204 and the like are errors) and the body decodes as an envelope;
    in every case it sends at most the one request [rpcRequest] and hands
    the client back unchanged. *)
Theorem sendRequest_ok_iff
  (rt : Runtime) (request : MCPRequest) (c : MCPClient) (log : list Request)
  (response : MCPResponse) :
  (returned (sendRequest rt request c log) = Some (Ok response)
   <-> url_ok rt (BaseURL c) = true
       /\ exists resp,
            client_do rt log (rpcRequest c request) = Some resp
            /\ ReadError resp = false
            /\ StatusCode resp = 200
            /\ unmarshal_response rt (RespBody resp) = Some response)
  /\ clientOf (sendRequest rt request c log) = c
  /\ (logOf (sendRequest rt request c log) = log
      \/ logOf (sendRequest rt request c log)
         = (log ++ [rpcRequest c request])%list).
Proof.
  split.
  - unfold sendRequest. rewrite bind_getClient. unfold NewRequest.
    destruct (url_ok rt (BaseURL c));
      [|split; [discriminate|intros [H _]; discriminate H]].
    unfold bind at 1. unfold Do at 1.
    change (sessionHeaders c (jsonHeaders _)) with (rpcRequest c request).
    destruct (client_do rt log _) as [resp|];
      [|split; [discriminate|intros [_ [resp [H _]]]; discriminate H]].
    destruct (ReadError resp) eqn:Hread.
    { split; [discriminate|].
      intros [_ [resp' [H [Hr _]]]]. injection H as <-. congruence. }
    destruct (StatusCode resp =? 200) eqn:Hstatus; cbn [negb].
    + apply Z.eqb_eq in Hstatus.
      destruct (unmarshal_response rt (RespBody resp)) as [mcp|] eqn:Hbody.
      * split.
        -- intros H. injection H as <-. split; [reflexivity|].
           exists resp. auto.
        -- intros [_ [resp' [H [_ [_ Hb]]]]]. injection H as <-.
           simpl. congruence.
      * split; [discriminate|].
        intros [_ [resp' [H [_ [_ Hb]]]]]. injection H as <-. congruence.
    + apply Z.eqb_neq in Hstatus. split; [discriminate|].
      intros [_ [resp' [H [_ [Hs _]]]]]. injection H as <-. contradiction.
  - destruct (sendRequest_run rt request c log) as [r [sent [-> Hsent]]].
    split; [reflexivity|]. simpl.
    destruct Hsent as [[-> _]| ->]; [left; apply app_nil_r|right; reflexivity].
Qed.

Lemma sendRequest_ok_iff_witness :
  exists response,
    returned (sendRequest
                (Scenario.toolServer Scenario.weatherTool "")
                {| JSONRPC := "2.0"; ID := 7; Method := "tools/list";
                   Params := JObj [] |}
                (NewMCPClient Scenario.base) [])
    = Some (Ok response).
Proof.
  eexists.
  apply (proj1 (sendRequest_ok_iff
                  (Scenario.toolServer Scenario.weatherTool "")
                  {| JSONRPC := "2.0"; ID := 7; Method := "tools/list";
                     Params := JObj [] |}
                  (NewMCPClient Scenario.base) [] _)).
  split; [reflexivity|].
  exists (Scenario.response 200 Scenario.weatherTool).
  repeat split; reflexivity.
Defined.

Lemma ListTools_run rt c log :
  exists r sent,
    ListTools rt c log = Done r (afterCalls 1 c) (log ++ sent)
    /\ ((sent = [] /\ exists e, r = Err e)
        \/ exists request,
             sent = [rpcRequest c request]
             /\ ID request = nextID c /\ Method request = "tools/list").
Proof.
  unfold ListTools. unfold bind at 1. unfold getNextID at 1.
  unfold bind at 1.
  match goal with |- context [sendRequest rt ?request ?c' log] =>
    destruct (sendRequest_run rt request c' log) as [r [sent [-> Hsent]]]
  end.
  change {| BaseURL := BaseURL c; nextID := wrap (nextID c + 1);
            sessionID := sessionID c |} with (afterCalls 1 c).
  assert (Hcalls :
    (sent = [] /\ exists e, r = Err e)
    \/ exists request,
         sent = [rpcRequest c request]
         /\ ID request = nextID c /\ Method request = "tools/list").
  { destruct Hsent as [[-> He]| ->]; [left; auto|right].
    eexists. split; [reflexivity|]. split; reflexivity. }
  destruct r as [response|err]; [|eexists _, _; split; [reflexivity|]].
  - assert (Hlater :
      exists request,
        sent = [rpcRequest c request]
        /\ ID request = nextID c /\ Method request = "tools/list").
    { destruct Hcalls as [[_ [e He]]|H]; [discriminate He|exact H]. }
    destruct (Error response); [eexists _, _; split; [reflexivity|auto]|].
    destruct (Result response) as [| | | | |result];
      try (eexists _, _; split; [reflexivity|auto]).
    destruct (lookup result "tools") as [[| | | | |]|];
      eexists _, _; (split; [reflexivity|auto]).
  - destruct Hcalls as [[H _]|H]; [left; eauto|right; exact H].
Qed.

Lemma CallTool_run rt toolName arguments c log :
  exists r sent,
    CallTool rt toolName arguments c log = Done r (afterCalls 1 c) (log ++ sent)
    /\ ((sent = [] /\ exists e, r = Err e)
        \/ exists request,
             sent = [rpcRequest c request]
             /\ ID request = nextID c /\ Method request = "tools/call").
Proof.
  unfold CallTool. unfold bind at 1. unfold getNextID at 1.
  unfold bind at 1.
  match goal with |- context [sendRequest rt ?request ?c' log] =>
    destruct (sendRequest_run rt request c' log) as [r [sent [-> Hsent]]]
  end.
  change {| BaseURL := BaseURL c; nextID := wrap (nextID c + 1);
            sessionID := sessionID c |} with (afterCalls 1 c).
  assert (Hcalls :
    (sent = [] /\ exists e, r = Err e)
    \/ exists request,
         sent = [rpcRequest c request]
         /\ ID request = nextID c /\ Method request = "tools/call").
  { destruct Hsent as [[-> He]| ->]; [left; auto|right].
    eexists. split; [reflexivity|]. split; reflexivity. }
  destruct r as [response|err]; [|eexists _, _; split; [reflexivity|]].
  - assert (Hlater :
      exists request,
        sent = [rpcRequest c request]
        /\ ID request = nextID c /\ Method request = "tools/call").
    { destruct Hcalls as [[_ [e He]]|H]; [discriminate He|exact H]. }
    destruct (Error response); eexists _, _; (split; [reflexivity|auto]).
  - destruct Hcalls as [[H _]|H]; [left; eauto|right; exact H].
Qed.

(** [Initialize] once the session negotiation has run. *)
Lemma Initialize_after_session rt c log r0 c0 log0 :
  CreateSession rt c log = Done r0 c0 log0 ->
  exists r sent,
    Initialize rt c log = Done r (afterCalls 1 c0) (log0 ++ sent)
    /\ ((sent = [] /\ exists e, r = Some e)
        \/ exists request,
             sent = [rpcRequest c0 request]
             /\ ID request = nextID c0 /\ Method request = "initialize").
Proof.
  intros Hsession. unfold Initialize. unfold bind at 1. rewrite Hsession.
  unfold bind at 1. unfold getNextID at 1. unfold bind at 1.
  match goal with |- context [sendRequest rt ?request ?c' log0] =>
    destruct (sendRequest_run rt request c' log0) as [r [sent [-> Hsent]]]
  end.
  change {| BaseURL := BaseURL c0; nextID := wrap (nextID c0 + 1);
            sessionID := sessionID c0 |} with (afterCalls 1 c0).
  assert (Hcalls :
    (sent = [] /\ exists e, r = Err e)
    \/ exists request,
         sent = [rpcRequest c0 request]
         /\ ID request = nextID c0 /\ Method request = "initialize").
  { destruct Hsent as [[-> He]| ->]; [left; auto|right].
    eexists. split; [reflexivity|]. split; reflexivity. }
  destruct r as [response|err].
  - assert (Hlater :
      exists request,
        sent = [rpcRequest c0 request]
        /\ ID request = nextID c0 /\ Method request = "initialize").
    { destruct Hcalls as [[_ [e He]]|H]; [discriminate He|exact H]. }
    destruct (Error response); eexists _, _; (split; [reflexivity|auto]).
  - eexists _, _. split; [reflexivity|].
    destruct Hcalls as [[H _]|H]; [left; eauto|right; exact H].
Qed.

Lemma Initialize_run rt c log :
  exists r c1 sent,
    Initialize rt c log = Done r c1 (log ++ sent)
    /\ nextID c1 = wrap (nextID c + 1)
    /\ BaseURL c1 = BaseURL c
    /\ ((rpcCalls sent = [] /\ exists e, r = Some e)
        \/ rpcCalls sent = [(nextID c, "initialize")]).
Proof.
  destruct (CreateSession_log rt c log)
    as [k [last [r0 [c0 [Hk [Hsession [Hlast Hres]]]]]]].
  assert (Hc0 : nextID c0 = nextID c /\ BaseURL c0 = BaseURL c).
  { destruct Hres as [[_ [token ->]]|[_ [-> _]]]; split; reflexivity. }
  destruct Hc0 as [Hid Hbase].
  assert (Hquiet :
    rpcCalls (map (sessionRequest c) (tried rt c k sessionEndpoints) ++ last)
    = []).
  { rewrite rpcCalls_app, rpcCalls_sessionRequests.
    destruct Hlast as [->|[_ ->]]; reflexivity. }
  destruct (Initialize_after_session rt c log r0 c0 _ Hsession)
    as [r [sent [-> Hsent]]].
  exists r, (afterCalls 1 c0),
    ((map (sessionRequest c) (tried rt c k sessionEndpoints) ++ last) ++ sent)%list.
  rewrite <- !app_assoc.
  split; [reflexivity|]. cbn [afterCalls nextID BaseURL].
  change (Z.of_nat 1) with 1. rewrite Hid.
  split; [reflexivity|]. split; [exact Hbase|].
  rewrite app_assoc, rpcCalls_app, Hquiet.
  destruct Hsent as [[-> He]|[request [-> [Hr Hm]]]]; [left; auto|right].
  rewrite rpcCalls_rpcRequest, Hr, Hm, Hid. reflexivity.
Qed.

(** X11: each of [ListTools] and [CallTool] consumes exactly one request
    id and changes nothing else of the client, and [Initialize] advances
    the counter by one as well, whether or not the request could be built,
    was answered, or succeeded: a failed call still uses up its id. *)
Theorem rpc_call_consumes_one_id
  (rt : Runtime) (c : MCPClient) (log : list Request)
  (toolName : string) (arguments : JSON) :
  clientOf (ListTools rt c log) = afterCalls 1 c
  /\ clientOf (CallTool rt toolName arguments c log) = afterCalls 1 c
  /\ nextID (clientOf (Initialize rt c log)) = wrap (nextID c + 1).
Proof.
  destruct (ListTools_run rt c log) as [r1 [s1 [-> _]]].
  destruct (CallTool_run rt toolName arguments c log) as [r2 [s2 [-> _]]].
  destruct (Initialize_run rt c log) as [r3 [c3 [s3 [-> [Hid _]]]]].
  auto.
Qed.

(** X12: the JSON-RPC calls of one protocol flow are a prefix of
    initialize, tools/list, tools/call, in that order and with consecutive
    ids starting at the client's counter (Go's wrap-around apart); all
    three are sent when the flow returns a text. *)
Theorem tryMCPFlow_rpc_sequence
  (rt : Runtime) (prompt model : string) (c : MCPClient) (log : list Request) :
  exists sent k,
    logOf (tryMCPFlow rt prompt model c log) = (log ++ sent)%list
    /\ rpcCalls sent
       = firstn k [(nextID c, "initialize");
                   (wrap (nextID c + 1), "tools/list");
                   (wrap (wrap (nextID c + 1) + 1), "tools/call")]
    /\ (forall text,
           returned (tryMCPFlow rt prompt model c log) = Some (Ok text) ->
           k = 3%nat).
Proof.
  unfold tryMCPFlow, bind, panic, ret.
  destruct (Initialize_run rt c log)
    as [r1 [c1 [s1 [-> [Hid1 [_ Hcalls1]]]]]].
  destruct r1 as [err|].
  { destruct Hcalls1 as [[H _]|H].
    - exists s1, 0%nat. simpl. split; [reflexivity|]. split; [exact H|].
      intros text Ht. discriminate Ht.
    - exists s1, 1%nat. simpl. split; [reflexivity|]. split; [exact H|].
      intros text Ht. discriminate Ht. }
  assert (H1 : rpcCalls s1 = [(nextID c, "initialize")]).
  { destruct Hcalls1 as [[_ [e He]]|H]; [discriminate He|exact H]. }
  destruct (ListTools_run rt c1 (log ++ s1)%list) as [r2 [s2 [-> Hsent2]]].
  assert (Hcalls2 :
    (rpcCalls s2 = [] /\ exists e, r2 = Err e)
    \/ rpcCalls s2 = [(wrap (nextID c + 1), "tools/list")]).
  { destruct Hsent2 as [[-> He]|[request [-> [Hr Hm]]]]; [left; auto|right].
    rewrite rpcCalls_rpcRequest, Hr, Hm, Hid1. reflexivity. }
  assert (Hstop :
    forall (final : Run (result string)),
      logOf final = ((log ++ s1) ++ s2)%list ->
      (forall text, returned final <> Some (Ok text)) ->
      exists sent k,
        logOf final = (log ++ sent)%list
        /\ rpcCalls sent
           = firstn k [(nextID c, "initialize");
                       (wrap (nextID c + 1), "tools/list");
                       (wrap (wrap (nextID c + 1) + 1), "tools/call")]
        /\ (forall text, returned final = Some (Ok text) -> k = 3%nat)).
  { intros final Hlog Hno.
    destruct Hcalls2 as [[H2 _]|H2].
    - exists (s1 ++ s2)%list, 1%nat. rewrite Hlog, app_assoc.
      split; [reflexivity|]. rewrite rpcCalls_app, H1, H2.
      split; [reflexivity|]. intros text Ht. destruct (Hno text Ht).
    - exists (s1 ++ s2)%list, 2%nat. rewrite Hlog, app_assoc.
      split; [reflexivity|]. rewrite rpcCalls_app, H1, H2.
      split; [reflexivity|]. intros text Ht. destruct (Hno text Ht). }
  destruct r2 as [[|tool tools]|err];
    try (apply Hstop; [reflexivity|intros ?; discriminate]).
  assert (H2 : rpcCalls s2 = [(wrap (nextID c + 1), "tools/list")]).
  { destruct Hcalls2 as [[_ [e He]]|H]; [discriminate He|exact H]. }
  destruct tool as [| | | | |toolMap];
    try (apply Hstop; [reflexivity|intros ?; discriminate]).
  destruct (lookup toolMap "name") as [[| | |toolName| |]|];
    try (apply Hstop; [reflexivity|intros ?; discriminate]).
  destruct (CallTool_run rt toolName
              (JObj [("prompt", JStr prompt); ("model", JStr model)])
              (afterCalls 1 c1) ((log ++ s1) ++ s2)%list)
    as [r3 [s3 [-> Hsent3]]].
  assert (Hcalls3 :
    (rpcCalls s3 = [] /\ exists e, r3 = Err e)
    \/ rpcCalls s3 = [(wrap (wrap (nextID c + 1) + 1), "tools/call")]).
  { destruct Hsent3 as [[-> He]|[request [-> [Hr Hm]]]]; [left; auto|right].
    rewrite rpcCalls_rpcRequest, Hr, Hm. cbn [afterCalls nextID].
    rewrite Hid1. reflexivity. }
  destruct r3 as [result|err].
  - assert (H3 : rpcCalls s3 = [(wrap (wrap (nextID c + 1) + 1), "tools/call")]).
    { destruct Hcalls3 as [[_ [e He]]|H]; [discriminate He|exact H]. }
    exists (s1 ++ s2 ++ s3)%list, 3%nat. simpl logOf.
    rewrite <- !app_assoc. split; [reflexivity|].
    rewrite !rpcCalls_app, H1, H2, H3. split; [reflexivity|auto].
  - destruct Hcalls3 as [[H3 _]|H3].
    + exists (s1 ++ s2 ++ s3)%list, 2%nat. simpl logOf.
      rewrite <- !app_assoc. split; [reflexivity|].
      rewrite !rpcCalls_app, H1, H2, H3.
      split; [reflexivity|intros text Ht; discriminate Ht].
    + exists (s1 ++ s2 ++ s3)%list, 3%nat. simpl logOf.
      rewrite <- !app_assoc. split; [reflexivity|].
      rewrite !rpcCalls_app, H1, H2, H3. split; [reflexivity|auto].
Qed.

Lemma rpcRequest_header c request :
  ReqHeader (rpcRequest c request) = postHeaders (sessionID c).
Proof.
  unfold rpcRequest, sessionHeaders, postHeaders.
  destruct (String.eqb (sessionID c) ""); reflexivity.
Qed.

Lemma tryMCPFlow_after_session
  (rt : Runtime) (prompt model : string) (c c0 : MCPClient)
  (log log0 : list Request) (r0 : option error) :
  CreateSession rt c log = Done r0 c0 log0 ->
  exists sent,
    logOf (tryMCPFlow rt prompt model c log) = (log0 ++ sent)%list
    /\ (List.length sent <= 3)%nat
    /\ Forall (fun req => ReqMethod req = "POST"
                          /\ URL req = BaseURL c0
                          /\ ReqHeader req = postHeaders (sessionID c0)) sent.
Proof.
  intros Hsession. unfold tryMCPFlow, bind, panic, ret.
  destruct (Initialize_after_session rt c log r0 c0 log0 Hsession)
    as [r1 [s1 [-> Hsent1]]].
  assert (Hshape : forall c' request,
             BaseURL c' = BaseURL c0 -> sessionID c' = sessionID c0 ->
             ReqMethod (rpcRequest c' request) = "POST"
             /\ URL (rpcRequest c' request) = BaseURL c0
             /\ ReqHeader (rpcRequest c' request) = postHeaders (sessionID c0)).
  { intros c' request Hb Hs. rewrite rpcRequest_header, Hs, <- Hb.
    unfold rpcRequest. destruct (sessionHeaders_method c'
      {| ReqMethod := "POST"; URL := BaseURL c';
         ReqHeader := [("Content-Type", "application/json");
                       ("Accept", "application/json")];
         ReqBody := RPCBody request |}) as [-> ->]. auto. }
  assert (H1 : (List.length s1 <= 1)%nat
               /\ Forall (fun req => ReqMethod req = "POST"
                                     /\ URL req = BaseURL c0
                                     /\ ReqHeader req = postHeaders (sessionID c0))
                         s1).
  { destruct Hsent1 as [[-> _]|[request [-> _]]]; simpl; split; try lia;
      repeat constructor; apply Hshape; reflexivity. }
  destruct H1 as [Hlen1 Hall1].
  assert (Hstop1 : exists sent,
             (log0 ++ s1 = log0 ++ sent)%list
             /\ (List.length sent <= 3)%nat
             /\ Forall (fun req => ReqMethod req = "POST"
                                   /\ URL req = BaseURL c0
                                   /\ ReqHeader req = postHeaders (sessionID c0))
                       sent).
  { exists s1. split; [reflexivity|]. split; [lia|exact Hall1]. }
  destruct r1 as [err|]; [exact Hstop1|].
  destruct (ListTools_run rt (afterCalls 1 c0) (log0 ++ s1)%list)
    as [r2 [s2 [-> Hsent2]]].
  assert (H2 : (List.length s2 <= 1)%nat
               /\ Forall (fun req => ReqMethod req = "POST"
                                     /\ URL req = BaseURL c0
                                     /\ ReqHeader req = postHeaders (sessionID c0))
                         s2).
  { destruct Hsent2 as [[-> _]|[request [-> _]]]; simpl; split; try lia;
      repeat constructor; apply Hshape; reflexivity. }
  destruct H2 as [Hlen2 Hall2].
  assert (Hstop2 : exists sent,
             ((log0 ++ s1) ++ s2 = log0 ++ sent)%list
             /\ (List.length sent <= 3)%nat
             /\ Forall (fun req => ReqMethod req = "POST"
                                   /\ URL req = BaseURL c0
                                   /\ ReqHeader req = postHeaders (sessionID c0))
                       sent).
  { exists (s1 ++ s2)%list. rewrite app_assoc, length_app.
    split; [reflexivity|]. split; [lia|].
    apply Forall_app. auto. }
  destruct r2 as [[|tool tools]|err]; try exact Hstop2.
  destruct tool as [| | | | |toolMap]; try exact Hstop2.
  destruct (lookup toolMap "name") as [[| | |toolName| |]|]; try exact Hstop2.
  destruct (CallTool_run rt toolName
              (JObj [("prompt", JStr prompt); ("model", JStr model)])
              (afterCalls 1 (afterCalls 1 c0)) ((log0 ++ s1) ++ s2)%list)
    as [r3 [s3 [-> Hsent3]]].
  assert (H3 : (List.length s3 <= 1)%nat
               /\ Forall (fun req => ReqMethod req = "POST"
                                     /\ URL req = BaseURL c0
                                     /\ ReqHeader req = postHeaders (sessionID c0))
                         s3).
  { destruct Hsent3 as [[-> _]|[request [-> _]]]; simpl; split; try lia;
      repeat constructor; apply Hshape; reflexivity. }
  destruct H3 as [Hlen3 Hall3].
  assert (Hstop3 : exists sent,
             (((log0 ++ s1) ++ s2) ++ s3 = log0 ++ sent)%list
             /\ (List.length sent <= 3)%nat
             /\ Forall (fun req => ReqMethod req = "POST"
                                   /\ URL req = BaseURL c0
                                   /\ ReqHeader req = postHeaders (sessionID c0))
                       sent).
  { exists (s1 ++ s2 ++ s3)%list. rewrite !app_assoc, !length_app.
    split; [reflexivity|]. split; [lia|].
    rewrite <- app_assoc. repeat (apply Forall_app; split); auto. }
  destruct r3 as [result|err]; exact Hstop3.
Qed.

Lemma tryMCPFlow_client rt prompt model c c0 log log0 r0 :
  CreateSession rt c log = Done r0 c0 log0 ->
  sessionID (clientOf (tryMCPFlow rt prompt model c log)) = sessionID c0
  /\ BaseURL (clientOf (tryMCPFlow rt prompt model c log)) = BaseURL c0.
Proof.
  intros Hsession. unfold tryMCPFlow, bind, panic, ret.
  destruct (Initialize_after_session rt c log r0 c0 log0 Hsession)
    as [r1 [s1 [-> _]]].
  destruct r1 as [err|]; [split; reflexivity|].
  destruct (ListTools_run rt (afterCalls 1 c0) (log0 ++ s1)%list)
    as [r2 [s2 [-> _]]].
  destruct r2 as [[|tool tools]|err]; try (split; reflexivity).
  destruct tool as [| | | | |toolMap]; try (split; reflexivity).
  destruct (lookup toolMap "name") as [[| | |toolName| |]|];
    try (split; reflexivity).
  destruct (CallTool_run rt toolName
              (JObj [("prompt", JStr prompt); ("model", JStr model)])
              (afterCalls 1 (afterCalls 1 c0)) ((log0 ++ s1) ++ s2)%list)
    as [r3 [s3 [-> _]]].
  destruct r3; split; reflexivity.
Qed.

(** X13: whatever the session negotiation returned, every JSON-RPC request
    of the protocol flow that follows it carries Content-Type and Accept
    and, when the client then holds a non-empty token, that token under
    both X-Session-ID and Session-ID; with an empty token no session header
    is sent at all. *)
Theorem tryMCPFlow_requests_carry_token
  (rt : Runtime) (prompt model : string) (c c0 : MCPClient)
  (log log0 : list Request) (r0 : option error) :
  CreateSession rt c log = Done r0 c0 log0 ->
  (exists sent,
      logOf (tryMCPFlow rt prompt model c log) = (log0 ++ sent)%list
      /\ (List.length sent <= 3)%nat
      /\ Forall (fun req => ReqMethod req = "POST"
                            /\ URL req = BaseURL c0
                            /\ ReqHeader req = postHeaders (sessionID c0)) sent)
  /\ sessionID (clientOf (tryMCPFlow rt prompt model c log)) = sessionID c0
  /\ postHeaders ""
     = [("Content-Type", "application/json"); ("Accept", "application/json")]
  /\ (sessionID c0 <> "" ->
      postHeaders (sessionID c0)
      = [("Content-Type", "application/json"); ("Accept", "application/json");
         ("X-Session-ID", sessionID c0); ("Session-ID", sessionID c0)]).
Proof.
  intros Hsession.
  split; [exact (tryMCPFlow_after_session rt prompt model c c0 log log0 r0
                   Hsession)|].
  split; [exact (proj1 (tryMCPFlow_client rt prompt model c c0 log log0 r0
                          Hsession))|].
  split; [reflexivity|].
  intros Htoken. unfold postHeaders. apply String.eqb_neq in Htoken.
  rewrite Htoken. reflexivity.
Qed.

Lemma tryMCPFlow_requests_carry_token_witness :
  exists log0 sent,
    logOf (tryMCPFlow Scenario.sessionAndTools "p" "m"
             (NewMCPClient Scenario.base) [])
    = (log0 ++ sent)%list
    /\ (List.length sent <= 3)%nat
    /\ Forall (fun req => ReqMethod req = "POST"
                          /\ URL req = Scenario.base
                          /\ ReqHeader req = postHeaders "tok") sent.
Proof.
  exists [sessionRequest (NewMCPClient Scenario.base) "/session"].
  apply (proj1 (tryMCPFlow_requests_carry_token Scenario.sessionAndTools "p" "m"
                  (NewMCPClient Scenario.base)
                  (withSession (NewMCPClient Scenario.base) "tok")
                  [] [sessionRequest (NewMCPClient Scenario.base) "/session"]
                  None eq_refl)).
Defined.

(** X14: a failed session negotiation is not fatal to the handshake:
    whatever [CreateSession] returned, [Initialize] returns nil exactly
    when the initialize call that follows is answered by an envelope
    without an error object. *)
Theorem Initialize_ignores_session_failure
  (rt : Runtime) (c c0 : MCPClient) (log log0 : list Request)
  (r0 : option error) :
  CreateSession rt c log = Done r0 c0 log0 ->
  (returned (Initialize rt c log) = Some None
   <-> exists response,
         returned (sendRequest rt (initializeCall (nextID c0))
                     (afterCalls 1 c0) log0)
         = Some (Ok response)
         /\ Error response = None).
Proof.
  intros Hsession. unfold Initialize. unfold bind at 1. rewrite Hsession.
  unfold bind at 1. unfold getNextID at 1. unfold bind at 1.
  change {| BaseURL := BaseURL c0; nextID := wrap (nextID c0 + 1);
            sessionID := sessionID c0 |} with (afterCalls 1 c0).
  change {| JSONRPC := "2.0"; ID := nextID c0; Method := "initialize";
            Params := initParams |} with (initializeCall (nextID c0)).
  destruct (sendRequest rt (initializeCall (nextID c0)) (afterCalls 1 c0) log0)
    as [[response|err] c1 log1|msg c1 log1]; simpl.
  - destruct (Error response) as [e|] eqn:He; simpl.
    + split; [discriminate|]. intros [response' [H He']].
      injection H as <-. congruence.
    + split; [eauto|reflexivity].
  - split; [discriminate|]. intros [response [H _]]. discriminate H.
  - split; [discriminate|]. intros [response [H _]]. discriminate H.
Qed.

Lemma Initialize_ignores_session_failure_witness :
  let rt := Scenario.toolServer Scenario.weatherTool "" in
  let session := CreateSession rt (NewMCPClient Scenario.base) [] in
  returned session = Some (Some (Errorf "could not establish session"))
  /\ returned (Initialize rt (NewMCPClient Scenario.base) []) = Some None.
Proof.
  cbv zeta. split; [reflexivity|].
  pose (rt := Scenario.toolServer Scenario.weatherTool "").
  pose (session := CreateSession rt (NewMCPClient Scenario.base) []).
  apply (proj2 (Initialize_ignores_session_failure rt
                  (NewMCPClient Scenario.base) (clientOf session)
                  [] (logOf session)
                  (Some (Errorf "could not establish session"))
                  ltac:(vm_compute; reflexivity))).
  exists (Scenario.rpc (JObj [])). split; vm_compute; reflexivity.
Defined.

(** X15: [ListTools] returns a tool list exactly when its call is answered
    by an envelope that has no error object and whose result is an object
    holding an array under "tools"; an error object wins over a result,
    and an empty array is returned as an empty list, not as an error. *)
Theorem ListTools_ok_iff
  (rt : Runtime) (c : MCPClient) (log : list Request) (tools : list JSON) :
  returned (ListTools rt c log) = Some (Ok tools)
  <-> exists response result,
        returned (sendRequest rt (listCall (nextID c)) (afterCalls 1 c) log)
        = Some (Ok response)
        /\ Error response = None
        /\ Result response = JObj result
        /\ lookup result "tools" = Some (JArr tools).
Proof.
  unfold ListTools. unfold bind at 1. unfold getNextID at 1. unfold bind at 1.
  change {| BaseURL := BaseURL c; nextID := wrap (nextID c + 1);
            sessionID := sessionID c |} with (afterCalls 1 c).
  change {| JSONRPC := "2.0"; ID := nextID c; Method := "tools/list";
            Params := JObj [] |} with (listCall (nextID c)).
  destruct (sendRequest rt (listCall (nextID c)) (afterCalls 1 c) log)
    as [[response|err] c1 log1|msg c1 log1]; simpl;
    try (split; [discriminate|intros [? [? [H _]]]; discriminate H]).
  destruct (Error response) as [e|] eqn:He; simpl.
  { split; [discriminate|].
    intros [response' [result [H [He' _]]]]. injection H as <-. congruence. }
  destruct (Result response) as [| | | | |result] eqn:Hr; simpl;
    try (split; [discriminate|];
         intros [response' [result' [H [_ [Hr' _]]]]]; injection H as <-;
         congruence).
  destruct (lookup result "tools") as [[| | | |found|]|] eqn:Ht; simpl;
    try (split; [discriminate|];
         intros [response' [result' [H [_ [Hr' Ht']]]]]; injection H as <-;
         rewrite Hr in Hr'; injection Hr' as <-; congruence).
  split.
  - intros H. injection H as <-. exists response, result. auto.
  - intros [response' [result' [H [_ [Hr' Ht']]]]]. injection H as <-.
    rewrite Hr in Hr'. injection Hr' as <-. congruence.
Qed.

Lemma ListTools_ok_iff_witness :
  returned (ListTools (Scenario.toolServer (Scenario.toolsOf "") "")
              (NewMCPClient Scenario.base) [])
  = Some (Ok []).
Proof.
  apply (proj2 (ListTools_ok_iff (Scenario.toolServer (Scenario.toolsOf "") "")
                  (NewMCPClient Scenario.base) [] [])).
  eexists _, _. repeat split; reflexivity.
Defined.

(* ================================================================== *)
(** ** Empty answers *)
(* ================================================================== *)

Lemma MarshalIndent_object_nonempty m : MarshalIndent (JObj m) <> "".
Proof.
  unfold MarshalIndent. destruct m as [|[k v] rest]; cbn [Encode.value].
  - discriminate.
  - cbn [append]. discriminate.
Qed.

Lemma directAnswer_empty rt body : directAnswer rt body = "" -> body = "".
Proof.
  unfold directAnswer. intros H.
  destruct (unmarshal_map rt body) as [result|]; [|exact H].
  destruct (String.eqb_spec (extractTextFromResult (ofMap result)) "")
    as [He|Hne]; simpl in H; [exact H|contradiction].
Qed.

(* ================================================================== *)
(** ** Where the requests go *)
(* ================================================================== *)

Lemma emits_weaken {A} (P Q : string -> Request -> Prop) (m : M A) :
  (forall base req, P base req -> Q base req) -> emits P m -> emits Q m.
Proof.
  intros HPQ Hm c log. destruct (Hm c log) as [sent [Hlog [Hall Hbase]]].
  exists sent. split; [exact Hlog|]. split; [|exact Hbase].
  apply Forall_impl with (2 := Hall). apply HPQ.
Qed.

Lemma local_directStage base req : directStage base req -> local base req.
Proof.
  intros [_ [endpoint [Hin Hurl]]]. exists endpoint. split; [exact Hurl|].
  right. simpl in Hin.
  repeat (destruct Hin as [<-|Hin]; [eexists; reflexivity|]). contradiction.
Qed.

Lemma local_flowStage base req : flowStage base req -> local base req.
Proof.
  intros [_ [Hurl|[Hurl|[endpoint [Hin Hurl]]]]].
  - exists "". split; [|left; reflexivity].
    rewrite Hurl. clear. induction base; simpl; congruence.
  - exists "/initialize". split; [exact Hurl|]. right. eexists; reflexivity.
  - exists endpoint. split; [exact Hurl|]. right. simpl in Hin.
    repeat (destruct Hin as [<-|Hin]; [eexists; reflexivity|]). contradiction.
Qed.

Lemma emits_local_tryAlternativeEndpoints rt prompt model :
  emits local (tryAlternativeEndpoints rt prompt model).
Proof.
  intros c log.
  unfold tryAlternativeEndpoints, bind.
  destruct (tryAlternativeEndpoints_loop_log rt
              (alternativeEndpoints prompt model) c log)
    as [k [r [_ [-> _]]]].
  exists (map (getRequest c) (tried rt c k (alternativeEndpoints prompt model))).
  split; [destruct r; reflexivity|]. split; [|destruct r; reflexivity].
  apply Forall_forall. intros req Hin. apply in_map_iff in Hin.
  destruct Hin as [endpoint [<- Hin]]. unfold tried in Hin.
  apply filter_In in Hin. destruct Hin as [Hin _].
  assert (Hall : In endpoint (alternativeEndpoints prompt model)).
  { rewrite <- (firstn_skipn k (alternativeEndpoints prompt model)).
    apply in_or_app. left. exact Hin. }
  clear Hin. rename Hall into Hin. exists endpoint.
  split; [unfold getRequest; reflexivity|]. right.
  unfold alternativeEndpoints in Hin. simpl in Hin.
  repeat (destruct Hin as [<-|Hin]; [eexists; reflexivity|]). contradiction.
Qed.

Lemma emits_local_GatherInformation rt prompt model :
  emits local (GatherInformation rt prompt model).
Proof.
  unfold GatherInformation. apply emits_bind.
  - apply (emits_weaken directStage); [apply local_directStage|].
    apply emits_tryDirectAPI.
  - intros [text|e]; [apply emits_ret|]. apply emits_bind.
    + apply (emits_weaken flowStage); [apply local_flowStage|].
      apply emits_tryMCPFlow.
    + intros [text|e']; [apply emits_ret|].
      apply emits_local_tryAlternativeEndpoints.
Qed.

(** X17: every request that [AIFunction] hands to [c.Client.Do] is
    addressed to http://localhost:8080 itself or to that base followed by
    an absolute path, and one call of [AIFunction] hands over at most 17
    of them.  This is about the URLs the code builds, which is what the
    log records: a redirect that net/http follows inside one call of
    [c.Client.Do] is not in the log and may lead elsewhere. *)
Theorem AIFunction_requests_local
  (rt : Runtime) (prompt model : string) (log : list Request) :
  exists sent,
    outcomeLog (AIFunction rt prompt model log) = (log ++ sent)%list
    /\ (List.length sent <= 17)%nat
    /\ Forall (local "http://localhost:8080") sent.
Proof.
  unfold AIFunction.
  destruct (String.eqb prompt "");
    [exists []; simpl; rewrite app_nil_r; repeat split; auto; lia|].
  destruct (String.eqb model "");
    [exists []; simpl; rewrite app_nil_r; repeat split; auto; lia|].
  cbv zeta.
  destruct (emits_local_GatherInformation rt prompt model
              (NewMCPClient "http://localhost:8080") log)
    as [sent [Hlog [Hall _]]].
  destruct (sendsAtMost_GatherInformation rt prompt model
              (NewMCPClient "http://localhost:8080") log)
    as [sent' [Hlog' Hlen]].
  assert (sent' = sent) as ->
    by (apply (app_inv_head log); congruence).
  exists sent.
  replace (outcomeLog (outcome _))
    with (logOf (GatherInformation rt prompt model
                   (NewMCPClient "http://localhost:8080") log))
    by (destruct (GatherInformation rt prompt model _ log); reflexivity).
  auto.
Qed.

(* ================================================================== *)
(** ** The database connection *)
(* ================================================================== *)

(** X18: [NewDB] fails with the missing-variables error, returning a nil
    handle, exactly when one of PG_HOST, PG_PORT, PG_USER, PG_PASS and
    PG_NAME is unset or empty, and then it neither opens nor pings a
    connection. *)
Theorem NewDB_missing_variable (p : DB.Platform) :
  (exists key, In key requiredVariables /\ DB.Getenv p key = "")
  <-> DB.NewDB p = (None, Some DB.missingVariables, []).
Proof.
  unfold DB.NewDB. cbv zeta. split.
  - intros [key [Hin Hempty]]. simpl in Hin.
    repeat (destruct Hin as [<-|Hin];
            [rewrite Hempty; cbn [String.eqb orb];
             rewrite ?orb_true_r; reflexivity|]).
    contradiction.
  - destruct (String.eqb_spec (DB.Getenv p "PG_HOST") "") as [H1|H1];
      [intros _; exists "PG_HOST"; simpl; auto|].
    destruct (String.eqb_spec (DB.Getenv p "PG_PORT") "") as [H2|H2];
      [intros _; exists "PG_PORT"; simpl; auto|].
    destruct (String.eqb_spec (DB.Getenv p "PG_USER") "") as [H3|H3];
      [intros _; exists "PG_USER"; simpl; auto|].
    destruct (String.eqb_spec (DB.Getenv p "PG_PASS") "") as [H4|H4];
      [intros _; exists "PG_PASS"; simpl; auto 6|].
    destruct (String.eqb_spec (DB.Getenv p "PG_NAME") "") as [H5|H5];
      [intros _; exists "PG_NAME"; simpl; auto 7|].
    cbn [orb].
    destruct (DB.sql_Open p "postgres" _) as [db|err]; [|discriminate].
    destruct (DB.db_Ping p db); discriminate.
Qed.

Lemma NewDB_missing_variable_witness :
  DB.NewDB (DB.demo "db.local" "5432" "app" "" "main" true)
  = (None, Some DB.missingVariables, []).
Proof.
  apply (proj1 (NewDB_missing_variable
                  (DB.demo "db.local" "5432" "app" "" "main" true))).
  exists "PG_PASS". split; [simpl; auto|reflexivity].
Defined.

(** X19: with the five variables set, [NewDB] opens the "postgres" driver
    once, on the connection string that splices the five values verbatim
    between the fixed keys and ends in sslmode=disable.  If [sql.Open]
    fails nothing is pinged and the handle is nil; otherwise the handle is
    pinged once and returned, also when the ping fails, in which case it
    comes back together with the error. *)
Theorem NewDB_connects (p : DB.Platform) :
  (forall key, In key requiredVariables -> DB.Getenv p key <> "") ->
  let config :=
    DB.psqlConfig (DB.Getenv p "PG_HOST") (DB.Getenv p "PG_PORT")
      (DB.Getenv p "PG_USER") (DB.Getenv p "PG_PASS") (DB.Getenv p "PG_NAME") in
  match DB.sql_Open p "postgres" config with
  | Err err =>
      DB.NewDB p
      = (None, Some (ErrorfW "error connecting to database: %w" err),
         [DB.Open "postgres" config])
  | Ok db =>
      exists e,
        DB.NewDB p = (Some db, e, [DB.Open "postgres" config; DB.Ping])
        /\ (e = None <-> DB.db_Ping p db = None)
        /\ (forall err, DB.db_Ping p db = Some err ->
              e = Some (ErrorfW "error pinging database: %w" err))
  end.
Proof.
  intros Hset. cbv zeta. unfold DB.NewDB. cbv zeta.
  assert (Hne : forall key, In key requiredVariables ->
                             String.eqb (DB.Getenv p key) "" = false).
  { intros key Hin. apply String.eqb_neq. apply Hset. exact Hin. }
  rewrite !Hne by (simpl; auto 7). cbn [orb].
  destruct (DB.sql_Open p "postgres" _) as [db|err]; [|reflexivity].
  destruct (DB.db_Ping p db) as [err|] eqn:Hping.
  - eexists. split; [reflexivity|]. split.
    + split; discriminate.
    + intros err' H. injection H as <-. reflexivity.
  - exists None. split; [reflexivity|]. split; [tauto|]. discriminate.
Qed.

Lemma NewDB_connects_witness :
  DB.NewDB (DB.demo "db.local" "5432" "app" "s3cret" "main" false)
  = (Some "host=db.local port=5432 user=app password=s3cret dbname=main sslmode=disable",
     Some (ErrorfW "error pinging database: %w" (LibError "dial tcp")),
     [DB.Open "postgres"
        "host=db.local port=5432 user=app password=s3cret dbname=main sslmode=disable";
      DB.Ping]).
Proof.
  pose proof (NewDB_connects
                (DB.demo "db.local" "5432" "app" "s3cret" "main" false)) as H.
  assert (Hset : forall key, In key requiredVariables ->
             DB.Getenv (DB.demo "db.local" "5432" "app" "s3cret" "main" false)
               key <> "").
  { intros key Hin. simpl in Hin.
    repeat (destruct Hin as [<-|Hin]; [discriminate|]). contradiction. }
  specialize (H Hset). cbv zeta in H. simpl DB.sql_Open in H.
  destruct H as [e [Hrun [_ Herr]]]. rewrite Hrun.
  rewrite (Herr (LibError "dial tcp") eq_refl). reflexivity.
Defined.

(* ================================================================== *)
(** ** The token after the negotiation *)
(* ================================================================== *)

(** X20: once the direct-API stage has failed and the session negotiation
    has left the client with a non-empty token, every request
    [GatherInformation] sends after the negotiation, JSON-RPC call or GET
    probe, carries that token under X-Session-ID. *)
Theorem GatherInformation_presents_token
  (rt : Runtime) (prompt model : string) (c c1 c0 : MCPClient)
  (log log1 log0 : list Request) (e : error) (r0 : option error) :
  tryDirectAPI rt prompt model c log = Done (Err e) c1 log1 ->
  CreateSession rt c1 log1 = Done r0 c0 log0 ->
  sessionID c0 <> "" ->
  exists sent,
    logOf (GatherInformation rt prompt model c log) = (log0 ++ sent)%list
    /\ Forall (fun req => In ("X-Session-ID", sessionID c0) (ReqHeader req))
              sent.
Proof.
  intros Hdirect Hsession Htoken.
  assert (Hpost : In ("X-Session-ID", sessionID c0)
                     (postHeaders (sessionID c0))).
  { unfold postHeaders. apply String.eqb_neq in Htoken. rewrite Htoken.
    simpl. auto. }
  destruct (tryMCPFlow_after_session rt prompt model c1 c0 log1 log0 r0 Hsession)
    as [sent [Hlog [_ Hall]]].
  destruct (tryMCPFlow_client rt prompt model c1 c0 log1 log0 r0 Hsession)
    as [Hsid _].
  assert (Hflow : Forall (fun req => In ("X-Session-ID", sessionID c0)
                                        (ReqHeader req)) sent).
  { apply Forall_impl with (2 := Hall).
    intros req [_ [_ ->]]. exact Hpost. }
  unfold GatherInformation, bind. rewrite Hdirect.
  destruct (tryMCPFlow rt prompt model c1 log1) as [[text|e'] c2 log2|msg c2 log2];
    simpl in Hlog, Hsid; try (exists sent; split; [exact Hlog|exact Hflow]).
  unfold tryAlternativeEndpoints, bind.
  destruct (tryAlternativeEndpoints_loop_log rt
              (alternativeEndpoints prompt model) c2 log2)
    as [k [r [_ [-> _]]]].
  exists (sent ++ map (getRequest c2)
                    (tried rt c2 k (alternativeEndpoints prompt model)))%list.
  split; [destruct r; simpl; rewrite Hlog, app_assoc; reflexivity|].
  apply Forall_app. split; [exact Hflow|].
  apply Forall_forall. intros req Hin. apply in_map_iff in Hin.
  destruct Hin as [endpoint [<- _]]. unfold getRequest. cbn [ReqHeader].
  rewrite Hsid. apply String.eqb_neq in Htoken. rewrite Htoken.
  left. reflexivity.
Qed.

Lemma GatherInformation_presents_token_witness :
  exists sent,
    logOf (GatherInformation Scenario.sessionOnly "p" "m"
             (NewMCPClient Scenario.base) [])
    = (logOf (CreateSession Scenario.sessionOnly (NewMCPClient Scenario.base)
                (logOf (tryDirectAPI Scenario.sessionOnly "p" "m"
                          (NewMCPClient Scenario.base) [])))
       ++ sent)%list
    /\ Forall (fun req => In ("X-Session-ID", "tok") (ReqHeader req)) sent.
Proof.
  pose (direct := tryDirectAPI Scenario.sessionOnly "p" "m"
                    (NewMCPClient Scenario.base) []).
  pose (session := CreateSession Scenario.sessionOnly (NewMCPClient Scenario.base)
                     (logOf direct)).
  apply (GatherInformation_presents_token Scenario.sessionOnly "p" "m"
           (NewMCPClient Scenario.base) (NewMCPClient Scenario.base)
           (withSession (NewMCPClient Scenario.base) "tok")
           [] (logOf direct) (logOf session)
           (Errorf "direct API calls failed") None
           ltac:(vm_compute; reflexivity) ltac:(vm_compute; reflexivity)).
  discriminate.
Defined.

(* ================================================================== *)
(** ** Tool selection *)
(* ================================================================== *)

(** X21: after a successful handshake and a tool list whose first entry
    has a string name, the flow calls that first tool, whatever follows it
    in the list, passing the prompt and the model under "prompt" and
    "model"; the answer of that one call decides the flow: its result goes
    through the text extractor, its error is returned as it is. *)
Theorem tryMCPFlow_calls_first_tool
  (rt : Runtime) (prompt model : string) (c c1 c2 : MCPClient)
  (log log1 log2 : list Request) (toolMap : list (string * JSON))
  (tools : list JSON) (toolName : string) :
  Initialize rt c log = Done None c1 log1 ->
  ListTools rt c1 log1 = Done (Ok (JObj toolMap :: tools)) c2 log2 ->
  lookup toolMap "name" = Some (JStr toolName) ->
  url_ok rt (BaseURL c2) = true ->
  exists r,
    tryMCPFlow rt prompt model c log
    = Done r (afterCalls 1 c2)
        (log2 ++ [rpcRequest c2 (toolCall (nextID c2) toolName prompt model)])
    /\ match returned (sendRequest rt
                         (toolCall (nextID c2) toolName prompt model)
                         (afterCalls 1 c2) log2) with
       | Some (Ok response) =>
           match Error response with
           | Some e => r = Err (ErrorfDS "MCP error %d: %s" (Code e) (Message e))
           | None => r = Ok (extractTextFromResult (Result response))
           end
       | Some (Err err) => r = Err err
       | None => False
       end.
Proof.
  intros Hinit Hlist Hname Hurl.
  unfold tryMCPFlow. unfold bind at 1. rewrite Hinit.
  unfold bind at 1. rewrite Hlist, Hname.
  unfold bind at 1. unfold CallTool. unfold bind at 1.
  unfold getNextID at 1. unfold bind at 1.
  change {| BaseURL := BaseURL c2; nextID := wrap (nextID c2 + 1);
            sessionID := sessionID c2 |} with (afterCalls 1 c2).
  change {| JSONRPC := "2.0"; ID := nextID c2; Method := "tools/call";
            Params := _ |} with (toolCall (nextID c2) toolName prompt model).
  assert (Hrun :
    exists r,
      sendRequest rt (toolCall (nextID c2) toolName prompt model)
        (afterCalls 1 c2) log2
      = Done r (afterCalls 1 c2)
          (log2 ++ [rpcRequest c2 (toolCall (nextID c2) toolName prompt model)])).
  { unfold sendRequest. rewrite bind_getClient. unfold NewRequest.
    cbn [afterCalls BaseURL]. rewrite Hurl.
    unfold bind at 1. unfold Do at 1.
    change (sessionHeaders _ (jsonHeaders _))
      with (rpcRequest c2 (toolCall (nextID c2) toolName prompt model)).
    destruct (client_do rt log2 _) as [resp|]; [|eexists; reflexivity].
    destruct (ReadError resp); [eexists; reflexivity|].
    destruct (negb (StatusCode resp =? 200)); [eexists; reflexivity|].
    destruct (unmarshal_response rt (RespBody resp)); eexists; reflexivity. }
  destruct Hrun as [r ->]. cbn [returned].
  destruct r as [response|err]; cbn [ret].
  - destruct (Error response) as [e|]; eexists; split; reflexivity.
  - eexists; split; reflexivity.
Qed.

Lemma tryMCPFlow_calls_first_tool_witness :
  let rt := Scenario.toolServer Scenario.weatherTool (Scenario.contentOf "Rainy") in
  exists r c3 log2,
    tryMCPFlow rt "p" "m" (NewMCPClient Scenario.base) []
    = Done r c3
        (log2 ++ [rpcRequest (NewMCPClient Scenario.base)
                    (toolCall 3 "weather" "p" "m")])
    /\ r = Ok "Rainy".
Proof.
  cbv zeta.
  pose (rt := Scenario.toolServer Scenario.weatherTool (Scenario.contentOf "Rainy")).
  pose (init := Initialize rt (NewMCPClient Scenario.base) []).
  pose (list := ListTools rt (clientOf init) (logOf init)).
  destruct (tryMCPFlow_calls_first_tool rt "p" "m"
              (NewMCPClient Scenario.base) (clientOf init) (clientOf list)
              [] (logOf init) (logOf list)
              [("name", JStr "weather")] [] "weather"
              ltac:(vm_compute; reflexivity) ltac:(vm_compute; reflexivity)
              eq_refl eq_refl) as [r [Hrun Hr]].
  exists r, (afterCalls 1 (clientOf list)), (logOf list).
  split; [exact Hrun|]. vm_compute in Hr. exact Hr.
Defined.

(* ================================================================== *)
(** ** Answers along a run *)
(* ================================================================== *)

Lemma eachAnswer_nil rt log P : eachAnswer rt log [] P.
Proof. intros [|x before] req after H; discriminate H. Qed.

Lemma eachAnswer_cons rt log req0 sent P :
  P (client_do rt log req0) ->
  eachAnswer rt (log ++ [req0]) sent P ->
  eachAnswer rt log (req0 :: sent) P.
Proof.
  intros Hhead Htail [|x before] req after Heq; simpl in Heq;
    injection Heq as <- Hrest.
  - rewrite app_nil_r. exact Hhead.
  - replace (log ++ req0 :: before)%list with ((log ++ [req0]) ++ before)%list
      by (rewrite <- app_assoc; reflexivity).
    apply (Htail before req after Hrest).
Qed.

Lemma earlierAnswers_nil rt log P : earlierAnswers rt log [] P.
Proof. intros [|x before] req after H; discriminate H. Qed.

Lemma earlierAnswers_single rt log req0 P : earlierAnswers rt log [req0] P.
Proof.
  intros [|x before] req after Heq Hafter; simpl in Heq.
  - injection Heq as _ <-. contradiction.
  - injection Heq as _ Hrest. destruct before; discriminate Hrest.
Qed.

Lemma earlierAnswers_cons rt log req0 sent P :
  P (client_do rt log req0) ->
  earlierAnswers rt (log ++ [req0]) sent P ->
  earlierAnswers rt log (req0 :: sent) P.
Proof.
  intros Hhead Htail [|x before] req after Heq Hafter; simpl in Heq;
    injection Heq as <- Hrest.
  - rewrite app_nil_r. exact Hhead.
  - replace (log ++ req0 :: before)%list with ((log ++ [req0]) ++ before)%list
      by (rewrite <- app_assoc; reflexivity).
    apply (Htail before req after Hrest Hafter).
Qed.

Lemma lastAnswer_single rt log req0 (P : option Response -> Prop) :
  P (client_do rt log req0) -> lastAnswer rt log [req0] P.
Proof.
  intros H. exists [], req0. rewrite app_nil_r. split; [reflexivity|exact H].
Qed.

Lemma lastAnswer_cons rt log req0 sent P :
  lastAnswer rt (log ++ [req0]) sent P -> lastAnswer rt log (req0 :: sent) P.
Proof.
  intros [before [req [-> H]]]. exists (req0 :: before), req.
  split; [reflexivity|].
  replace (log ++ req0 :: before)%list with ((log ++ [req0]) ++ before)%list
    by (rewrite <- app_assoc; reflexivity).
  exact H.
Qed.

(** The direct-API loop with the answers it went through. *)
Lemma tryDirectAPI_loop_trace rt prompt model endpoints :
  forall c log,
    exists k r,
      (k <= List.length endpoints)%nat
      /\ tryDirectAPI_loop rt prompt model endpoints c log
         = Done r c (log ++ map (directRequest c prompt model)
                              (tried rt c k endpoints))
      /\ earlierAnswers rt log
           (map (directRequest c prompt model) (tried rt c k endpoints)) not200
      /\ (r = None ->
          k = List.length endpoints
          /\ eachAnswer rt log
               (map (directRequest c prompt model) (tried rt c k endpoints))
               not200)
      /\ (forall text, r = Some text ->
            lastAnswer rt log
              (map (directRequest c prompt model) (tried rt c k endpoints))
              (fun answer =>
                 exists resp,
                   answer = Some resp /\ StatusCode resp = 200
                   /\ text = directAnswer rt (RespBody resp))).
Proof.
  induction endpoints as [|endpoint rest IH]; intros c log.
  - exists 0%nat, None. simpl. rewrite app_nil_r.
    split; [lia|]. split; [reflexivity|].
    split; [apply earlierAnswers_nil|].
    split; [intros _; split; [reflexivity|apply eachAnswer_nil]|].
    intros text H. discriminate H.
  - cbn [tryDirectAPI_loop]. rewrite bind_getClient. unfold NewRequest.
    destruct (url_ok rt (BaseURL c ++ endpoint)) eqn:Hurl.
    + unfold bind at 1. unfold Do at 1.
      change (sessionHeaders c (jsonHeaders _))
        with (directRequest c prompt model endpoint).
      assert (Hnext :
        not200 (client_do rt log (directRequest c prompt model endpoint)) ->
        exists k r,
          (k <= List.length (endpoint :: rest))%nat
          /\ tryDirectAPI_loop rt prompt model rest c
               (log ++ [directRequest c prompt model endpoint])%list
             = Done r c (log ++ map (directRequest c prompt model)
                                  (tried rt c k (endpoint :: rest)))%list
          /\ earlierAnswers rt log
               (map (directRequest c prompt model)
                    (tried rt c k (endpoint :: rest))) not200
          /\ (r = None ->
              k = List.length (endpoint :: rest)
              /\ eachAnswer rt log
                   (map (directRequest c prompt model)
                        (tried rt c k (endpoint :: rest))) not200)
          /\ (forall text, r = Some text ->
                lastAnswer rt log
                  (map (directRequest c prompt model)
                       (tried rt c k (endpoint :: rest)))
                  (fun answer =>
                     exists resp,
                       answer = Some resp /\ StatusCode resp = 200
                       /\ text = directAnswer rt (RespBody resp)))).
      { intros Hhead.
        destruct (IH c (log ++ [directRequest c prompt model endpoint])%list)
          as [k [r [Hk [Hrun [Hearlier [Hnone Hsome]]]]]].
        exists (S k), r. rewrite tried_keep by exact Hurl.
        rewrite Hrun, <- app_assoc. cbn [map List.length app].
        split; [lia|]. split; [reflexivity|].
        split; [apply earlierAnswers_cons; assumption|].
        split.
        - intros Hr. destruct (Hnone Hr) as [-> Heach].
          split; [reflexivity|]. apply eachAnswer_cons; assumption.
        - intros text Hr. apply lastAnswer_cons. apply Hsome. exact Hr. }
      destruct (client_do rt log (directRequest c prompt model endpoint))
        as [resp|] eqn:Hdo; [|apply Hnext; intros resp H; discriminate H].
      destruct (StatusCode resp =? 200) eqn:Hstatus.
      * apply Z.eqb_eq in Hstatus.
        exists 1%nat, (Some (directAnswer rt (RespBody resp))).
        rewrite tried_keep by exact Hurl. cbn [map tried firstn filter app].
        unfold tried. cbn [firstn filter map List.length].
        split; [lia|]. split; [reflexivity|].
        split; [apply earlierAnswers_single|].
        split; [discriminate|].
        intros text H. injection H as <-. apply lastAnswer_single.
        exists resp. auto.
      * apply Z.eqb_neq in Hstatus. apply Hnext.
        intros resp' H. injection H as <-. exact Hstatus.
    + destruct (IH c log) as [k [r [Hk [Hrun [Hearlier [Hnone Hsome]]]]]].
      exists (S k), r. rewrite tried_skip by exact Hurl. cbn [List.length].
      split; [lia|]. split; [exact Hrun|]. split; [exact Hearlier|].
      split; [|exact Hsome].
      intros Hr. destruct (Hnone Hr) as [-> Heach]. auto.
Qed.

(** X6: the direct-API probe goes through its six endpoints in list order,
    skipping those whose URL does not parse, and stops at the first 200:
    the requests it hands to [c.Client.Do] are exactly [directRequest] for
    the first [k] endpoints; every request followed by another one met a
    transport error or a status other than 200; when the probe returns a
    text, the last request was answered 200 and the text is what the
    answer's body yields; when it fails, all six endpoints were gone
    through and none answered 200.  The client is handed back unchanged
    (no id consumed, no token set). *)
Theorem tryDirectAPI_requests
  (rt : Runtime) (prompt model : string) (c : MCPClient) (log : list Request) :
  exists k r,
    (k <= 6)%nat
    /\ tryDirectAPI rt prompt model c log
       = Done r c (log ++ map (directRequest c prompt model)
                            (tried rt c k directEndpoints))
    /\ earlierAnswers rt log
         (map (directRequest c prompt model) (tried rt c k directEndpoints))
         not200
    /\ (forall e, r = Err e ->
          k = 6%nat /\ e = Errorf "direct API calls failed"
          /\ eachAnswer rt log
               (map (directRequest c prompt model)
                    (tried rt c k directEndpoints)) not200)
    /\ (forall text, r = Ok text ->
          lastAnswer rt log
            (map (directRequest c prompt model) (tried rt c k directEndpoints))
            (fun answer =>
               exists resp,
                 answer = Some resp /\ StatusCode resp = 200
                 /\ text = directAnswer rt (RespBody resp))).
Proof.
  destruct (tryDirectAPI_loop_trace rt prompt model directEndpoints c log)
    as [k [r [Hk [Hrun [Hearlier [Hnone Hsome]]]]]].
  unfold tryDirectAPI, bind. rewrite Hrun.
  destruct r as [text|].
  - exists k, (Ok text). split; [exact Hk|]. split; [reflexivity|].
    split; [exact Hearlier|]. split; [intros e He; discriminate He|].
    intros text' H. injection H as <-. apply Hsome. reflexivity.
  - exists k, (Err (Errorf "direct API calls failed")).
    split; [exact Hk|]. split; [reflexivity|]. split; [exact Hearlier|].
    split; [|intros text H; discriminate H].
    intros e He. injection He as <-. destruct (Hnone eq_refl) as [-> Heach].
    auto.
Qed.

(** The GET loop with the answers it went through. *)
Lemma tryAlternativeEndpoints_loop_trace rt endpoints :
  forall c log,
    exists k r,
      (k <= List.length endpoints)%nat
      /\ tryAlternativeEndpoints_loop rt endpoints c log
         = Done r c (log ++ map (getRequest c) (tried rt c k endpoints))
      /\ earlierAnswers rt log (map (getRequest c) (tried rt c k endpoints))
           not200
      /\ (r = None ->
          k = List.length endpoints
          /\ eachAnswer rt log (map (getRequest c) (tried rt c k endpoints))
               not200)
      /\ (forall body, r = Some body ->
            lastAnswer rt log (map (getRequest c) (tried rt c k endpoints))
              (fun answer =>
                 exists resp,
                   answer = Some resp /\ StatusCode resp = 200
                   /\ body = RespBody resp)).
Proof.
  induction endpoints as [|endpoint rest IH]; intros c log.
  - exists 0%nat, None. simpl. rewrite app_nil_r.
    split; [lia|]. split; [reflexivity|].
    split; [apply earlierAnswers_nil|].
    split; [intros _; split; [reflexivity|apply eachAnswer_nil]|].
    intros body H. discriminate H.
  - cbn [tryAlternativeEndpoints_loop]. rewrite bind_getClient.
    unfold NewRequest.
    destruct (url_ok rt (BaseURL c ++ endpoint)) eqn:Hurl.
    + unfold bind at 1. unfold Do at 1.
      replace (if String.eqb (sessionID c) "" then _ else _)
        with (getRequest c endpoint)
        by (unfold getRequest; destruct (String.eqb (sessionID c) "");
            reflexivity).
      assert (Hnext :
        not200 (client_do rt log (getRequest c endpoint)) ->
        exists k r,
          (k <= List.length (endpoint :: rest))%nat
          /\ tryAlternativeEndpoints_loop rt rest c
               (log ++ [getRequest c endpoint])%list
             = Done r c (log ++ map (getRequest c)
                                  (tried rt c k (endpoint :: rest)))%list
          /\ earlierAnswers rt log
               (map (getRequest c) (tried rt c k (endpoint :: rest))) not200
          /\ (r = None ->
              k = List.length (endpoint :: rest)
              /\ eachAnswer rt log
                   (map (getRequest c) (tried rt c k (endpoint :: rest)))
                   not200)
          /\ (forall body, r = Some body ->
                lastAnswer rt log
                  (map (getRequest c) (tried rt c k (endpoint :: rest)))
                  (fun answer =>
                     exists resp,
                       answer = Some resp /\ StatusCode resp = 200
                       /\ body = RespBody resp))).
      { intros Hhead.
        destruct (IH c (log ++ [getRequest c endpoint])%list)
          as [k [r [Hk [Hrun [Hearlier [Hnone Hsome]]]]]].
        exists (S k), r. rewrite tried_keep by exact Hurl.
        rewrite Hrun, <- app_assoc. cbn [map List.length app].
        split; [lia|]. split; [reflexivity|].
        split; [apply earlierAnswers_cons; assumption|].
        split.
        - intros Hr. destruct (Hnone Hr) as [-> Heach].
          split; [reflexivity|]. apply eachAnswer_cons; assumption.
        - intros body Hr. apply lastAnswer_cons. apply Hsome. exact Hr. }
      destruct (client_do rt log (getRequest c endpoint))
        as [resp|] eqn:Hdo; [|apply Hnext; intros resp H; discriminate H].
      destruct (StatusCode resp =? 200) eqn:Hstatus.
      * apply Z.eqb_eq in Hstatus.
        exists 1%nat, (Some (RespBody resp)).
        rewrite tried_keep by exact Hurl.
        unfold tried. cbn [firstn filter map List.length].
        split; [lia|]. split; [reflexivity|].
        split; [apply earlierAnswers_single|].
        split; [discriminate|].
        intros body H. injection H as <-. apply lastAnswer_single.
        exists resp. auto.
      * apply Z.eqb_neq in Hstatus. apply Hnext.
        intros resp' H. injection H as <-. exact Hstatus.
    + destruct (IH c log) as [k [r [Hk [Hrun [Hearlier [Hnone Hsome]]]]]].
      exists (S k), r. rewrite tried_skip by exact Hurl. cbn [List.length].
      split; [lia|]. split; [exact Hrun|]. split; [exact Hearlier|].
      split; [|exact Hsome].
      intros Hr. destruct (Hnone Hr) as [-> Heach]. auto.
Qed.

(** X7: the GET probe goes through its three paths in order, skipping
    unparsable URLs, and stops at the first 200: its requests are exactly
    [getRequest] for the first [k] paths, each a GET without body and
    without Content-Type or Accept header that carries the token under
    X-Session-ID alone when the client holds one; every request followed
    by another one met a transport error or a status other than 200; when
    the probe returns a body the last request was answered 200 with that
    body; when it fails all three paths were gone through and none
    answered 200.  The client is handed back unchanged. *)
Theorem tryAlternativeEndpoints_requests
  (rt : Runtime) (prompt model : string) (c : MCPClient) (log : list Request) :
  exists k r,
    (k <= 3)%nat
    /\ tryAlternativeEndpoints rt prompt model c log
       = Done r c (log ++ map (getRequest c)
                            (tried rt c k (alternativeEndpoints prompt model)))
    /\ earlierAnswers rt log
         (map (getRequest c) (tried rt c k (alternativeEndpoints prompt model)))
         not200
    /\ (forall e, r = Err e ->
          k = 3%nat /\ e = Errorf "all approaches failed"
          /\ eachAnswer rt log
               (map (getRequest c)
                    (tried rt c k (alternativeEndpoints prompt model))) not200)
    /\ (forall body, r = Ok body ->
          lastAnswer rt log
            (map (getRequest c)
                 (tried rt c k (alternativeEndpoints prompt model)))
            (fun answer =>
               exists resp,
                 answer = Some resp /\ StatusCode resp = 200
                 /\ body = RespBody resp)).
Proof.
  destruct (tryAlternativeEndpoints_loop_trace rt
              (alternativeEndpoints prompt model) c log)
    as [k [r [Hk [Hrun [Hearlier [Hnone Hsome]]]]]].
  unfold tryAlternativeEndpoints, bind. rewrite Hrun.
  destruct r as [body|].
  - exists k, (Ok body). split; [exact Hk|]. split; [reflexivity|].
    split; [exact Hearlier|]. split; [intros e He; discriminate He|].
    intros body' H. injection H as <-. apply Hsome. reflexivity.
  - exists k, (Err (Errorf "all approaches failed")).
    split; [exact Hk|]. split; [reflexivity|]. split; [exact Hearlier|].
    split; [|intros body H; discriminate H].
    intros e He. injection He as <-. destruct (Hnone eq_refl) as [-> Heach].
    auto.
Qed.

(** The session loop with the answers it went through. *)
Lemma CreateSession_loop_trace rt endpoints :
  forall c log,
    exists k r c',
      (k <= List.length endpoints)%nat
      /\ (endpoints <> [] -> (1 <= k)%nat)
      /\ CreateSession_loop rt endpoints c log
         = Done r c' (log ++ map (sessionRequest c) (tried rt c k endpoints))
      /\ earlierAnswers rt log
           (map (sessionRequest c) (tried rt c k endpoints)) (noToken rt)
      /\ (r = false ->
          k = List.length endpoints /\ c' = c
          /\ eachAnswer rt log
               (map (sessionRequest c) (tried rt c k endpoints)) (noToken rt))
      /\ (r = true ->
          exists token,
            c' = withSession c token
            /\ lastAnswer rt log
                 (map (sessionRequest c) (tried rt c k endpoints))
                 (givesToken rt token)).
Proof.
  induction endpoints as [|endpoint rest IH]; intros c log.
  - exists 0%nat, false, c. simpl. rewrite app_nil_r.
    split; [lia|]. split; [intros H; contradiction|].
    split; [reflexivity|]. split; [apply earlierAnswers_nil|].
    split; [intros _; repeat split; apply eachAnswer_nil|].
    intros H. discriminate H.
  - cbn [CreateSession_loop]. rewrite bind_getClient. unfold NewRequest.
    destruct (url_ok rt (BaseURL c ++ endpoint)) eqn:Hurl.
    + unfold bind at 1. unfold Do at 1.
      change (jsonHeaders _) with (sessionRequest c endpoint).
      assert (Hnext :
        noToken rt (client_do rt log (sessionRequest c endpoint)) ->
        exists k r c',
          (k <= List.length (endpoint :: rest))%nat
          /\ (endpoint :: rest <> [] -> (1 <= k)%nat)
          /\ CreateSession_loop rt rest c
               (log ++ [sessionRequest c endpoint])%list
             = Done r c' (log ++ map (sessionRequest c)
                                   (tried rt c k (endpoint :: rest)))%list
          /\ earlierAnswers rt log
               (map (sessionRequest c) (tried rt c k (endpoint :: rest)))
               (noToken rt)
          /\ (r = false ->
              k = List.length (endpoint :: rest) /\ c' = c
              /\ eachAnswer rt log
                   (map (sessionRequest c) (tried rt c k (endpoint :: rest)))
                   (noToken rt))
          /\ (r = true ->
              exists token,
                c' = withSession c token
                /\ lastAnswer rt log
                     (map (sessionRequest c) (tried rt c k (endpoint :: rest)))
                     (givesToken rt token))).
      { intros Hhead.
        destruct (IH c (log ++ [sessionRequest c endpoint])%list)
          as [k [r [c' [Hk [_ [Hrun [Hearlier [Hfalse Htrue]]]]]]]].
        exists (S k), r, c'. rewrite tried_keep by exact Hurl.
        rewrite Hrun, <- app_assoc. cbn [map List.length app].
        split; [lia|]. split; [intros _; lia|]. split; [reflexivity|].
        split; [apply earlierAnswers_cons; assumption|].
        split.
        - intros Hr. destruct (Hfalse Hr) as [-> [-> Heach]].
          repeat split. apply eachAnswer_cons; assumption.
        - intros Hr. destruct (Htrue Hr) as [token [-> Hlast]].
          exists token. split; [reflexivity|]. apply lastAnswer_cons.
          exact Hlast. }
      destruct (client_do rt log (sessionRequest c endpoint))
        as [resp|] eqn:Hdo;
        [|apply Hnext; intros resp H; discriminate H].
      destruct ((StatusCode resp =? 200) || (StatusCode resp =? 201))%bool
        eqn:Hstatus.
      * destruct (sessionToken rt resp) as [token|] eqn:Htoken.
        -- exists 1%nat, true, (withSession c token).
           rewrite tried_keep by exact Hurl.
           unfold tried. cbn [firstn filter map List.length].
           split; [lia|]. split; [intros _; lia|]. split; [reflexivity|].
           split; [apply earlierAnswers_single|].
           split; [discriminate|].
           intros _. exists token. split; [reflexivity|].
           apply lastAnswer_single. exists resp.
           split; [exact Hdo|]. split; [|exact Htoken].
           apply orb_true_iff in Hstatus.
           destruct Hstatus as [H|H]; apply Z.eqb_eq in H; auto.
        -- apply Hnext. intros resp' H _. injection H as <-. exact Htoken.
      * apply Hnext. intros resp' H Hs. injection H as <-.
        apply orb_false_iff in Hstatus. destruct Hstatus as [H1 H2].
        apply Z.eqb_neq in H1, H2. destruct Hs; contradiction.
    + destruct (IH c log)
        as [k [r [c' [Hk [_ [Hrun [Hearlier [Hfalse Htrue]]]]]]]].
      exists (S k), r, c'. rewrite tried_skip by exact Hurl.
      cbn [List.length].
      split; [lia|]. split; [intros _; lia|]. split; [exact Hrun|].
      split; [exact Hearlier|]. split; [|exact Htrue].
      intros Hr. destruct (Hfalse Hr) as [-> [-> Heach]]. auto.
Qed.

(** X9: the session negotiation goes through its four endpoints in list
    order and stops at the first whose 200/201 answer yields a token:
    every session request followed by another request met a transport
    error, another status or an answer without token.  Either the last
    session request yielded the token, which is stored, and nil is
    returned; or all four were gone through without a token and the
    [/initialize] path decides: unparsable URL or transport error, an
    error with the client unchanged; an answer with a header or cookie
    token, nil with that token stored; an answer without, the error
    "could not establish session".  Each request is a POST with exactly
    the Content-Type and Accept headers, so none carries a session header
    even when the client already holds a token. *)
Theorem CreateSession_requests
  (rt : Runtime) (c : MCPClient) (log : list Request) :
  exists k last r c',
    (1 <= k <= 4)%nat
    /\ CreateSession rt c log
       = Done r c' (log ++ map (sessionRequest c) (tried rt c k sessionEndpoints)
                        ++ last)
    /\ Forall (fun req =>
                 ReqMethod req = "POST"
                 /\ ReqHeader req = [("Content-Type", "application/json");
                                     ("Accept", "application/json")])
              (map (sessionRequest c) (tried rt c k sessionEndpoints) ++ last)
    /\ earlierAnswers rt log
         (map (sessionRequest c) (tried rt c k sessionEndpoints)) (noToken rt)
    /\ ((last = [] /\ r = None
         /\ exists token,
              c' = withSession c token
              /\ lastAnswer rt log
                   (map (sessionRequest c) (tried rt c k sessionEndpoints))
                   (givesToken rt token))
        \/ (k = 4%nat
            /\ eachAnswer rt log
                 (map (sessionRequest c) (tried rt c k sessionEndpoints))
                 (noToken rt)
            /\ ((last = []
                 /\ url_ok rt (BaseURL c ++ "/initialize") = false
                 /\ (exists e, r = Some e) /\ c' = c)
                \/ (last = [initializeRequest c]
                    /\ match client_do rt
                               (log ++ map (sessionRequest c)
                                           (tried rt c k sessionEndpoints))
                               (initializeRequest c) with
                       | Some resp =>
                           match headerOrCookie resp with
                           | Some token =>
                               r = None /\ c' = withSession c token
                           | None =>
                               r = Some (Errorf "could not establish session")
                               /\ c' = c
                           end
                       | None => (exists e, r = Some e) /\ c' = c
                       end)))).
Proof.
  destruct (CreateSession_loop_trace rt sessionEndpoints c log)
    as [k [r [c' [Hk [Hpos [Hrun [Hearlier [Hfalse Htrue]]]]]]]].
  assert (Hk1 : (1 <= k <= 4)%nat)
    by (split; [apply Hpos; discriminate|exact Hk]).
  assert (Hshape : forall last,
    last = [] \/ last = [initializeRequest c] ->
    Forall (fun req =>
              ReqMethod req = "POST"
              /\ ReqHeader req = [("Content-Type", "application/json");
                                  ("Accept", "application/json")])
           (map (sessionRequest c) (tried rt c k sessionEndpoints) ++ last)).
  { intros last Hlast. apply Forall_app. split.
    - apply Forall_forall. intros req Hin. apply in_map_iff in Hin.
      destruct Hin as [endpoint [<- _]]. split; reflexivity.
    - destruct Hlast as [->| ->]; repeat constructor. }
  unfold CreateSession, bind. rewrite Hrun. destruct r.
  - destruct (Htrue eq_refl) as [token [-> Hlast]].
    exists k, [], None, (withSession c token). rewrite app_nil_r.
    split; [exact Hk1|]. split; [reflexivity|].
    split; [rewrite <- (app_nil_r (map _ _)); apply Hshape; auto|].
    split; [exact Hearlier|]. left. eauto.
  - destruct (Hfalse eq_refl) as [Hk4 [-> Heach]].
    unfold initializeWithSession. rewrite bind_getClient. unfold NewRequest.
    destruct (url_ok rt (BaseURL c ++ "/initialize")) eqn:Hurl.
    + unfold bind at 1. unfold Do at 1.
      change (jsonHeaders _) with (initializeRequest c).
      destruct (client_do rt _ (initializeRequest c)) as [resp|] eqn:Hdo.
      * destruct (headerOrCookie resp) as [token|] eqn:Htoken.
        -- eexists k, [initializeRequest c], _, _. rewrite <- app_assoc.
           split; [exact Hk1|]. split; [reflexivity|].
           split; [apply Hshape; auto|]. split; [exact Hearlier|].
           right. split; [exact Hk4|]. split; [exact Heach|]. right.
           split; [reflexivity|]. rewrite Hdo, Htoken. auto.
        -- eexists k, [initializeRequest c], _, _. rewrite <- app_assoc.
           split; [exact Hk1|]. split; [reflexivity|].
           split; [apply Hshape; auto|]. split; [exact Hearlier|].
           right. split; [exact Hk4|]. split; [exact Heach|]. right.
           split; [reflexivity|]. rewrite Hdo, Htoken. auto.
      * eexists k, [initializeRequest c], _, _. rewrite <- app_assoc.
        split; [exact Hk1|]. split; [reflexivity|].
        split; [apply Hshape; auto|]. split; [exact Hearlier|].
        right. split; [exact Hk4|]. split; [exact Heach|]. right.
        split; [reflexivity|]. rewrite Hdo. eauto.
    + eexists k, [], _, _. rewrite app_nil_r.
      split; [exact Hk1|]. split; [reflexivity|].
      split; [rewrite <- (app_nil_r (map _ _)); apply Hshape; auto|].
      split; [exact Hearlier|].
      right. split; [exact Hk4|]. split; [exact Heach|]. left. eauto.
Qed.

(** X16: the extractor returns the empty string for an object only
    through the nested path, when [content[0].text] is the empty string
    and no recognised top-level field holds a non-empty string; and the
    direct-API probe returns the empty string only when the last request
    of that run was answered 200 with an empty body, since it falls back
    to the raw body whenever the extracted text is empty. *)
Theorem empty_answer_origin
  (rt : Runtime) (prompt model : string) (c : MCPClient) (log : list Request)
  (m : list (string * JSON)) :
  (extractTextFromResult (JObj m) = "" ->
   textFieldLoop m textFields = None
   /\ exists item items,
        lookup m "content" = Some (JArr (JObj item :: items))
        /\ lookup item "text" = Some (JStr ""))
  /\ (returned (tryDirectAPI rt prompt model c log) = Some (Ok "") ->
      exists before req resp,
        logOf (tryDirectAPI rt prompt model c log)
        = (log ++ before ++ [req])%list
        /\ client_do rt (log ++ before) req = Some resp
        /\ StatusCode resp = 200
        /\ RespBody resp = "").
Proof.
  split.
  - unfold extractTextFromResult.
    destruct (textFieldLoop m textFields) as [text|] eqn:Hloop.
    { intros ->. destruct (textFieldLoop_nonempty _ _ _ Hloop eq_refl). }
    unfold nestedContent.
    destruct (lookup m "content")
      as [[| | | |[|[| | | | |item] items]|]|] eqn:Hcontent;
      try (intros H; destruct (MarshalIndent_object_nonempty m H)).
    destruct (lookup item "text") as [[| | |text| |]|] eqn:Htext;
      try (intros H; destruct (MarshalIndent_object_nonempty m H)).
    intros ->. split; [reflexivity|]. eauto.
  - unfold tryDirectAPI, bind.
    destruct (tryDirectAPI_loop_trace rt prompt model directEndpoints c log)
      as [k [r [_ [-> [_ [_ Hsome]]]]]].
    destruct r as [text|]; simpl; [|discriminate].
    intros H. injection H as ->.
    destruct (Hsome "" eq_refl) as [before [req [Hsent [resp [Hdo [Hs Ha]]]]]].
    exists before, req, resp. rewrite Hsent.
    split; [reflexivity|]. split; [exact Hdo|]. split; [exact Hs|].
    apply (directAnswer_empty rt). symmetry. exact Ha.
Qed.

Lemma empty_answer_origin_witness :
  (extractTextFromResult (JObj [("content", JArr [JObj [("text", JStr "")]])]) = ""
   /\ textFieldLoop [("content", JArr [JObj [("text", JStr "")]])] textFields
      = None)
  /\ (returned (tryDirectAPI Scenario.mute "p" "m" (NewMCPClient Scenario.base) [])
      = Some (Ok "")
      /\ exists before req resp,
           logOf (tryDirectAPI Scenario.mute "p" "m"
                    (NewMCPClient Scenario.base) [])
           = ([] ++ before ++ [req])%list
           /\ client_do Scenario.mute ([] ++ before) req = Some resp
           /\ StatusCode resp = 200
           /\ RespBody resp = "").
Proof.
  pose proof (empty_answer_origin Scenario.mute "p" "m"
                (NewMCPClient Scenario.base) []
                [("content", JArr [JObj [("text", JStr "")]])]) as [H1 H2].
  split.
  - split; [reflexivity|]. apply H1. reflexivity.
  - split; [reflexivity|]. apply H2. reflexivity.
Defined.

(* ================================================================== *)
(** ** The protocol flow between the two probes *)
(* ================================================================== *)







